(** * Hisaab Kitaab pages: balances, date filter, PDF export and the Urdu font loader

    A shallow embedding of the logic of [src/pages/persons/Saudi.tsx], of the
    Special page and of [utils/pdfFonts.ts].

    - JavaScript numbers are IEEE 754 binary64 values: Rocq's primitive
      [float], with the same operations and the same rounding.
    - JavaScript strings are sequences of UTF-16 code units: [list N].
    - An optional field ([balance?: number]) is an [option]; [None] is
      [undefined].
    - React state is passed explicitly; calls into jsPDF, [alert] and
      [fetch] are recorded as a trace of effects. *)

From Stdlib Require Import List Bool NArith ZArith String Ascii DecimalString Floats Lia.
Import ListNotations.

Set Implicit Arguments.
Open Scope string_scope.
Open Scope list_scope.

(** ** JavaScript values *)

Module Js.

Definition JsString := list N.

(** An ASCII literal, one code unit per character. *)
Fixpoint lit (s : string) : list N :=
  match s with
  | EmptyString => []
  | String a r => N_of_ascii a :: lit r
  end.

(** Truthiness of a string: only [''] is falsy. *)
Definition truthyStr (s : JsString) : bool :=
  match s with
  | [] => false
  | _ :: _ => true
  end.

(** [s || d] on strings. *)
Definition orStr (s d : JsString) : JsString :=
  if truthyStr s then s else d.

(** Truthiness of a number: [0], [-0] and [NaN] are falsy. *)
Definition truthyNum (x : float) : bool :=
  negb (PrimFloat.eqb x 0 || PrimFloat.is_nan x).

(** [x || 0] on numbers. *)
Definition orZero (x : float) : float :=
  if truthyNum x then x else 0%float.

(** [a < b] on strings: lexicographic on code units, a proper prefix first. *)
Fixpoint str_ltb (a b : JsString) : bool :=
  match a, b with
  | _, [] => false
  | [], _ :: _ => true
  | x :: a', y :: b' =>
      if (x <? y)%N then true
      else if (y <? x)%N then false
      else str_ltb a' b'
  end.

(** [a > b] is [b < a]; [a <= b] is [!(b < a)]. *)
Definition str_gtb (a b : JsString) : bool := str_ltb b a.
Definition str_leb (a b : JsString) : bool := negb (str_ltb b a).

Fixpoint str_eqb (a b : JsString) : bool :=
  match a, b with
  | [], [] => true
  | x :: a', y :: b' => (x =? y)%N && str_eqb a' b'
  | _, _ => false
  end.

(** [String(n)] for an array length. *)
Definition ofNat (n : nat) : JsString :=
  lit (NilEmpty.string_of_uint (Nat.to_uint n)).

(** [arr.reduce((sum, x) => sum + f(x), 0)] *)
Definition reduceSum (A : Type) (f : A -> float) (l : list A) : float :=
  fold_left (fun sum x => (sum + f x)%float) l 0%float.

(** Equality of numbers as values: [==] on numbers, with [NaN] matched
    to [NaN]. It identifies [0] and [-0]. *)
Definition sameNumber (x y : float) : bool :=
  PrimFloat.eqb x y || (PrimFloat.is_nan x && PrimFloat.is_nan y).

End Js.

Import Js.

Coercion lit : string >-> list.

(** ** Formatting helpers of the runtime

    [formatNumber] comes from [@/data/dummyData] and [toFixed] from the
    language runtime; the pages only concatenate their results, so both are
    parameters of the row builders below. *)

Record Formatter := {
  formatNumber : float -> JsString;
  toFixed2 : float -> JsString
}.

(** ** Exceptions

    The handlers of the pages never read the message of an error raised by
    the runtime or by jsPDF, so those messages are placeholders. *)

Inductive Result (A : Type) : Type :=
| Ok (a : A)
| Throw (message : JsString).

Arguments Ok {A} a.
Arguments Throw {A} message.

(** ** utils/pdfFonts.ts *)

Module PdfFonts.

Definition fontUrl : JsString :=
  "https://cdn.jsdelivr.net/gh/google/fonts@main/ofl/notosansarabic/NotoSansArabic%5Bwdth%2Cwght%5D.ttf".

Definition altFontUrl : JsString :=
  "https://fonts.gstatic.com/s/notosansarabic/v18/nwpxtLGrOAZMl5nJ_wfgRg3DrWFZWsnVBJ_sS6tlqHHFlhQ5l3sQWIHPqzCfyGy2XMc2Rg5qM.woff2".

(** What [await fetch(url)] followed by [await response.arrayBuffer()]
    can do: the fetch rejects, or it yields a response whose [ok] flag is
    given and whose body, when asked for, is read ([Some]) or rejects
    ([None]). *)
Inductive FetchResult : Type :=
| NetworkError
| Response (ok : bool) (body : option (list Byte.byte)).

Definition Network := JsString -> FetchResult.

(** The world a load runs in: the network, and whether jsPDF accepts a
    font file when [addFont] is called on it. *)
Record World := {
  net : Network;
  acceptsFont : JsString -> bool
}.

(** The statements
    [const response = await fetch(url); if (response.ok) fontData = await response.arrayBuffer();]
    with [fontData] initially [null]. *)
Definition fetchIfOk (n : Network) (url : JsString)
  : Result (option (list Byte.byte)) :=
  match n url with
  | NetworkError => Throw "Failed to fetch"
  | Response ok body =>
      if ok then
        match body with
        | Some data => Ok (Some data)
        | None => Throw "Failed to read body"
        end
      else Ok None
  end.

(** The inner [try { primary } catch (e) { try { alternate } catch (e2) { throw } }]:
    the URLs fetched, in order, and the value of [fontData] or the error
    thrown. *)
Definition fetchFontData (n : Network)
  : list JsString * Result (option (list Byte.byte)) :=
  match fetchIfOk n fontUrl with
  | Ok fontData => ([fontUrl], Ok fontData)
  | Throw _ =>
      match fetchIfOk n altFontUrl with
      | Ok fontData => ([fontUrl; altFontUrl], Ok fontData)
      | Throw _ => ([fontUrl; altFontUrl], Throw "Both font CDNs failed")
      end
  end.

(** [binary += String.fromCharCode(bytes[i])] over the whole array. *)
Definition binaryOf (bytes : list Byte.byte) : JsString :=
  map Byte.to_N bytes.

Definition b64char (i : N) : N :=
  if (i <? 26)%N then (65 + i)%N
  else if (i <? 52)%N then (97 + (i - 26))%N
  else if (i <? 62)%N then (48 + (i - 52))%N
  else if (i =? 62)%N then 43%N
  else 47%N.

(** [btoa] on a binary string (every code unit below 256). *)
Fixpoint btoa (binary : JsString) : JsString :=
  match binary with
  | [] => []
  | [a] =>
      [b64char (a / 4); b64char ((a mod 4) * 16); 61%N; 61%N]
  | [a; b] =>
      [b64char (a / 4); b64char ((a mod 4) * 16 + b / 16);
       b64char ((b mod 16) * 4); 61%N]
  | a :: b :: c :: rest =>
      b64char (a / 4) :: b64char ((a mod 4) * 16 + b / 16)
        :: b64char ((b mod 16) * 4 + c / 64) :: b64char (c mod 64)
        :: btoa rest
  end.

(** A jsPDF document, as far as fonts go: its virtual file system and the
    keys of [getFontList()]. *)
Record Doc := {
  vfs : list (JsString * JsString);
  fontList : list JsString
}.

(** [new jsPDF(...)]: only the standard fonts. *)
Definition newDoc : Doc :=
  {| vfs := [];
     fontList := ["helvetica" : JsString; "Helvetica" : JsString;
                  "courier" : JsString; "Courier" : JsString;
                  "times" : JsString; "Times" : JsString;
                  "symbol" : JsString; "Symbol" : JsString;
                  "zapfdingbats" : JsString; "ZapfDingbats" : JsString] |}.

Definition addFileToVFS (name data : JsString) (doc : Doc) : Doc :=
  {| vfs := (name, data) :: vfs doc; fontList := fontList doc |}.

Definition vfsLookup (name : JsString) (doc : Doc) : JsString :=
  match find (fun kv => str_eqb (fst kv) name) (vfs doc) with
  | Some kv => snd kv
  | None => []
  end.

Definition addFont (w : World) (file fontName : JsString) (doc : Doc)
  : Result Doc :=
  if acceptsFont w (vfsLookup file doc)
  then Ok {| vfs := vfs doc; fontList := fontName :: fontList doc |}
  else Throw "Cannot parse font".

(** [fonts[name]] is truthy. *)
Definition hasFont (fonts : list JsString) (name : JsString) : bool :=
  existsb (str_eqb name) fonts.

(** Console output. *)
Inductive Console : Type :=
| ConsoleLog (message : JsString)
| ConsoleWarn (message : JsString)
| ConsoleError (message : JsString).

(** The outcome of running the body of the async arrow function inside
    [loadUrduFont] to its end. The body has a catch-all handler and no
    statement after it, so its promise is fulfilled whatever happens;
    [bodyLoaded] is the value the body writes to [fontCache.loaded]. *)
Record BodyRun := {
  bodyFetches : list JsString;
  bodyDoc : Doc;
  bodyLoaded : bool;
  bodyConsole : list Console
}.

Definition primaryWarning (fetches : list JsString) : list Console :=
  match fetches with
  | _ :: _ :: _ => [ConsoleWarn "Primary font CDN failed, trying alternative..."]
  | _ => []
  end.

Definition loadBody (w : World) (doc : Doc) : BodyRun :=
  let (fetches, fetched) := fetchFontData (net w) in
  let failed (d : Doc) :=
    {| bodyFetches := fetches; bodyDoc := d; bodyLoaded := false;
       bodyConsole := primaryWarning fetches
                        ++ [ConsoleError "Error loading Urdu font:"] |} in
  match fetched with
  | Throw _ => failed doc
  | Ok None => (* throw new Error('Failed to fetch font data') *) failed doc
  | Ok (Some fontData) =>
      let fontBase64 := btoa (binaryOf fontData) in
      let doc1 := addFileToVFS "NotoSansArabic-normal.ttf" fontBase64 doc in
      match addFont w "NotoSansArabic-normal.ttf" "NotoSansArabic" doc1 with
      | Throw _ => failed doc1
      | Ok doc2 =>
          {| bodyFetches := fetches; bodyDoc := doc2; bodyLoaded := true;
             bodyConsole := primaryWarning fetches
                              ++ [ConsoleLog "Urdu font loaded successfully"] |}
      end
  end.

(** *** The module state and the calls over time

    [fontCache] is one object for the whole module. Promises are named by
    the order of their creation. A call runs synchronously up to its first
    [await], which is the primary [fetch]; the rest of the body runs later,
    at a [Settle] event. *)
Record FontCache := {
  loaded : bool;
  promise : option nat
}.

Definition DocId := nat.

Record Runtime := {
  fontCache : FontCache;
  docs : list Doc;
  nextPromise : nat;
  inFlight : option (nat * DocId * World);
  fulfilled : list nat;
  fetchLog : list JsString;
  bodiesStarted : nat;
  returned : list nat;
  console : list Console
}.

Definition initial : Runtime :=
  {| fontCache := {| loaded := false; promise := None |};
     docs := [];
     nextPromise := 0;
     inFlight := None;
     fulfilled := [];
     fetchLog := [];
     bodiesStarted := 0;
     returned := [];
     console := [] |}.

Definition getDoc (rt : Runtime) (d : DocId) : Doc :=
  nth d (docs rt) newDoc.

Fixpoint setNth (A : Type) (n : nat) (x : A) (l : list A) : list A :=
  match l, n with
  | [], _ => []
  | _ :: t, O => x :: t
  | h :: t, S m => h :: setNth m x t
  end.

(** [new jsPDF(...)]: a fresh document. *)
Definition createDoc (rt : Runtime) : DocId * Runtime :=
  (List.length (docs rt),
   {| fontCache := fontCache rt;
      docs := docs rt ++ [newDoc];
      nextPromise := nextPromise rt;
      inFlight := inFlight rt;
      fulfilled := fulfilled rt;
      fetchLog := fetchLog rt;
      bodiesStarted := bodiesStarted rt;
      returned := returned rt;
      console := console rt |}).

(** [loadUrduFont(doc)]: the promise its [return] hands over, and the state
    when the call returns. The function is [async], so what the caller holds
    is a wrapper that settles exactly when the promise named here does. All
    the fetches of a started body are entered in [fetchLog] at the call, in
    the order in which the body will make them. *)
Definition loadUrduFont (w : World) (doc : DocId) (rt : Runtime)
  : nat * Runtime :=
  match promise (fontCache rt) with
  | Some p =>
      (p,
       {| fontCache := fontCache rt;
          docs := docs rt;
          nextPromise := nextPromise rt;
          inFlight := inFlight rt;
          fulfilled := fulfilled rt;
          fetchLog := fetchLog rt;
          bodiesStarted := bodiesStarted rt;
          returned := returned rt ++ [p];
          console := console rt |})
  | None =>
      let p := nextPromise rt in
      if loaded (fontCache rt) then
        (* Promise.resolve() *)
        (p,
         {| fontCache := fontCache rt;
            docs := docs rt;
            nextPromise := S p;
            inFlight := inFlight rt;
            fulfilled := p :: fulfilled rt;
            fetchLog := fetchLog rt;
            bodiesStarted := bodiesStarted rt;
            returned := returned rt ++ [p];
            console := console rt |})
      else
        (p,
         {| fontCache := {| loaded := loaded (fontCache rt); promise := Some p |};
            docs := docs rt;
            nextPromise := S p;
            inFlight := Some (p, doc, w);
            fulfilled := fulfilled rt;
            fetchLog := fetchLog rt
                          ++ bodyFetches (loadBody w (getDoc rt doc));
            bodiesStarted := S (bodiesStarted rt);
            returned := returned rt ++ [p];
            console := console rt |})
  end.

(** The in-flight body, if there is one, runs to its end. *)
Definition settle (rt : Runtime) : Runtime :=
  match inFlight rt with
  | None => rt
  | Some (p, doc, w) =>
      let run := loadBody w (getDoc rt doc) in
      {| fontCache := {| loaded := bodyLoaded run;
                         promise := promise (fontCache rt) |};
         docs := setNth doc (bodyDoc run) (docs rt);
         nextPromise := nextPromise rt;
         inFlight := None;
         fulfilled := p :: fulfilled rt;
         fetchLog := fetchLog rt;
         bodiesStarted := bodiesStarted rt;
         returned := returned rt;
         console := console rt ++ bodyConsole run |}
  end.

(** [await loadUrduFont(doc)]: the caller resumes once the promise it got
    is fulfilled. *)
Definition awaitLoadUrduFont (w : World) (doc : DocId) (rt : Runtime)
  : Runtime :=
  let (p, rt1) := loadUrduFont w doc rt in
  if existsb (Nat.eqb p) (fulfilled rt1) then rt1 else settle rt1.

(** What can happen to the module over time. *)
Inductive Event : Type :=
| Call (w : World) (doc : DocId)
| NewDocument
| Settle.

Definition step (rt : Runtime) (ev : Event) : Runtime :=
  match ev with
  | Call w doc => snd (loadUrduFont w doc rt)
  | NewDocument => snd (createDoc rt)
  | Settle => settle rt
  end.

Definition run (evs : list Event) (rt : Runtime) : Runtime :=
  fold_left step evs rt.

Definition isCall (ev : Event) : bool :=
  match ev with
  | Call _ _ => true
  | _ => false
  end.

(** *** [containsUrdu] *)

Definition inRange (lo hi c : N) : bool := ((lo <=? c) && (c <=? hi))%N.

(** One code unit against the character class
    [\u0600-\u06FF\u0750-\u077F\u08A0-\u08FF\uFB50-\uFDFF\uFE70-\uFEFF]. *)
Definition urduRegex (c : N) : bool :=
  inRange 0x0600 0x06FF c || inRange 0x0750 0x077F c
  || inRange 0x08A0 0x08FF c || inRange 0xFB50 0xFDFF c
  || inRange 0xFE70 0xFEFF c.

Definition containsUrdu (text : JsString) : bool :=
  if negb (truthyStr text) then false
  else existsb urduRegex text.

(** [setUrduFont] and [setEnglishFont]: the font they select. *)
Definition setUrduFont (cache : FontCache) : JsString :=
  if loaded cache then "NotoSansArabic" else "helvetica".

Definition setEnglishFont : JsString := "helvetica".

End PdfFonts.

(** ** What an export does to the outside world *)

Module Pdf.

Record CellStyles := {
  font : JsString;
  fontStyle : JsString
}.

Inductive TableSection : Type :=
| Head
| Body.

(** A parsed cell: [cell.text] is the content split into lines. *)
Record Cell := {
  text : list JsString;
  styles : CellStyles
}.

Inductive Effect : Type :=
| Alert (message : JsString)
| Log (entry : PdfFonts.Console)
| NewJsPDF
| SetFontSize (size : nat)
| SetFont (name style : JsString)
| Text (content : JsString) (x y : nat)
| AutoTable (head body : list (list JsString))
            (headCells bodyCells : list (list Cell))
| SetPage (page : nat)
| FooterText (content : JsString)
| Save (fileName : JsString).

(** What the export reads from its surroundings: the two renderings of
    [new Date()], the page count jsPDF reports once the table is laid out,
    and the position in the trace of the first operation that throws, if
    one does. *)
Record Env := {
  isoString : JsString;
  localeString : JsString;
  numberOfPages : nat;
  throwAt : option nat
}.

(** The [catch] of [handleDownloadPDF]. *)
Definition failure : list Effect :=
  [Log (PdfFonts.ConsoleError "Error generating PDF:");
   Alert "Failed to generate PDF. Please check the console for details."].

(** The operations of the [try] block, cut at the one that throws. *)
Definition guarded (env : Env) (ops : list Effect) : list Effect :=
  match throwAt env with
  | Some n =>
      if (n <? List.length ops)%nat then firstn n ops ++ failure else ops
  | None => ops
  end.

(** [s.split('T')[0]] *)
Fixpoint beforeT (s : JsString) : JsString :=
  match s with
  | [] => []
  | c :: rest => if (c =? 84)%N then [] else c :: beforeT rest
  end.

(** [String(lines)] for an array of strings: the lines joined by commas. *)
Fixpoint joinComma (lines : list JsString) : JsString :=
  match lines with
  | [] => []
  | [l] => l
  | l :: rest => l ++ 44%N :: joinComma rest
  end.

(** The split of a cell's content at [\r\n], [\r] or [\n], as
    jspdf-autotable does it when it builds a cell. *)
Fixpoint splitLines (s : JsString) : list JsString :=
  match s with
  | [] => [[]]
  | c :: rest =>
      if (c =? 10)%N then [] :: splitLines rest
      else if (c =? 13)%N then
        match rest with
        | c' :: rest' =>
            if (c' =? 10)%N then [] :: splitLines rest'
            else [] :: splitLines rest
        | [] => [] :: splitLines rest
        end
      else
        match splitLines rest with
        | l :: ls => (c :: l) :: ls
        | [] => [[c]]
        end
  end.

Definition indexed (A : Type) (l : list A) : list (nat * A) :=
  combine (seq 0 (List.length l)) l.

(** The footer loop [for (let i = 1; i <= pageCount; i++)]. *)
Definition footer (pageCount : nat) : list Effect :=
  flat_map
    (fun i =>
       [SetPage i; SetFontSize 8; SetFont "helvetica" "italic";
        FooterText ("Page " ++ ofNat i ++ " of " ++ ofNat pageCount)])
    (seq 1 pageCount).

(** The fonts of the body cells of the tables drawn in a trace. *)
Definition bodyFonts (trace : list Effect) : list (list (list JsString)) :=
  flat_map
    (fun effect =>
       match effect with
       | AutoTable _ _ _ bodyCells =>
           [map (map (fun cell => font (styles cell))) bodyCells]
       | _ => []
       end)
    trace.

End Pdf.

(** ** State and handlers the two pages share *)

Module Page.

Record DateFilter := {
  fromDate : JsString;
  toDate : JsString
}.

Section WithEntry.

Variable Entry : Type.
Variable date : Entry -> JsString.

Record State := {
  entries : list Entry;
  filteredEntries : list Entry;
  dateFilter : DateFilter
}.

Definition initial : State :=
  {| entries := []; filteredEntries := [];
     dateFilter := {| fromDate := []; toDate := [] |} |}.

(** [fetchEntries]: [Some data] when [getAll] answers, [None] when it
    throws. *)
Definition fetchEntries (answer : option (list Entry)) (s : State) : State :=
  match answer with
  | Some data =>
      {| entries := data; filteredEntries := data;
         dateFilter := dateFilter s |}
  | None =>
      {| entries := []; filteredEntries := [];
         dateFilter := dateFilter s |}
  end.

Definition setDateFilter (f : DateFilter) (s : State) : State :=
  {| entries := entries s; filteredEntries := filteredEntries s;
     dateFilter := f |}.

(** The callback given to [entries.filter] in [handleFilter]. *)
Definition keeps (f : DateFilter) (entry : Entry) : bool :=
  let entryDate := date entry in
  if truthyStr (fromDate f) && str_ltb entryDate (fromDate f) then false
  else if truthyStr (toDate f) && str_gtb entryDate (toDate f) then false
  else true.

Definition handleFilter (s : State) : State :=
  if negb (truthyStr (fromDate (dateFilter s)))
     && negb (truthyStr (toDate (dateFilter s)))
  then
    {| entries := entries s; filteredEntries := entries s;
       dateFilter := dateFilter s |}
  else
    let filtered := filter (keeps (dateFilter s)) (entries s) in
    {| entries := entries s; filteredEntries := filtered;
       dateFilter := dateFilter s |}.

Definition handleClearFilter (s : State) : State :=
  {| entries := entries s; filteredEntries := entries s;
     dateFilter := {| fromDate := []; toDate := [] |} |}.

(** [filteredEntries.length > 0 ? filteredEntries : entries] *)
Definition dataToExport (s : State) : list Entry :=
  if (0 <? List.length (filteredEntries s))%nat
  then filteredEntries s
  else entries s.

(** The [dateRange] of the report header. *)
Definition dateRange (f : DateFilter) : JsString :=
  if truthyStr (fromDate f) && truthyStr (toDate f)
  then fromDate f ++ " to " ++ toDate f
  else "All Entries".

End WithEntry.

Arguments initial {Entry}.
Arguments Build_State {Entry} _ _ _.

End Page.

(** ** Saudi entries and their balance *)

Module Saudi.

(** Modelled from the spec: the [SaudiEntry] type is declared in
    [@/data/dummyData], which is not among the sources. The fields are those
    of the spec's data model, under the names the page reads them by; the
    two precomputed amounts are optional. *)
Record SaudiEntry := {
  id : JsString;
  date : JsString;
  time : JsString;
  refNo : JsString;
  pkrAmount : float;
  riyalRate : float;
  riyalAmount : option float;
  submittedSar : float;
  reference2 : JsString;
  balance : option float
}.

(** The expression used wherever a riyal amount is needed:
    [riyalAmount !== undefined ? riyalAmount
       : (riyalRate > 0 ? pkrAmount / riyalRate : 0)]. *)
Definition riyalAmountOf (e : SaudiEntry) : float :=
  match riyalAmount e with
  | Some r => r
  | None =>
      if PrimFloat.ltb 0 (riyalRate e)
      then (pkrAmount e / riyalRate e)%float
      else 0%float
  end.

(** Props handed to [<BalanceDisplay amount=... currency=... />]. *)
Record BalanceDisplay := {
  amount : float;
  currency : JsString
}.

(** The [render] of the table's [balance] column. *)
Definition renderBalance (row : SaudiEntry) : BalanceDisplay :=
  let balance0 := balance row in
  let balance1 :=
    match balance0 with
    | Some b => b
    | None =>
        let riyalAmount :=
          match riyalAmount row with
          | Some r => r
          | None =>
              if PrimFloat.ltb 0 (riyalRate row)
              then (pkrAmount row / riyalRate row)%float
              else 0%float
          end in
        (riyalAmount - submittedSar row)%float
    end in
  {| amount := balance1; currency := "SAR" |}.

(** The [balance] local of one body row in [handleDownloadPDF]. *)
Definition pdfBalance (entry : SaudiEntry) : float :=
  let riyalAmount := riyalAmountOf entry in
  match balance entry with
  | Some b => b
  | None => (riyalAmount - submittedSar entry)%float
  end.

(** One body row of [tableData]. *)
Definition tableRow (F : Formatter) (entry : SaudiEntry) : list JsString :=
  let riyalAmount := riyalAmountOf entry in
  let balance := pdfBalance entry in
  [ date entry;
    orStr (refNo entry) "-";
    formatNumber F (pkrAmount entry) ++ " PKR";
    formatNumber F riyalAmount ++ " SAR";
    formatNumber F (submittedSar entry) ++ " SAR";
    orStr (reference2 entry) "-";
    formatNumber F balance ++ " SAR";
    toFixed2 F (riyalRate entry) ].

(** *** The page state and its handlers *)

Definition State := Page.State SaudiEntry.

Definition fetchEntries := Page.fetchEntries (Entry := SaudiEntry).
Definition handleFilter : State -> State := Page.handleFilter date.
Definition handleClearFilter : State -> State :=
  Page.handleClearFilter (Entry := SaudiEntry).

(** The data handed to [<Table data=... />]. *)
Definition tableView (s : State) : list SaudiEntry := Page.dataToExport s.

(** *** [handleDownloadPDF] *)

Definition totalPKR (dataToExport : list SaudiEntry) : float :=
  reduceSum (fun entry => orZero (pkrAmount entry)) dataToExport.

Definition totalRiyal (dataToExport : list SaudiEntry) : float :=
  reduceSum
    (fun entry =>
       let riyalAmount :=
         match riyalAmount entry with
         | Some r => r
         | None =>
             if PrimFloat.ltb 0 (riyalRate entry)
             then (pkrAmount entry / riyalRate entry)%float
             else 0%float
         end in
       riyalAmount)
    dataToExport.

Definition totalSubmittedSAR (dataToExport : list SaudiEntry) : float :=
  reduceSum (fun entry => orZero (submittedSar entry)) dataToExport.

(** The number in the balance cell of the totals row. *)
Definition totalsBalance (dataToExport : list SaudiEntry) : float :=
  (totalRiyal dataToExport - totalSubmittedSAR dataToExport)%float.

Definition totalsRow (F : Formatter) (dataToExport : list SaudiEntry)
  : list JsString :=
  [ [];
    "TOTALS" : JsString;
    formatNumber F (totalPKR dataToExport) ++ " PKR";
    formatNumber F (totalRiyal dataToExport) ++ " SAR";
    formatNumber F (totalSubmittedSAR dataToExport) ++ " SAR";
    [];
    formatNumber F (totalsBalance dataToExport) ++ " SAR";
    [] ].

(** [tableData] after the [push] of the totals row. *)
Definition tableData (F : Formatter) (dataToExport : list SaudiEntry)
  : list (list JsString) :=
  map (tableRow F) dataToExport ++ [totalsRow F dataToExport].

Definition head : list (list JsString) :=
  [[ "Date" : JsString; "Name" : JsString; "PKR Order" : JsString;
     "Riyal Order" : JsString; "Total Riyal" : JsString;
     "Reference" : JsString; "Balance" : JsString;
     "Riyal Rate" : JsString ]].

(** The font and font style jspdf-autotable gives a cell from the options
    of the call, before the hook runs: [styles], then the section's
    styles, then, for body cells, [columnStyles]. *)
Definition columnFont (columnIndex : nat) : JsString :=
  match columnIndex with
  | 0 => "NotoSansArabic"
  | 1 | 2 | 3 | 4 => "helvetica"
  | 5 => "NotoSansArabic"
  | 6 | 7 => "helvetica"
  | _ => "NotoSansArabic"
  end.

Definition optionStyles (section : Pdf.TableSection) (columnIndex : nat)
  : Pdf.CellStyles :=
  match section with
  | Pdf.Head => {| Pdf.font := "NotoSansArabic"; Pdf.fontStyle := "bold" |}
  | Pdf.Body => {| Pdf.font := columnFont columnIndex;
                   Pdf.fontStyle := "normal" |}
  end.

(** The [didParseCell] hook. [fonts] are the keys of [doc.getFontList()]
    and [tableDataLength] is [tableData.length]. *)
Definition didParseCell (fonts : list JsString) (tableDataLength : nat)
           (rowIndex columnIndex : nat) (cell : Pdf.Cell) : Pdf.Cell :=
  let hasUrduFont :=
    PdfFonts.hasFont fonts "NotoSansArabic"
    || PdfFonts.hasFont fonts "NotoSansArabic-normal" in
  let cellText := Pdf.joinComma (Pdf.text cell) in
  let isUrduText := PdfFonts.containsUrdu cellText in
  let isUrduColumn := existsb (Nat.eqb columnIndex) [0; 5]%nat in
  let isNumericColumn := existsb (Nat.eqb columnIndex) [2; 3; 4; 6; 7]%nat in
  let font1 :=
    if isNumericColumn || (negb isUrduText && negb isUrduColumn)
    then ("helvetica" : JsString)
    else if hasUrduFont && (isUrduText || isUrduColumn)
    then (if hasUrduFont then "NotoSansArabic" : JsString
          else "helvetica" : JsString)
    else Pdf.font (Pdf.styles cell) in
  let fontStyle1 :=
    if (rowIndex =? tableDataLength - 1)%nat
    then ("bold" : JsString)
    else Pdf.fontStyle (Pdf.styles cell) in
  {| Pdf.text := Pdf.text cell;
     Pdf.styles := {| Pdf.font := font1; Pdf.fontStyle := fontStyle1 |} |}.

(** The cells of one section once jspdf-autotable has run the hook on
    each of them. *)
Definition parsedCells (fonts : list JsString) (tableDataLength : nat)
           (section : Pdf.TableSection) (rows : list (list JsString))
  : list (list Pdf.Cell) :=
  map (fun ir : nat * list JsString =>
         map (fun ic : nat * JsString =>
                didParseCell fonts tableDataLength (fst ir) (fst ic)
                  {| Pdf.text := Pdf.splitLines (snd ic);
                     Pdf.styles := optionStyles section (fst ic) |})
             (Pdf.indexed (snd ir)))
      (Pdf.indexed rows).

Definition fileName (f : Page.DateFilter) (isoNow : JsString) : JsString :=
  "Saudi_Hisaab_Kitaab_" ++ orStr (Page.fromDate f) "all" ++ "_"
    ++ orStr (Page.toDate f) "all" ++ "_" ++ Pdf.beforeT isoNow ++ ".pdf".

(** The operations of the [try] block once there is data and a document
    whose font list is [fonts]. *)
Definition exportOps (F : Formatter) (env : Pdf.Env) (fonts : list JsString)
           (f : Page.DateFilter) (dataToExport : list SaudiEntry)
  : list Pdf.Effect :=
  let body := tableData F dataToExport in
  [ Pdf.NewJsPDF;
    Pdf.Log (if PdfFonts.hasFont fonts "NotoSansArabic"
             then PdfFonts.ConsoleLog "Urdu font ready for PDF generation"
             else PdfFonts.ConsoleWarn
                    "Urdu font not found in font list, will use default");
    Pdf.SetFontSize 18;
    Pdf.SetFont PdfFonts.setEnglishFont "normal";
    Pdf.SetFont "helvetica" "bold";
    Pdf.Text "SAUDI HISAAB KITAAB REPORT" 14 15;
    Pdf.SetFontSize 10;
    Pdf.SetFont PdfFonts.setEnglishFont "normal";
    Pdf.SetFont "helvetica" "normal";
    Pdf.Text ("Date Range: " ++ Page.dateRange f) 14 22;
    Pdf.Text ("Generated: " ++ Pdf.localeString env) 14 27;
    Pdf.Text ("Total Entries: " ++ ofNat (List.length dataToExport)) 14 32;
    Pdf.AutoTable head body
      (parsedCells fonts (List.length body) Pdf.Head head)
      (parsedCells fonts (List.length body) Pdf.Body body) ]
  ++ Pdf.footer (Pdf.numberOfPages env)
  ++ [ Pdf.Save (fileName f (Pdf.isoString env)) ].

(** [handleDownloadPDF]: what the user and the document see, and the font
    loader's state afterwards. *)
Definition handleDownloadPDF (F : Formatter) (env : Pdf.Env)
           (w : PdfFonts.World) (s : State) (rt : PdfFonts.Runtime)
  : list Pdf.Effect * PdfFonts.Runtime :=
  let dataToExport := Page.dataToExport s in
  if (List.length dataToExport =? 0)%nat then
    ([Pdf.Alert "No data to export"], rt)
  else
    match Pdf.throwAt env with
    | Some 0 => (Pdf.failure, rt)
    | _ =>
        let (doc, rt1) := PdfFonts.createDoc rt in
        let rt2 := PdfFonts.awaitLoadUrduFont w doc rt1 in
        let fonts := PdfFonts.fontList (PdfFonts.getDoc rt2 doc) in
        (Pdf.guarded env
           (exportOps F env fonts (Page.dateFilter s) dataToExport),
         rt2)
    end.

End Saudi.

(** ** Special entries *)

Module Special.

Inductive BalanceType : Type :=
| Online
| Cash.

Definition balanceTypeName (b : BalanceType) : JsString :=
  match b with
  | Online => "Online"
  | Cash => "Cash"
  end.

(** Modelled from the spec: the [SpecialEntry] type is declared in
    [@/data/dummyData], which is not among the sources. The fields are those
    of the spec's data model, under the names the page reads them by. *)
Record SpecialEntry := {
  id : JsString;
  userName : JsString;
  date : JsString;
  balanceType : BalanceType;
  nameRupees : float;
  submittedRupees : float;
  referencePerson : option JsString;
  balance : option float
}.

(** Modelled from the spec: [calculateSpecialBalance] is imported from
    [@/data/dummyData], which is not among the sources; the spec gives
    "Special: balance = nameRupees - submittedRupees". *)
Definition calculateSpecialBalance (nameRupees submittedRupees : float)
  : float :=
  (nameRupees - submittedRupees)%float.

Record BalanceDisplay := {
  amount : float;
  currency : JsString
}.

(** The [render] of the table's [balance] column. *)
Definition renderBalance (row : SpecialEntry) : BalanceDisplay :=
  let balance :=
    match balance row with
    | Some b => b
    | None => calculateSpecialBalance (nameRupees row) (submittedRupees row)
    end in
  {| amount := balance; currency := "PKR" |}.

(** The [balance] local of one body row in [handleDownloadPDF]. *)
Definition pdfBalance (entry : SpecialEntry) : float :=
  match balance entry with
  | Some b => b
  | None => (nameRupees entry - submittedRupees entry)%float
  end.

(** [(entry as any).referencePerson || '-'] *)
Definition referenceOrDash (entry : SpecialEntry) : JsString :=
  match referencePerson entry with
  | Some r => orStr r "-"
  | None => "-"
  end.

Definition tableRow (F : Formatter) (entry : SpecialEntry) : list JsString :=
  let balance := pdfBalance entry in
  [ orStr (userName entry) "-";
    date entry;
    balanceTypeName (balanceType entry);
    formatNumber F (nameRupees entry) ++ " PKR";
    formatNumber F (submittedRupees entry) ++ " PKR";
    referenceOrDash entry;
    formatNumber F balance ++ " PKR" ].

Definition State := Page.State SpecialEntry.

Definition fetchEntries := Page.fetchEntries (Entry := SpecialEntry).
Definition handleFilter : State -> State := Page.handleFilter date.
Definition handleClearFilter : State -> State :=
  Page.handleClearFilter (Entry := SpecialEntry).

Definition tableView (s : State) : list SpecialEntry := Page.dataToExport s.

Definition totalNameRupees (dataToExport : list SpecialEntry) : float :=
  reduceSum (fun entry => orZero (nameRupees entry)) dataToExport.

Definition totalSubmittedRupees (dataToExport : list SpecialEntry) : float :=
  reduceSum (fun entry => orZero (submittedRupees entry)) dataToExport.

Definition totalBalance (dataToExport : list SpecialEntry) : float :=
  reduceSum
    (fun entry =>
       let balance :=
         match balance entry with
         | Some b => b
         | None => (nameRupees entry - submittedRupees entry)%float
         end in
       balance)
    dataToExport.

Definition totalsRow (F : Formatter) (dataToExport : list SpecialEntry)
  : list JsString :=
  [ [];
    [];
    "TOTALS" : JsString;
    formatNumber F (totalNameRupees dataToExport) ++ " PKR";
    formatNumber F (totalSubmittedRupees dataToExport) ++ " PKR";
    [];
    formatNumber F (totalBalance dataToExport) ++ " PKR" ].

Definition tableData (F : Formatter) (dataToExport : list SpecialEntry)
  : list (list JsString) :=
  map (tableRow F) dataToExport ++ [totalsRow F dataToExport].

(** The seven Urdu column titles; their text plays no part below, so each
    is kept as its UTF-16 code units. *)
Definition head : list (list JsString) :=
  [[ [0x0635; 0x0627; 0x0631; 0x0641; 0x0020; 0x06A9; 0x0627; 0x0020;
      0x0646; 0x0627; 0x0645]%N;
     [0x062A; 0x0627; 0x0631; 0x06CC; 0x062E]%N;
     [0x062D; 0x0633; 0x0627; 0x0628; 0x0020; 0x06A9; 0x06CC; 0x0020;
      0x0642; 0x0633; 0x0645]%N;
     [0x0631; 0x0642; 0x0645; 0x0020; 0x0628; 0x06BE; 0x06CC; 0x062C;
      0x06CC; 0x0020; 0x06AF; 0x0626; 0x06CC]%N;
     [0x062C; 0x0645; 0x0639; 0x0020; 0x0634; 0x062F; 0x06C1; 0x0020;
      0x0631; 0x0642; 0x0645]%N;
     [0x062D; 0x0648; 0x0627; 0x0644; 0x06C1; 0x0020; 0x0634; 0x062E;
      0x0635]%N;
     [0x0628; 0x0642; 0x06CC; 0x06C1; 0x0020; 0x0631; 0x0642; 0x0645]%N ]].

Definition optionStyles (section : Pdf.TableSection) : Pdf.CellStyles :=
  match section with
  | Pdf.Head => {| Pdf.font := "helvetica"; Pdf.fontStyle := "bold" |}
  | Pdf.Body => {| Pdf.font := "helvetica"; Pdf.fontStyle := "normal" |}
  end.

Definition didParseCell (tableDataLength : nat) (rowIndex : nat)
           (cell : Pdf.Cell) : Pdf.Cell :=
  if (rowIndex =? tableDataLength - 1)%nat
  then {| Pdf.text := Pdf.text cell;
          Pdf.styles := {| Pdf.font := Pdf.font (Pdf.styles cell);
                           Pdf.fontStyle := "bold" |} |}
  else cell.

Definition parsedCells (tableDataLength : nat) (section : Pdf.TableSection)
           (rows : list (list JsString)) : list (list Pdf.Cell) :=
  map (fun ir : nat * list JsString =>
         map (fun content : JsString =>
                didParseCell tableDataLength (fst ir)
                  {| Pdf.text := Pdf.splitLines content;
                     Pdf.styles := optionStyles section |})
             (snd ir))
      (Pdf.indexed rows).

Definition fileName (f : Page.DateFilter) (isoNow : JsString) : JsString :=
  "Special_Hisaab_Kitaab_" ++ orStr (Page.fromDate f) "all" ++ "_"
    ++ orStr (Page.toDate f) "all" ++ "_" ++ Pdf.beforeT isoNow ++ ".pdf".

Definition exportOps (F : Formatter) (env : Pdf.Env)
           (f : Page.DateFilter) (dataToExport : list SpecialEntry)
  : list Pdf.Effect :=
  let body := tableData F dataToExport in
  [ Pdf.NewJsPDF;
    Pdf.SetFontSize 18;
    Pdf.SetFont "helvetica" "bold";
    Pdf.Text "SPECIAL HISAAB KITAAB REPORT" 14 15;
    Pdf.SetFontSize 10;
    Pdf.SetFont "helvetica" "normal";
    Pdf.Text ("Date Range: " ++ Page.dateRange f) 14 22;
    Pdf.Text ("Generated: " ++ Pdf.localeString env) 14 27;
    Pdf.Text ("Total Entries: " ++ ofNat (List.length dataToExport)) 14 32;
    Pdf.AutoTable head body
      (parsedCells (List.length body) Pdf.Head head)
      (parsedCells (List.length body) Pdf.Body body) ]
  ++ Pdf.footer (Pdf.numberOfPages env)
  ++ [ Pdf.Save (fileName f (Pdf.isoString env)) ].

Definition handleDownloadPDF (F : Formatter) (env : Pdf.Env) (s : State)
  : list Pdf.Effect :=
  let dataToExport := Page.dataToExport s in
  if (List.length dataToExport =? 0)%nat then
    [Pdf.Alert "No data to export"]
  else
    Pdf.guarded env (exportOps F env (Page.dateFilter s) dataToExport).

End Special.

(** ** Reference statements and sample data *)

Module Spec.

(** [a <= b] on strings, as an order: strictly below, or equal. *)
Definition str_le (a b : JsString) : Prop :=
  str_ltb a b = true \/ a = b.

(** [fromDate <= d <= toDate], a missing bound (the empty string) leaving
    its side open. *)
Definition withinBounds (f : Page.DateFilter) (d : JsString) : Prop :=
  (Page.fromDate f = [] \/ str_le (Page.fromDate f) d)
  /\ (Page.toDate f = [] \/ str_le d (Page.toDate f)).

(** The Saudi invariants of the data model:
    [riyalAmount = riyalAmount_if_stored ELSE
       (riyalRate > 0 ? pkrAmount / riyalRate : 0)] and
    [balance = balance_if_stored ELSE (riyalAmount - submittedSar)]. *)
Definition saudiRiyalAmount (e : Saudi.SaudiEntry) : float :=
  match Saudi.riyalAmount e with
  | Some r => r
  | None =>
      if PrimFloat.ltb 0 (Saudi.riyalRate e)
      then PrimFloat.div (Saudi.pkrAmount e) (Saudi.riyalRate e)
      else 0%float
  end.

Definition saudiBalance (e : Saudi.SaudiEntry) : float :=
  match Saudi.balance e with
  | Some b => b
  | None => PrimFloat.sub (saudiRiyalAmount e) (Saudi.submittedSar e)
  end.

(** The Special balance invariant of the data model:
    [balance = balance_if_stored ELSE (nameRupees - submittedRupees)]. *)
Definition specialBalance (e : Special.SpecialEntry) : float :=
  match Special.balance e with
  | Some b => b
  | None => PrimFloat.sub (Special.nameRupees e) (Special.submittedRupees e)
  end.

(** The sum of a column of numbers: from [0], top to bottom. *)
Definition columnSum (values : list float) : float :=
  fold_left PrimFloat.add values 0%float.

(** The font loader before its first call. *)
Definition neverCalled (rt : PdfFonts.Runtime) : Prop :=
  PdfFonts.promise (PdfFonts.fontCache rt) = None
  /\ PdfFonts.loaded (PdfFonts.fontCache rt) = false
  /\ PdfFonts.inFlight rt = None
  /\ PdfFonts.fetchLog rt = []
  /\ PdfFonts.bodiesStarted rt = 0
  /\ PdfFonts.returned rt = []
  /\ PdfFonts.nextPromise rt = 0.

(** The font loader once a load in world [w] has been started: the promise
    is cached, and either the body is still in flight and nothing is loaded,
    or it has run and [loaded] holds its verdict. *)
Definition started (w : PdfFonts.World) (rt : PdfFonts.Runtime) : Prop :=
  PdfFonts.promise (PdfFonts.fontCache rt) = Some 0
  /\ ((exists doc, PdfFonts.inFlight rt = Some (0, doc, w))
         /\ PdfFonts.loaded (PdfFonts.fontCache rt) = false
      \/ PdfFonts.inFlight rt = None
         /\ PdfFonts.loaded (PdfFonts.fontCache rt)
            = PdfFonts.bodyLoaded (PdfFonts.loadBody w PdfFonts.newDoc)).

(** The number of calls among some events. *)
Definition calls (evs : list PdfFonts.Event) : nat :=
  List.length (filter PdfFonts.isCall evs).

(** [<from|all>] and [<to|all>] of the file name. *)
Definition boundOrAll (bound : JsString) : JsString :=
  match bound with
  | [] => "all"
  | _ :: _ => bound
  end.

(** [<ReportKind>_Hisaab_Kitaab_<from|all>_<to|all>_<isoDate>.pdf] *)
Definition reportFileName (kind : JsString) (f : Page.DateFilter)
           (isoDate : JsString) : JsString :=
  kind ++ "_Hisaab_Kitaab_" ++ boundOrAll (Page.fromDate f) ++ "_"
    ++ boundOrAll (Page.toDate f) ++ "_" ++ isoDate ++ ".pdf".

(** Exactly one of the two bounds is set. *)
Definition oneBound (f : Page.DateFilter) : Prop :=
  (Page.fromDate f <> [] /\ Page.toDate f = [])
  \/ (Page.fromDate f = [] /\ Page.toDate f <> []).

End Spec.

(** Concrete values used to exercise the statements below. *)

Module Sample.

(** A formatter that prints nothing; the statements hold for any. *)
Definition blank : Formatter :=
  {| formatNumber := fun _ => []; toFixed2 := fun _ => [] |}.

(** The spec's Saudi scenario: no stored amounts. *)
Definition scenario : Saudi.SaudiEntry :=
  {| Saudi.id := "1";
     Saudi.date := "2024-01-15";
     Saudi.time := "10:30";
     Saudi.refNo := "REF001";
     Saudi.pkrAmount := 500000;
     Saudi.riyalRate := 75.5;
     Saudi.riyalAmount := None;
     Saudi.submittedSar := 6000;
     Saudi.reference2 := "Ali";
     Saudi.balance := None |}.

(** The same entry with a zero rate. *)
Definition zeroRate : Saudi.SaudiEntry :=
  {| Saudi.id := "2";
     Saudi.date := "2024-01-20";
     Saudi.time := "11:00";
     Saudi.refNo := "REF002";
     Saudi.pkrAmount := 500000;
     Saudi.riyalRate := 0;
     Saudi.riyalAmount := None;
     Saudi.submittedSar := 6000;
     Saudi.reference2 := [];
     Saudi.balance := None |}.

(** The same entry again, carrying a stored balance of 1000. *)
Definition stored : Saudi.SaudiEntry :=
  {| Saudi.id := "3";
     Saudi.date := "2024-02-10";
     Saudi.time := "09:15";
     Saudi.refNo := "REF003";
     Saudi.pkrAmount := 500000;
     Saudi.riyalRate := 75.5;
     Saudi.riyalAmount := None;
     Saudi.submittedSar := 6000;
     Saudi.reference2 := "Ali";
     Saudi.balance := Some 1000%float |}.

(** The spec's Special scenario. *)
Definition special : Special.SpecialEntry :=
  {| Special.id := "1";
     Special.userName := "Ahmed";
     Special.date := "2024-01-15";
     Special.balanceType := Special.Online;
     Special.nameRupees := 150000;
     Special.submittedRupees := 120000;
     Special.referencePerson := None;
     Special.balance := None |}.

Definition january : Page.DateFilter :=
  {| Page.fromDate := "2024-01-01"; Page.toDate := "2024-01-31" |}.

Definition sinceFebruary : Page.DateFilter :=
  {| Page.fromDate := "2024-02-01"; Page.toDate := [] |}.

Definition noFilter : Page.DateFilter :=
  {| Page.fromDate := []; Page.toDate := [] |}.

Definition saudiPage : Page.State Saudi.SaudiEntry :=
  {| Page.entries := [scenario; zeroRate; stored];
     Page.filteredEntries := [scenario; zeroRate; stored];
     Page.dateFilter := noFilter |}.

Definition specialPage : Page.State Special.SpecialEntry :=
  {| Page.entries := [special];
     Page.filteredEntries := [special];
     Page.dateFilter := noFilter |}.

Definition fontBytes : list Byte.byte :=
  [Byte.x00; Byte.x01; Byte.x00; Byte.x00; Byte.x00].

(** Every fetch rejects. *)
Definition offline : PdfFonts.World :=
  {| PdfFonts.net := fun _ => PdfFonts.NetworkError;
     PdfFonts.acceptsFont := fun _ => true |}.

(** The primary source answers 404; the alternate would serve the font. *)
Definition primary404 : PdfFonts.World :=
  {| PdfFonts.net := fun url =>
       if str_eqb url PdfFonts.fontUrl
       then PdfFonts.Response false None
       else PdfFonts.Response true (Some fontBytes);
     PdfFonts.acceptsFont := fun _ => true |}.

(** Both sources serve the font. *)
Definition online : PdfFonts.World :=
  {| PdfFonts.net := fun _ => PdfFonts.Response true (Some fontBytes);
     PdfFonts.acceptsFont := fun _ => true |}.

Definition clock : Pdf.Env :=
  {| Pdf.isoString := "2024-02-01T09:30:00.000Z";
     Pdf.localeString := "2/1/2024, 2:30:00 PM";
     Pdf.numberOfPages := 1;
     Pdf.throwAt := None |}.

End Sample.

(** ** The rest of the pages and of the font utility *)

(** What the user does to a page between two renderings, as far as the
    entry lists and the date filter go. Every create, update and delete
    ends in a [fetchEntries]. *)
Module Session.

Section WithEntry.

Variable Entry : Type.
Variable date : Entry -> JsString.

Inductive Action : Type :=
| FetchEntries (answer : option (list Entry))
| ChangeFromDate (value : JsString)
| ChangeToDate (value : JsString)
| ClickFilter
| ClickClear.

(** [onChange] of the two date inputs:
    [setDateFilter({ ...dateFilter, fromDate: e.target.value })]. *)
Definition changeFromDate (value : JsString) (s : Page.State Entry)
  : Page.State Entry :=
  Page.setDateFilter
    {| Page.fromDate := value;
       Page.toDate := Page.toDate (Page.dateFilter s) |} s.

Definition changeToDate (value : JsString) (s : Page.State Entry)
  : Page.State Entry :=
  Page.setDateFilter
    {| Page.fromDate := Page.fromDate (Page.dateFilter s);
       Page.toDate := value |} s.

Definition act (s : Page.State Entry) (a : Action) : Page.State Entry :=
  match a with
  | FetchEntries answer => Page.fetchEntries answer s
  | ChangeFromDate value => changeFromDate value s
  | ChangeToDate value => changeToDate value s
  | ClickFilter => Page.handleFilter date s
  | ClickClear => Page.handleClearFilter s
  end.

Definition run (actions : list Action) (s : Page.State Entry)
  : Page.State Entry :=
  fold_left act actions s.

(** [disabled={filteredEntries.length === 0 && entries.length === 0}] of the
    download button. *)
Definition downloadDisabled (s : Page.State Entry) : bool :=
  (List.length (Page.filteredEntries s) =? 0)%nat
  && (List.length (Page.entries s) =? 0)%nat.


End WithEntry.

End Session.

(** The summary panel and the amount columns of the Saudi page. *)
Module SaudiView.

(** [Summary Totals {fromDate || toDate ? '(Filtered)' : '(All Entries)'}] *)
Definition summaryTitle (f : Page.DateFilter) : JsString :=
  "Summary Totals "
    ++ (if truthyStr (orStr (Page.fromDate f) (Page.toDate f))
        then "(Filtered)" : JsString
        else "(All Entries)" : JsString).

Record Summary := {
  title : JsString;
  totalPkrAmount : JsString;
  totalRiyalAmount : JsString;
  totalSubmittedSar : JsString
}.

(** The panel, present when [filteredEntries.length > 0 || entries.length > 0]. *)
Definition summary (F : Formatter) (s : Saudi.State) : option Summary :=
  if (0 <? List.length (Page.filteredEntries s))%nat
     || (0 <? List.length (Page.entries s))%nat
  then
    Some
      {| title := summaryTitle (Page.dateFilter s);
         totalPkrAmount :=
           formatNumber F
             (reduceSum (fun entry => orZero (Saudi.pkrAmount entry))
                (if (0 <? List.length (Page.filteredEntries s))%nat
                 then Page.filteredEntries s else Page.entries s))
             ++ " PKR";
         totalRiyalAmount :=
           formatNumber F
             (reduceSum
                (fun entry =>
                   let riyalAmount :=
                     match Saudi.riyalAmount entry with
                     | Some r => r
                     | None =>
                         if PrimFloat.ltb 0 (Saudi.riyalRate entry)
                         then (Saudi.pkrAmount entry / Saudi.riyalRate entry)%float
                         else 0%float
                     end in
                   riyalAmount)
                (if (0 <? List.length (Page.filteredEntries s))%nat
                 then Page.filteredEntries s else Page.entries s))
             ++ " SAR";
         totalSubmittedSar :=
           formatNumber F
             (reduceSum (fun entry => orZero (Saudi.submittedSar entry))
                (if (0 <? List.length (Page.filteredEntries s))%nat
                 then Page.filteredEntries s else Page.entries s))
             ++ " SAR" |}
  else None.

(** The [render] of the columns [pkrAmount], [riyalAmount], [submittedSar]
    and [riyalRate]. *)
Definition renderPkrAmount (F : Formatter) (row : Saudi.SaudiEntry) : JsString :=
  formatNumber F (Saudi.pkrAmount row) ++ " PKR".

Definition renderRiyalAmount (F : Formatter) (row : Saudi.SaudiEntry)
  : JsString :=
  let riyalAmount :=
    match Saudi.riyalAmount row with
    | Some r => r
    | None =>
        if PrimFloat.ltb 0 (Saudi.riyalRate row)
        then (Saudi.pkrAmount row / Saudi.riyalRate row)%float
        else 0%float
    end in
  formatNumber F riyalAmount ++ " SAR".

Definition renderSubmittedSar (F : Formatter) (row : Saudi.SaudiEntry)
  : JsString :=
  formatNumber F (Saudi.submittedSar row) ++ " SAR".

Definition renderRiyalRate (F : Formatter) (row : Saudi.SaudiEntry) : JsString :=
  formatNumber F (Saudi.riyalRate row).

(** Several exports one after the other, the font loader's state carried
    from each to the next: the traces, and the state at the end. *)
Fixpoint exports (F : Formatter)
         (jobs : list (Pdf.Env * PdfFonts.World * Saudi.State))
         (rt : PdfFonts.Runtime)
  : list (list Pdf.Effect) * PdfFonts.Runtime :=
  match jobs with
  | [] => ([], rt)
  | (env, w, s) :: rest =>
      let (trace, rt1) := Saudi.handleDownloadPDF F env w s rt in
      let (traces, rt2) := exports F rest rt1 in
      (trace :: traces, rt2)
  end.

End SaudiView.

(** [reverseForRTL] of utils/pdfFonts.ts. *)
Module Rtl.

(** [text.split('').reverse().join('')]: the code units in reverse. *)
Definition reverseForRTL (text : JsString) : JsString :=
  if negb (PdfFonts.containsUrdu text) then text
  else rev text.

End Rtl.

(** Calendar dates in the form the date inputs give them, [YYYY-MM-DD]. *)
Module Calendar.

(** [n] in [width] decimal digits, zero-padded. *)
Fixpoint decimal (width : nat) (n : N) : JsString :=
  match width with
  | O => []
  | S k => (48 + n / 10 ^ N.of_nat k)%N :: decimal k (n mod 10 ^ N.of_nat k)%N
  end.

Record Day := {
  year : N;
  month : N;
  day : N
}.

Definition wellFormed (d : Day) : Prop :=
  (year d < 10000 /\ month d < 100 /\ day d < 100)%N.

Definition isoDate (d : Day) : JsString :=
  decimal 4 (year d) ++ "-" ++ decimal 2 (month d) ++ "-" ++ decimal 2 (day d).

(** The place of a day in the calendar. *)
Definition ordinal (d : Day) : N :=
  (year d * 10000 + month d * 100 + day d)%N.

End Calendar.

(** Outcomes of an export, read off its trace. *)
Module Outcome.

Definition isSave (e : Pdf.Effect) : bool :=
  match e with
  | Pdf.Save _ => true
  | _ => false
  end.

Definition isAlert (e : Pdf.Effect) : bool :=
  match e with
  | Pdf.Alert _ => true
  | _ => false
  end.

Definition isFooterText (e : Pdf.Effect) : bool :=
  match e with
  | Pdf.FooterText _ => true
  | _ => false
  end.

Definition saves (trace : list Pdf.Effect) : nat :=
  List.length (filter isSave trace).

Definition alerts (trace : list Pdf.Effect) : nat :=
  List.length (filter isAlert trace).

(** The bodies of the tables drawn in a trace. *)
Definition bodies (trace : list Pdf.Effect) : list (list (list JsString)) :=
  flat_map
    (fun effect =>
       match effect with
       | Pdf.AutoTable _ body _ _ => [body]
       | _ => []
       end)
    trace.

End Outcome.

(** ** The add-entry forms *)

Module Forms.

(** [parseFloat] and [toUpperCase] of the language runtime. *)
Record Builtins := {
  parseFloat : JsString -> float;
  toUpperCase : JsString -> JsString
}.

(** The code units [trim] removes: the white space and line terminators of
    the language. *)
Definition isWhiteSpace (c : N) : bool :=
  existsb (N.eqb c)
    [0x0009; 0x000A; 0x000B; 0x000C; 0x000D; 0x0020; 0x00A0; 0x1680;
     0x2028; 0x2029; 0x202F; 0x205F; 0x3000; 0xFEFF]%N
  || ((0x2000 <=? c) && (c <=? 0x200A))%N.

Fixpoint trimStart (s : JsString) : JsString :=
  match s with
  | [] => []
  | c :: rest => if isWhiteSpace c then trimStart rest else s
  end.

Definition trimEnd (s : JsString) : JsString := rev (trimStart (rev s)).

Definition trim (s : JsString) : JsString := trimEnd (trimStart s).

(** The [errors] object: its keys with their messages, in the order of the
    assignments. *)
Definition Errors := list (JsString * JsString).

(** [if (condition) errors[key] = message;] *)
Definition check (condition : bool) (key message : JsString) : Errors :=
  if condition then [(key, message)] else [].

(** [Object.keys(errors).length === 0] *)
Definition noErrors (errors : Errors) : bool :=
  (List.length errors =? 0)%nat.

End Forms.

Module SaudiForm.

Record AddFormData := {
  date : JsString;
  time : JsString;
  refNo : JsString;
  pkrAmount : JsString;
  riyalRate : JsString;
  submittedSar : JsString;
  reference2 : JsString
}.

(** The [errors] that [validateAddForm] builds and stores. *)
Definition validateAddForm (B : Forms.Builtins) (addFormData : AddFormData)
  : Forms.Errors :=
  Forms.check (negb (truthyStr (date addFormData)))
    "date" "Date is required"
  ++ Forms.check (negb (truthyStr (time addFormData)))
       "time" "Time is required"
  ++ Forms.check (negb (truthyStr (Forms.trim (refNo addFormData))))
       "refNo" "Reference number is required"
  ++ Forms.check
       (negb (truthyStr (pkrAmount addFormData))
        || PrimFloat.leb (Forms.parseFloat B (pkrAmount addFormData)) 0)
       "pkrAmount" "PKR amount must be greater than 0"
  ++ Forms.check
       (negb (truthyStr (riyalRate addFormData))
        || PrimFloat.leb (Forms.parseFloat B (riyalRate addFormData)) 0)
       "riyalRate" "Riyal rate must be greater than 0"
  ++ Forms.check
       (negb (truthyStr (submittedSar addFormData))
        || PrimFloat.ltb (Forms.parseFloat B (submittedSar addFormData)) 0)
       "submittedSar" "Submitted SAR must be 0 or greater".

(** The argument of [saudiAPI.create]. *)
Record CreateRequest := {
  newDate : JsString;
  newTime : JsString;
  newRefNo : JsString;
  newPkrAmount : float;
  newRiyalRate : float;
  newSubmittedSar : float;
  newReference2 : JsString
}.

(** [handleAddEntry] up to its request: nothing is sent when the validation
    finds an error. *)
Definition handleAddEntry (B : Forms.Builtins) (addFormData : AddFormData)
  : option CreateRequest :=
  if negb (Forms.noErrors (validateAddForm B addFormData)) then None
  else
    Some {| newDate := date addFormData;
            newTime := time addFormData;
            newRefNo := Forms.toUpperCase B (refNo addFormData);
            newPkrAmount := Forms.parseFloat B (pkrAmount addFormData);
            newRiyalRate := Forms.parseFloat B (riyalRate addFormData);
            newSubmittedSar := Forms.parseFloat B (submittedSar addFormData);
            newReference2 := reference2 addFormData |}.

(** The read-only 'Riyal Amount' field of the form. *)
Definition riyalPreview (B : Forms.Builtins) (F : Formatter)
           (addFormData : AddFormData) : JsString :=
  if truthyStr (pkrAmount addFormData)
     && truthyStr (riyalRate addFormData)
     && PrimFloat.ltb 0 (Forms.parseFloat B (riyalRate addFormData))
  then formatNumber F
         (Forms.parseFloat B (pkrAmount addFormData)
          / Forms.parseFloat B (riyalRate addFormData))%float
         ++ " SAR"
  else "0.00 SAR".

End SaudiForm.

Module SpecialForm.

Record AddFormData := {
  userName : JsString;
  date : JsString;
  balanceType : Special.BalanceType;
  nameRupees : JsString;
  submittedRupees : JsString;
  referencePerson : JsString
}.

Definition validateAddForm (B : Forms.Builtins) (addFormData : AddFormData)
  : Forms.Errors :=
  Forms.check (negb (truthyStr (Forms.trim (userName addFormData))))
    "userName" "User name is required"
  ++ Forms.check (negb (truthyStr (date addFormData)))
       "date" "Date is required"
  ++ Forms.check
       (negb (truthyStr (nameRupees addFormData))
        || PrimFloat.leb (Forms.parseFloat B (nameRupees addFormData)) 0)
       "nameRupees" "Name rupees must be greater than 0"
  ++ Forms.check
       (negb (truthyStr (submittedRupees addFormData))
        || PrimFloat.ltb (Forms.parseFloat B (submittedRupees addFormData)) 0)
       "submittedRupees" "Submitted rupees must be 0 or greater".

Record CreateRequest := {
  newUserName : JsString;
  newDate : JsString;
  newBalanceType : Special.BalanceType;
  newNameRupees : float;
  newSubmittedRupees : float;
  newReferencePerson : JsString
}.

Definition handleAddEntry (B : Forms.Builtins) (addFormData : AddFormData)
  : option CreateRequest :=
  if negb (Forms.noErrors (validateAddForm B addFormData)) then None
  else
    Some {| newUserName := Forms.trim (userName addFormData);
            newDate := date addFormData;
            newBalanceType := balanceType addFormData;
            newNameRupees := Forms.parseFloat B (nameRupees addFormData);
            newSubmittedRupees :=
              Forms.parseFloat B (submittedRupees addFormData);
            newReferencePerson := Forms.trim (referencePerson addFormData) |}.

End SpecialForm.

(** More concrete values, for the further properties. *)

Module Fixture.

(** An entry whose date carries the time of day. *)
Definition stamped : Saudi.SaudiEntry :=
  {| Saudi.id := "4";
     Saudi.date := "2024-01-31T10:00:00.000Z";
     Saudi.time := "10:00";
     Saudi.refNo := "REF004";
     Saudi.pkrAmount := 100000;
     Saudi.riyalRate := 75.5;
     Saudi.riyalAmount := None;
     Saudi.submittedSar := 1000;
     Saudi.reference2 := [];
     Saudi.balance := None |}.

Definition firstOfJanuary : Calendar.Day :=
  {| Calendar.year := 2024; Calendar.month := 1; Calendar.day := 1 |}.

Definition midJanuary : Calendar.Day :=
  {| Calendar.year := 2024; Calendar.month := 1; Calendar.day := 15 |}.

Definition lastOfJanuary : Calendar.Day :=
  {| Calendar.year := 2024; Calendar.month := 1; Calendar.day := 31 |}.

Definition fromJanuary : Page.DateFilter :=
  {| Page.fromDate := "2024-01-01"; Page.toDate := [] |}.

Definition nextYear : Page.DateFilter :=
  {| Page.fromDate := "2025-01-01"; Page.toDate := [] |}.

(** A stand-in for the runtime that parses the three amounts of
    [Sample.scenario] and nothing else. *)
Definition builtins : Forms.Builtins :=
  {| Forms.parseFloat := fun text =>
       if str_eqb text "500000" then 500000%float
       else if str_eqb text "75.5" then 75.5%float
       else if str_eqb text "6000" then 6000%float
       else PrimFloat.nan;
     Forms.toUpperCase := fun text => text |}.

Definition form : SaudiForm.AddFormData :=
  {| SaudiForm.date := "2024-01-15";
     SaudiForm.time := "10:30";
     SaudiForm.refNo := "REF001";
     SaudiForm.pkrAmount := "500000";
     SaudiForm.riyalRate := "75.5";
     SaudiForm.submittedSar := "6000";
     SaudiForm.reference2 := "Ali" |}.

(** Entries whose amounts are not numbers. *)
Definition nanAmounts : Saudi.SaudiEntry :=
  {| Saudi.id := "5";
     Saudi.date := "2024-03-01";
     Saudi.time := "12:00";
     Saudi.refNo := "REF005";
     Saudi.pkrAmount := PrimFloat.nan;
     Saudi.riyalRate := 75.5;
     Saudi.riyalAmount := None;
     Saudi.submittedSar := PrimFloat.nan;
     Saudi.reference2 := [];
     Saudi.balance := None |}.

Definition nanSpecial : Special.SpecialEntry :=
  {| Special.id := "2";
     Special.userName := "Bilal";
     Special.date := "2024-03-01";
     Special.balanceType := Special.Cash;
     Special.nameRupees := PrimFloat.nan;
     Special.submittedRupees := PrimFloat.nan;
     Special.referencePerson := None;
     Special.balance := None |}.

End Fixture.

(** ** The Saudi export when the font load may hang

    Nothing bounds the time [fetch] takes, so the [await loadUrduFont(doc)]
    of the Saudi export may never resume. [settles] tells whether the load
    the export waits for ever completes. *)
Module Await.

(** A run of the Saudi export either comes to its end or stays suspended at
    [await loadUrduFont(doc)]. *)
Inductive Run : Type :=
| Returned (trace : list Pdf.Effect) (rt : PdfFonts.Runtime)
| Pending (trace : list Pdf.Effect) (rt : PdfFonts.Runtime).

(** [handleDownloadPDF] of the Saudi page with its suspension point written
    out: the run resumes after [await loadUrduFont(doc)] only once the
    promise it got is fulfilled. [settles] tells whether a load that is in
    flight ever runs to its end; a [fetch] that never answers leaves it
    pending. *)
Definition handleDownloadPDF (settles : bool) (F : Formatter) (env : Pdf.Env)
           (w : PdfFonts.World) (s : Saudi.State) (rt : PdfFonts.Runtime)
  : Run :=
  let dataToExport := Page.dataToExport s in
  if (List.length dataToExport =? 0)%nat then
    Returned [Pdf.Alert "No data to export"] rt
  else
    match Pdf.throwAt env with
    | Some 0 => Returned Pdf.failure rt
    | _ =>
        let (doc, rt1) := PdfFonts.createDoc rt in
        let (p, rt2) := PdfFonts.loadUrduFont w doc rt1 in
        if existsb (Nat.eqb p) (PdfFonts.fulfilled rt2) || settles then
          let rt3 := PdfFonts.awaitLoadUrduFont w doc rt1 in
          let fonts := PdfFonts.fontList (PdfFonts.getDoc rt3 doc) in
          Returned
            (Pdf.guarded env
               (Saudi.exportOps F env fonts (Page.dateFilter s) dataToExport))
            rt3
        else Pending [Pdf.NewJsPDF] rt2
    end.

Definition trace (run : Run) : list Pdf.Effect :=
  match run with
  | Returned t _ => t
  | Pending t _ => t
  end.

End Await.

(** * Properties *)

(** ** Strings *)

Lemma str_ltb_irrefl (a : JsString) : str_ltb a a = false.
Proof.
  induction a as [|x a IH]; simpl; [reflexivity|].
  rewrite N.ltb_irrefl. exact IH.
Qed.

Lemma str_ltb_asym (a b : JsString) :
  str_ltb a b = true -> str_ltb b a = false.
Proof.
  revert b; induction a as [|x a IH]; intros [|y b]; simpl; try congruence.
  destruct (N.ltb_spec x y) as [Hxy|Hxy].
  - intros _. destruct (N.ltb_spec y x) as [Hyx|Hyx]; [lia|].
    destruct (N.ltb_spec x y); [reflexivity|lia].
  - destruct (N.ltb_spec y x) as [Hyx|Hyx]; [discriminate|].
    apply IH.
Qed.

Lemma str_ltb_connected (a b : JsString) :
  str_ltb a b = false -> str_ltb b a = false -> a = b.
Proof.
  revert b; induction a as [|x a IH]; intros [|y b]; simpl; try congruence.
  destruct (N.ltb_spec x y) as [Hxy|Hxy]; [discriminate|].
  destruct (N.ltb_spec y x) as [Hyx|Hyx]; [discriminate|].
  intros H1 H2. assert (x = y) by lia. subst y.
  f_equal. apply IH; assumption.
Qed.

(** The language defines [a <= b] as [!(b < a)]; on strings that is the
    order "strictly below or equal". *)
Lemma str_leb_le (a b : JsString) :
  str_leb a b = true <-> Spec.str_le a b.
Proof.
  unfold str_leb, Spec.str_le. split.
  - intros H. apply negb_true_iff in H.
    destruct (str_ltb a b) eqn:E; [left; reflexivity|].
    right. apply str_ltb_connected; assumption.
  - intros [H| ->].
    + rewrite (str_ltb_asym _ _ H). reflexivity.
    + rewrite str_ltb_irrefl. reflexivity.
Qed.

Lemma truthyStr_false (s : JsString) : truthyStr s = false <-> s = [].
Proof. destruct s; simpl; split; congruence. Qed.

(** ** The date filter *)

Section DateFilterFacts.

Variable Entry : Type.
Variable date : Entry -> JsString.

Lemma keeps_withinBounds (f : Page.DateFilter) (e : Entry) :
  Page.keeps date f e = true <-> Spec.withinBounds f (date e).
Proof.
  unfold Page.keeps, Spec.withinBounds, str_gtb.
  rewrite <- !str_leb_le. unfold str_leb.
  generalize (str_ltb (date e) (Page.fromDate f))
             (str_ltb (Page.toDate f) (date e)).
  intros b1 b2.
  destruct (Page.fromDate f), (Page.toDate f), b1, b2;
    simpl; intuition congruence.
Qed.

Lemma keeps_unbounded (f : Page.DateFilter) (e : Entry) :
  Page.fromDate f = [] -> Page.toDate f = [] -> Page.keeps date f e = true.
Proof. unfold Page.keeps. intros -> ->. reflexivity. Qed.

Lemma filter_all (A : Type) (p : A -> bool) (l : list A) :
  (forall x, In x l -> p x = true) -> filter p l = l.
Proof.
  induction l as [|x l IH]; simpl; intros H; [reflexivity|].
  rewrite (H x (or_introl eq_refl)). f_equal. apply IH.
  intros y Hy. apply H. right. exact Hy.
Qed.

(** Whatever the bounds, [handleFilter] leaves exactly the entries the
    callback keeps, in their order. *)
Lemma handleFilter_filter (s : Page.State Entry) :
  Page.filteredEntries (Page.handleFilter date s)
  = filter (Page.keeps date (Page.dateFilter s)) (Page.entries s).
Proof.
  unfold Page.handleFilter.
  destruct (negb (truthyStr (Page.fromDate (Page.dateFilter s)))
            && negb (truthyStr (Page.toDate (Page.dateFilter s)))) eqn:E;
    simpl; [|reflexivity].
  apply andb_true_iff in E. destruct E as [E1 E2].
  apply negb_true_iff in E1, E2. apply truthyStr_false in E1, E2.
  symmetry. apply filter_all. intros x _.
  apply keeps_unbounded; assumption.
Qed.

Lemma handleFilter_In (s : Page.State Entry) (e : Entry) :
  In e (Page.filteredEntries (Page.handleFilter date s))
  <-> In e (Page.entries s) /\ Spec.withinBounds (Page.dateFilter s) (date e).
Proof.
  rewrite handleFilter_filter, filter_In, keeps_withinBounds. reflexivity.
Qed.

Lemma handleFilter_entries (s : Page.State Entry) :
  Page.entries (Page.handleFilter date s) = Page.entries s.
Proof.
  unfold Page.handleFilter.
  destruct (negb _ && negb _); reflexivity.
Qed.

Lemma handleFilter_unbounded (s : Page.State Entry) :
  Page.fromDate (Page.dateFilter s) = [] ->
  Page.toDate (Page.dateFilter s) = [] ->
  Page.filteredEntries (Page.handleFilter date s) = Page.entries s.
Proof.
  intros H1 H2. unfold Page.handleFilter. rewrite H1, H2. reflexivity.
Qed.

End DateFilterFacts.

(** ** Numbers *)

Lemma SFcompare_finite_refl (s : bool) (m : positive) (e : Z) :
  SFcompare (S754_finite s m e) (S754_finite s m e) = Some Eq.
Proof.
  simpl. rewrite Z.compare_refl.
  assert (H : PosDef.Pos.compare_cont Eq m m = Eq)
    by apply Pos.compare_cont_refl.
  rewrite H. destruct s; reflexivity.
Qed.

(** [0 - x] is the number [-x]: the same value, or both [NaN]. *)
Lemma zero_minus (x : float) : sameNumber (0 - x) (- x) = true.
Proof.
  unfold sameNumber, is_nan.
  rewrite !FloatAxioms.eqb_spec, !sub_spec, !opp_spec.
  change (Prim2SF 0) with (S754_zero false).
  destruct (Prim2SF x) as [s|s| |s m e];
    try (destruct s; reflexivity); try reflexivity.
  unfold SF64sub, SFsub, SFopp, SFeqb.
  rewrite SFcompare_finite_refl. reflexivity.
Qed.

(** ** Balances *)

Lemma scenario_balances :
  PrimFloat.ltb 6622.5 (Saudi.riyalAmountOf Sample.scenario) = true
  /\ PrimFloat.ltb (Saudi.riyalAmountOf Sample.scenario) 6622.53125 = true
  /\ PrimFloat.ltb 622.5 (Saudi.pdfBalance Sample.scenario) = true
  /\ PrimFloat.ltb (Saudi.pdfBalance Sample.scenario) 622.53125 = true
  /\ Special.pdfBalance Sample.special = 30000%float.
Proof. repeat split. Qed.

(** C1: for every Saudi entry the balance shown in the table's balance
    column and the balance of its PDF body row are both the balance of the
    data model: the stored [balance] when there is one, otherwise
    [riyalAmount - submittedSar] with [riyalAmount] the stored one when there
    is one, otherwise [pkrAmount / riyalRate] when [riyalRate > 0] and [0]
    when not; with no stored amounts and a rate that is not above zero the
    balance is [0 - submittedSar], which is the number [-submittedSar]. *)
Theorem saudi_balance_derivation (F : Formatter) (e : Saudi.SaudiEntry) :
  Saudi.amount (Saudi.renderBalance e) = Spec.saudiBalance e
  /\ Saudi.pdfBalance e = Spec.saudiBalance e
  /\ nth 6 (Saudi.tableRow F e) []
     = formatNumber F (Spec.saudiBalance e) ++ " SAR"
  /\ (forall b, Saudi.balance e = Some b -> Spec.saudiBalance e = b)
  /\ (Saudi.balance e = None ->
      (forall r, Saudi.riyalAmount e = Some r ->
                 Spec.saudiBalance e = (r - Saudi.submittedSar e)%float)
      /\ (Saudi.riyalAmount e = None ->
          PrimFloat.ltb 0 (Saudi.riyalRate e) = true ->
          Spec.saudiBalance e
          = (Saudi.pkrAmount e / Saudi.riyalRate e - Saudi.submittedSar e)%float)
      /\ (Saudi.riyalAmount e = None ->
          PrimFloat.ltb 0 (Saudi.riyalRate e) = false ->
          Spec.saudiBalance e = (0 - Saudi.submittedSar e)%float
          /\ sameNumber (Spec.saudiBalance e) (- Saudi.submittedSar e) = true)).
Proof.
  split; [|split; [|split; [|split]]].
  - unfold Saudi.renderBalance, Spec.saudiBalance, Spec.saudiRiyalAmount.
    simpl. destruct (Saudi.balance e); reflexivity.
  - reflexivity.
  - reflexivity.
  - intros b Hb. unfold Spec.saudiBalance. rewrite Hb. reflexivity.
  - intros Hb. unfold Spec.saudiBalance, Spec.saudiRiyalAmount. rewrite Hb.
    split; [|split].
    + intros r Hr. rewrite Hr. reflexivity.
    + intros Hr Hrate. rewrite Hr, Hrate. reflexivity.
    + intros Hr Hrate. rewrite Hr, Hrate. split; [reflexivity|].
      apply zero_minus.
Qed.

Lemma saudi_balance_derivation_witness :
  Saudi.amount (Saudi.renderBalance Sample.zeroRate) = (0 - 6000)%float
  /\ Saudi.pdfBalance Sample.zeroRate = (0 - 6000)%float
  /\ sameNumber (Spec.saudiBalance Sample.zeroRate) (- 6000) = true.
Proof.
  destruct (saudi_balance_derivation Sample.blank Sample.zeroRate)
    as (Htable & Hpdf & _ & _ & Habsent).
  destruct (Habsent eq_refl) as (_ & _ & Hzero).
  destruct (Hzero eq_refl eq_refl) as (Hval & Hsame).
  rewrite Htable, Hpdf, Hval. split; [reflexivity|split; [reflexivity|]].
  exact Hsame.
Defined.

(** C9: for every Special entry the balance shown in the table's balance
    column and the balance of its PDF body row are the stored [balance] when
    there is one and [nameRupees - submittedRupees] when there is none. *)
Theorem special_balance_derivation (F : Formatter) (e : Special.SpecialEntry) :
  Special.amount (Special.renderBalance e) = Spec.specialBalance e
  /\ Special.pdfBalance e = Spec.specialBalance e
  /\ nth 6 (Special.tableRow F e) []
     = formatNumber F (Spec.specialBalance e) ++ " PKR"
  /\ (forall b, Special.balance e = Some b -> Spec.specialBalance e = b)
  /\ (Special.balance e = None ->
      Spec.specialBalance e
      = (Special.nameRupees e - Special.submittedRupees e)%float).
Proof.
  split; [|split; [|split; [|split]]].
  - reflexivity.
  - reflexivity.
  - reflexivity.
  - intros b Hb. unfold Spec.specialBalance. rewrite Hb. reflexivity.
  - intros Hb. unfold Spec.specialBalance. rewrite Hb. reflexivity.
Qed.

Lemma special_balance_derivation_witness :
  Special.amount (Special.renderBalance Sample.special) = 30000%float
  /\ Special.pdfBalance Sample.special = 30000%float.
Proof.
  destruct (special_balance_derivation Sample.blank Sample.special)
    as (Htable & Hpdf & _ & _ & Habsent).
  rewrite Htable, Hpdf, (Habsent eq_refl). split; reflexivity.
Defined.

(** ** The date filter on both pages *)

Section FilterOnFetched.

Variable Entry : Type.
Variable date : Entry -> JsString.
Variable data : list Entry.
Variable f : Page.DateFilter.
Variable s0 : Page.State Entry.

Let fetched : Page.State Entry :=
  Page.setDateFilter f (Page.fetchEntries (Some data) s0).

Lemma filter_on_fetched :
  (forall e, In e (Page.filteredEntries (Page.handleFilter date fetched))
             <-> In e data /\ Spec.withinBounds f (date e))
  /\ Page.filteredEntries (Page.handleFilter date fetched)
     = filter (Page.keeps date f) data
  /\ Page.entries (Page.handleFilter date fetched) = data
  /\ Page.filteredEntries
       (Page.handleClearFilter (Page.handleFilter date fetched)) = data
  /\ Page.dateFilter
       (Page.handleClearFilter (Page.handleFilter date fetched))
     = {| Page.fromDate := []; Page.toDate := [] |}.
Proof.
  split; [|split; [|split; [|split]]].
  - intros e. rewrite handleFilter_In. reflexivity.
  - rewrite handleFilter_filter. reflexivity.
  - rewrite handleFilter_entries. reflexivity.
  - unfold Page.handleClearFilter. simpl.
    rewrite handleFilter_entries. reflexivity.
  - reflexivity.
Qed.

End FilterOnFetched.

(** C6: on both pages, for every fetched list and every date filter,
    [handleFilter] keeps an entry iff [fromDate <= entry.date <= toDate], an
    empty bound leaving its side open, and keeps the entries in their order;
    [handleClearFilter], and [handleFilter] with both bounds empty, make the
    filtered list the fetched list itself. *)
Theorem date_filter_inclusion :
  (forall (data : list Saudi.SaudiEntry) (f : Page.DateFilter) (s0 : Saudi.State),
      let fetched := Page.setDateFilter f (Saudi.fetchEntries (Some data) s0) in
      (forall e, In e (Page.filteredEntries (Saudi.handleFilter fetched))
                 <-> In e data /\ Spec.withinBounds f (Saudi.date e))
      /\ Page.filteredEntries (Saudi.handleFilter fetched)
         = filter (Page.keeps Saudi.date f) data
      /\ Page.filteredEntries
           (Saudi.handleClearFilter (Saudi.handleFilter fetched)) = data
      /\ Page.filteredEntries
           (Saudi.handleFilter
              (Page.setDateFilter Sample.noFilter
                 (Saudi.fetchEntries (Some data) s0))) = data)
  /\ (forall (data : list Special.SpecialEntry) (f : Page.DateFilter)
             (s0 : Special.State),
      let fetched := Page.setDateFilter f (Special.fetchEntries (Some data) s0) in
      (forall e, In e (Page.filteredEntries (Special.handleFilter fetched))
                 <-> In e data /\ Spec.withinBounds f (Special.date e))
      /\ Page.filteredEntries (Special.handleFilter fetched)
         = filter (Page.keeps Special.date f) data
      /\ Page.filteredEntries
           (Special.handleClearFilter (Special.handleFilter fetched)) = data
      /\ Page.filteredEntries
           (Special.handleFilter
              (Page.setDateFilter Sample.noFilter
                 (Special.fetchEntries (Some data) s0))) = data).
Proof.
  split; intros data f s0 fetched.
  - destruct (filter_on_fetched Saudi.date data f s0) as (H1 & H2 & _ & H4 & _).
    split; [exact H1|split; [exact H2|split; [exact H4|reflexivity]]].
  - destruct (filter_on_fetched Special.date data f s0) as (H1 & H2 & _ & H4 & _).
    split; [exact H1|split; [exact H2|split; [exact H4|reflexivity]]].
Qed.

(** What the table shows is the filtered list only while that list is not
    empty: a filter that keeps nothing leaves the whole fetched list on
    screen. *)
Lemma tableView_fallback (data : list Saudi.SaudiEntry) (f : Page.DateFilter)
      (s0 : Saudi.State) :
  filter (Page.keeps Saudi.date f) data = [] ->
  Saudi.tableView
    (Saudi.handleFilter
       (Page.setDateFilter f (Saudi.fetchEntries (Some data) s0)))
  = data.
Proof.
  intros Hnone.
  destruct (filter_on_fetched Saudi.date data f s0) as (_ & Hfiltered & Hall & _).
  unfold Saudi.tableView, Page.dataToExport, Saudi.handleFilter,
    Saudi.fetchEntries.
  rewrite Hfiltered, Hnone. exact Hall.
Qed.

(** ** The export *)

Lemma dataToExport_nil (Entry : Type) (s : Page.State Entry) :
  Page.dataToExport s = []
  <-> Page.filteredEntries s = [] /\ Page.entries s = [].
Proof.
  unfold Page.dataToExport.
  destruct (Page.filteredEntries s) as [|x l]; simpl.
  - split; [intros H; split; [reflexivity|exact H] | intros [_ H]; exact H].
  - split; [discriminate | intros [H _]; discriminate].
Qed.

(** C7: on both pages, when the list to export (the filtered list if it is
    not empty, else the full list) is empty, [handleDownloadPDF] does nothing
    but raise the alert 'No data to export': no document is created, no file
    is saved, and the font loader is not touched. *)
Theorem export_without_data (F : Formatter) (env : Pdf.Env)
        (w : PdfFonts.World) (rt : PdfFonts.Runtime) :
  (forall s : Saudi.State,
      Page.dataToExport s = [] ->
      Saudi.handleDownloadPDF F env w s rt
      = ([Pdf.Alert "No data to export"], rt))
  /\ (forall s : Special.State,
      Page.dataToExport s = [] ->
      Special.handleDownloadPDF F env s = [Pdf.Alert "No data to export"]).
Proof.
  split; intros s H.
  - unfold Saudi.handleDownloadPDF. rewrite H. reflexivity.
  - unfold Special.handleDownloadPDF. rewrite H. reflexivity.
Qed.

Lemma export_without_data_witness :
  Saudi.handleDownloadPDF Sample.blank Sample.clock Sample.online
    Page.initial PdfFonts.initial
  = ([Pdf.Alert "No data to export"], PdfFonts.initial)
  /\ Special.handleDownloadPDF Sample.blank Sample.clock Page.initial
     = [Pdf.Alert "No data to export"].
Proof.
  destruct (export_without_data Sample.blank Sample.clock Sample.online
              PdfFonts.initial) as [Hsaudi Hspecial].
  split; [apply Hsaudi | apply Hspecial]; reflexivity.
Defined.

Lemma guarded_none (env : Pdf.Env) (ops : list Pdf.Effect) :
  Pdf.throwAt env = None -> Pdf.guarded env ops = ops.
Proof. unfold Pdf.guarded. intros ->. reflexivity. Qed.

Lemma length_eqb_0_false (A : Type) (l : list A) :
  l <> [] -> (List.length l =? 0)%nat = false.
Proof. destruct l; simpl; congruence. Qed.

(** With data to export and no exception, the Saudi export performs the
    operations of its [try] block on a document whose font list is the one
    left by the font loader. *)
Lemma saudi_export_ok (F : Formatter) (env : Pdf.Env) (w : PdfFonts.World)
      (s : Saudi.State) (rt : PdfFonts.Runtime) :
  Page.dataToExport s <> [] ->
  Pdf.throwAt env = None ->
  exists fonts,
    fst (Saudi.handleDownloadPDF F env w s rt)
    = Saudi.exportOps F env fonts (Page.dateFilter s) (Page.dataToExport s).
Proof.
  intros Hdata Henv. unfold Saudi.handleDownloadPDF.
  rewrite (length_eqb_0_false Hdata), Henv.
  unfold PdfFonts.createDoc.
  eexists. cbv zeta. cbv iota. cbv beta. simpl fst.
  rewrite guarded_none by exact Henv. reflexivity.
Qed.

Lemma special_export_ok (F : Formatter) (env : Pdf.Env) (s : Special.State) :
  Page.dataToExport s <> [] ->
  Pdf.throwAt env = None ->
  Special.handleDownloadPDF F env s
  = Special.exportOps F env (Page.dateFilter s) (Page.dataToExport s).
Proof.
  intros Hdata Henv. unfold Special.handleDownloadPDF.
  rewrite (length_eqb_0_false Hdata). apply guarded_none. exact Henv.
Qed.

Lemma saudi_exportOps_last (F : Formatter) (env : Pdf.Env)
      (fonts : list JsString) (f : Page.DateFilter)
      (data : list Saudi.SaudiEntry) (d : Pdf.Effect) :
  last (Saudi.exportOps F env fonts f data) d
  = Pdf.Save (Saudi.fileName f (Pdf.isoString env)).
Proof.
  unfold Saudi.exportOps. cbv zeta. rewrite !app_assoc. apply last_last.
Qed.

Lemma special_exportOps_last (F : Formatter) (env : Pdf.Env)
      (f : Page.DateFilter) (data : list Special.SpecialEntry)
      (d : Pdf.Effect) :
  last (Special.exportOps F env f data) d
  = Pdf.Save (Special.fileName f (Pdf.isoString env)).
Proof.
  unfold Special.exportOps. cbv zeta. rewrite !app_assoc. apply last_last.
Qed.

Lemma orStr_boundOrAll (bound : JsString) :
  orStr bound "all" = Spec.boundOrAll bound.
Proof. destruct bound; reflexivity. Qed.

Lemma beforeT_date (day rest : JsString) :
  ~ In 84%N day -> Pdf.beforeT (day ++ 84%N :: rest) = day.
Proof.
  induction day as [|c day IH]; simpl; intros H.
  - reflexivity.
  - destruct (N.eqb_spec c 84) as [->|_]; [exfalso; apply H; left; reflexivity|].
    f_equal. apply IH. intros Hin. apply H. right. exact Hin.
Qed.

(** C8: for every filter state and every instant, the file name is
    [<ReportKind>_Hisaab_Kitaab_<fromDate or 'all'>_<toDate or 'all'>_<date>.pdf],
    [<date>] being the part of the instant's ISO rendering before its ['T'];
    it depends on nothing else, it is the name the export saves under, and
    the filter [2024-01-01 .. 2024-01-31] on 2024-02-01 gives
    [Saudi_Hisaab_Kitaab_2024-01-01_2024-01-31_2024-02-01.pdf]. *)
Theorem export_file_name (f : Page.DateFilter) (iso : JsString) :
  Saudi.fileName f iso = Spec.reportFileName "Saudi" f (Pdf.beforeT iso)
  /\ Special.fileName f iso = Spec.reportFileName "Special" f (Pdf.beforeT iso)
  /\ (forall day rest : JsString,
         ~ In 84%N day -> Pdf.beforeT (day ++ "T" ++ rest) = day)
  /\ (forall F env w (s : Saudi.State) rt,
         Page.dataToExport s <> [] ->
         Pdf.throwAt env = None ->
         last (fst (Saudi.handleDownloadPDF F env w s rt)) (Pdf.Alert [])
         = Pdf.Save (Spec.reportFileName "Saudi" (Page.dateFilter s)
                       (Pdf.beforeT (Pdf.isoString env))))
  /\ (forall F env (s : Special.State),
         Page.dataToExport s <> [] ->
         Pdf.throwAt env = None ->
         last (Special.handleDownloadPDF F env s) (Pdf.Alert [])
         = Pdf.Save (Spec.reportFileName "Special" (Page.dateFilter s)
                       (Pdf.beforeT (Pdf.isoString env))))
  /\ Saudi.fileName Sample.january "2024-02-01T09:30:00.000Z"
     = "Saudi_Hisaab_Kitaab_2024-01-01_2024-01-31_2024-02-01.pdf".
Proof.
  assert (Hsaudi : forall g i,
             Saudi.fileName g i = Spec.reportFileName "Saudi" g (Pdf.beforeT i)).
  { intros g i. unfold Saudi.fileName, Spec.reportFileName.
    rewrite !orStr_boundOrAll. reflexivity. }
  assert (Hspecial : forall g i,
             Special.fileName g i
             = Spec.reportFileName "Special" g (Pdf.beforeT i)).
  { intros g i. unfold Special.fileName, Spec.reportFileName.
    rewrite !orStr_boundOrAll. reflexivity. }
  split; [apply Hsaudi|]. split; [apply Hspecial|].
  split; [intros day rest; apply beforeT_date|].
  split; [|split].
  - intros F env w s rt Hdata Henv.
    destruct (@saudi_export_ok F env w s rt Hdata Henv) as [fonts ->].
    rewrite saudi_exportOps_last. f_equal. apply Hsaudi.
  - intros F env s Hdata Henv.
    rewrite (@special_export_ok F env s Hdata Henv), special_exportOps_last.
    f_equal. apply Hspecial.
  - reflexivity.
Qed.

Lemma export_file_name_witness :
  last (fst (Saudi.handleDownloadPDF Sample.blank Sample.clock Sample.online
               (Page.setDateFilter Sample.january Sample.saudiPage)
               PdfFonts.initial))
       (Pdf.Alert [])
  = Pdf.Save "Saudi_Hisaab_Kitaab_2024-01-01_2024-01-31_2024-02-01.pdf"
  /\ last (Special.handleDownloadPDF Sample.blank Sample.clock
             (Page.setDateFilter Sample.january Sample.specialPage))
          (Pdf.Alert [])
     = Pdf.Save "Special_Hisaab_Kitaab_2024-01-01_2024-01-31_2024-02-01.pdf".
Proof.
  destruct (export_file_name Sample.january "2024-02-01T09:30:00.000Z")
    as (_ & _ & _ & Hsaudi & Hspecial & _).
  split.
  - rewrite Hsaudi; [reflexivity | discriminate | reflexivity].
  - rewrite Hspecial; [reflexivity | discriminate | reflexivity].
Defined.

(** ** The header's date range *)

Lemma dateRange_oneBound (f : Page.DateFilter) :
  Spec.oneBound f -> Page.dateRange f = "All Entries".
Proof.
  unfold Spec.oneBound, Page.dateRange.
  destruct (Page.fromDate f), (Page.toDate f); simpl; intuition congruence.
Qed.

Lemma saudi_exportOps_header (F : Formatter) (env : Pdf.Env)
      (fonts : list JsString) (f : Page.DateFilter)
      (data : list Saudi.SaudiEntry) :
  In (Pdf.Text ("Date Range: " ++ Page.dateRange f) 14 22)
     (Saudi.exportOps F env fonts f data)
  /\ exists headCells bodyCells,
      In (Pdf.AutoTable Saudi.head (Saudi.tableData F data) headCells bodyCells)
         (Saudi.exportOps F env fonts f data).
Proof.
  unfold Saudi.exportOps. cbv zeta. split.
  - apply in_or_app. left. simpl. tauto.
  - eexists. eexists. apply in_or_app. left. simpl.
    do 12 right. left. reflexivity.
Qed.

Lemma special_exportOps_header (F : Formatter) (env : Pdf.Env)
      (f : Page.DateFilter) (data : list Special.SpecialEntry) :
  In (Pdf.Text ("Date Range: " ++ Page.dateRange f) 14 22)
     (Special.exportOps F env f data)
  /\ exists headCells bodyCells,
      In (Pdf.AutoTable Special.head (Special.tableData F data)
            headCells bodyCells)
         (Special.exportOps F env f data).
Proof.
  unfold Special.exportOps. cbv zeta. split.
  - apply in_or_app. left. simpl. tauto.
  - eexists. eexists. apply in_or_app. left. simpl.
    do 9 right. left. reflexivity.
Qed.

Lemma footer_no_table (n : nat) : Outcome.bodies (Pdf.footer n) = [].
Proof.
  unfold Pdf.footer, Outcome.bodies. generalize (seq 1 n). intros l.
  induction l as [|i l IH]; [reflexivity|].
  cbn [flat_map app]. exact IH.
Qed.

Lemma bodies_app (t1 t2 : list Pdf.Effect) :
  Outcome.bodies (t1 ++ t2) = Outcome.bodies t1 ++ Outcome.bodies t2.
Proof. unfold Outcome.bodies. apply flat_map_app. Qed.

(** The only table an export draws has the rows of its data followed by the
    totals row. *)
Lemma saudi_exportOps_body (F : Formatter) (env : Pdf.Env)
      (fonts : list JsString) (f : Page.DateFilter)
      (data : list Saudi.SaudiEntry) :
  Outcome.bodies (Saudi.exportOps F env fonts f data)
  = [map (Saudi.tableRow F) data ++ [Saudi.totalsRow F data]].
Proof.
  unfold Saudi.exportOps. cbv zeta.
  rewrite !bodies_app, footer_no_table. reflexivity.
Qed.

Lemma special_exportOps_body (F : Formatter) (env : Pdf.Env)
      (f : Page.DateFilter) (data : list Special.SpecialEntry) :
  Outcome.bodies (Special.exportOps F env f data)
  = [map (Special.tableRow F) data ++ [Special.totalsRow F data]].
Proof.
  unfold Special.exportOps. cbv zeta.
  rewrite !bodies_app, footer_no_table. reflexivity.
Qed.

Section BodyAfterFilter.

Variable Entry : Type.
Variable date : Entry -> JsString.

(** After [handleFilter] on a fetched list, the list to export is what the
    filter kept, or the whole list when it kept nothing. *)
Lemma dataToExport_filtered (data : list Entry) (f : Page.DateFilter)
      (s0 : Page.State Entry) :
  let s := Page.handleFilter date
             (Page.setDateFilter f (Page.fetchEntries (Some data) s0)) in
  Page.dateFilter s = f
  /\ (filter (Page.keeps date f) data <> [] ->
      Page.dataToExport s = filter (Page.keeps date f) data)
  /\ (filter (Page.keeps date f) data = [] -> Page.dataToExport s = data).
Proof.
  intros s.
  destruct (filter_on_fetched date data f s0) as (_ & Hfiltered & Hall & _).
  fold s in Hfiltered, Hall. split; [|split].
  - unfold s, Page.handleFilter. simpl.
    destruct (negb _ && negb _); reflexivity.
  - intros Hkept. unfold Page.dataToExport. rewrite Hfiltered.
    destruct (filter (Page.keeps date f) data); [congruence|reflexivity].
  - intros Hnone. unfold Page.dataToExport. rewrite Hfiltered, Hnone.
    exact Hall.
Qed.

End BodyAfterFilter.

(** C10, as the code has it: in both exports the header's date range is
    [from to to] only when both bounds are set, and with exactly one bound
    set every export that draws its header writes 'Date Range: All Entries'.
    After [handleFilter], the body rows of that export are the rows of the
    entries within the bounds when the filter kept at least one entry; when
    it kept none they are the rows of all the fetched entries. *)
Theorem header_date_range (f : Page.DateFilter) :
  (Page.fromDate f <> [] -> Page.toDate f <> [] ->
   Page.dateRange f = Page.fromDate f ++ " to " ++ Page.toDate f)
  /\ (Page.fromDate f = [] \/ Page.toDate f = [] ->
      Page.dateRange f = "All Entries")
  /\ (Spec.oneBound f ->
      (forall F env w (s : Saudi.State) rt,
          Page.dateFilter s = f ->
          Page.dataToExport s <> [] ->
          Pdf.throwAt env = None ->
          In (Pdf.Text "Date Range: All Entries" 14 22)
             (fst (Saudi.handleDownloadPDF F env w s rt)))
      /\ (forall F env (s : Special.State),
             Page.dateFilter s = f ->
             Page.dataToExport s <> [] ->
             Pdf.throwAt env = None ->
             In (Pdf.Text "Date Range: All Entries" 14 22)
                (Special.handleDownloadPDF F env s)))
  /\ (forall F env w (data : list Saudi.SaudiEntry) s0 rt,
         Pdf.throwAt env = None ->
         let kept := filter (Page.keeps Saudi.date f) data in
         let s := Saudi.handleFilter
                    (Page.setDateFilter f (Saudi.fetchEntries (Some data) s0)) in
         let trace := fst (Saudi.handleDownloadPDF F env w s rt) in
         (forall e, In e kept
                    <-> In e data /\ Spec.withinBounds f (Saudi.date e))
         /\ (kept <> [] ->
             exists body totals,
               Outcome.bodies trace = [body]
               /\ body = map (Saudi.tableRow F) kept ++ [totals]
               /\ removelast body = map (Saudi.tableRow F) kept)
         /\ (kept = [] -> data <> [] ->
             exists body totals,
               Outcome.bodies trace = [body]
               /\ body = map (Saudi.tableRow F) data ++ [totals]
               /\ removelast body = map (Saudi.tableRow F) data))
  /\ (forall F env (data : list Special.SpecialEntry) s0,
         Pdf.throwAt env = None ->
         let kept := filter (Page.keeps Special.date f) data in
         let s := Special.handleFilter
                    (Page.setDateFilter f
                       (Special.fetchEntries (Some data) s0)) in
         let trace := Special.handleDownloadPDF F env s in
         (forall e, In e kept
                    <-> In e data /\ Spec.withinBounds f (Special.date e))
         /\ (kept <> [] ->
             exists body totals,
               Outcome.bodies trace = [body]
               /\ body = map (Special.tableRow F) kept ++ [totals]
               /\ removelast body = map (Special.tableRow F) kept)
         /\ (kept = [] -> data <> [] ->
             exists body totals,
               Outcome.bodies trace = [body]
               /\ body = map (Special.tableRow F) data ++ [totals]
               /\ removelast body = map (Special.tableRow F) data)).
Proof.
  split; [|split; [|split; [|split]]].
  - unfold Page.dateRange.
    destruct (Page.fromDate f), (Page.toDate f); simpl; congruence.
  - unfold Page.dateRange.
    destruct (Page.fromDate f), (Page.toDate f); simpl; intuition congruence.
  - intros Hone. split.
    + intros F env w s rt Hf Hdata Henv.
      destruct (@saudi_export_ok F env w s rt Hdata Henv) as [fonts ->].
      destruct (saudi_exportOps_header F env fonts (Page.dateFilter s)
                  (Page.dataToExport s)) as [Htext _].
      rewrite Hf in Htext |- *. rewrite (dateRange_oneBound Hone) in Htext.
      exact Htext.
    + intros F env s Hf Hdata Henv.
      rewrite (@special_export_ok F env s Hdata Henv).
      destruct (special_exportOps_header F env (Page.dateFilter s)
                  (Page.dataToExport s)) as [Htext _].
      rewrite Hf in Htext |- *. rewrite (dateRange_oneBound Hone) in Htext.
      exact Htext.
  - intros F env w data s0 rt Henv kept s trace.
    assert (Hs : Page.dateFilter s = f
                 /\ (kept <> [] -> Page.dataToExport s = kept)
                 /\ (kept = [] -> Page.dataToExport s = data))
      by exact (dataToExport_filtered Saudi.date data f s0).
    destruct Hs as (Hf & Hkept & Hnone).
    assert (Hbody : forall rows,
               rows <> [] -> Page.dataToExport s = rows ->
               exists body totals,
                 Outcome.bodies trace = [body]
                 /\ body = map (Saudi.tableRow F) rows ++ [totals]
                 /\ removelast body = map (Saudi.tableRow F) rows).
    { intros rows Hne Hrows.
      assert (Hdata : Page.dataToExport s <> []) by (rewrite Hrows; exact Hne).
      destruct (@saudi_export_ok F env w s rt Hdata Henv) as [fonts Hops].
      exists (map (Saudi.tableRow F) rows ++ [Saudi.totalsRow F rows]),
        (Saudi.totalsRow F rows).
      split; [|split; [reflexivity|apply removelast_last]].
      unfold trace. rewrite Hops, saudi_exportOps_body, Hrows. reflexivity. }
    split; [|split].
    + intros e. unfold kept. rewrite filter_In, keeps_withinBounds.
      reflexivity.
    + intros Hne. exact (Hbody kept Hne (Hkept Hne)).
    + intros Hnil Hne. exact (Hbody data Hne (Hnone Hnil)).
  - intros F env data s0 Henv kept s trace.
    assert (Hs : Page.dateFilter s = f
                 /\ (kept <> [] -> Page.dataToExport s = kept)
                 /\ (kept = [] -> Page.dataToExport s = data))
      by exact (dataToExport_filtered Special.date data f s0).
    destruct Hs as (Hf & Hkept & Hnone).
    assert (Hbody : forall rows,
               rows <> [] -> Page.dataToExport s = rows ->
               exists body totals,
                 Outcome.bodies trace = [body]
                 /\ body = map (Special.tableRow F) rows ++ [totals]
                 /\ removelast body = map (Special.tableRow F) rows).
    { intros rows Hne Hrows.
      assert (Hdata : Page.dataToExport s <> []) by (rewrite Hrows; exact Hne).
      exists (map (Special.tableRow F) rows ++ [Special.totalsRow F rows]),
        (Special.totalsRow F rows).
      split; [|split; [reflexivity|apply removelast_last]].
      unfold trace.
      rewrite (@special_export_ok F env s Hdata Henv),
        special_exportOps_body, Hrows.
      reflexivity. }
    split; [|split].
    + intros e. unfold kept. rewrite filter_In, keeps_withinBounds.
      reflexivity.
    + intros Hne. exact (Hbody kept Hne (Hkept Hne)).
    + intros Hnil Hne. exact (Hbody data Hne (Hnone Hnil)).
Qed.

Lemma header_date_range_witness :
  let s := Saudi.handleFilter
             (Page.setDateFilter Sample.sinceFebruary
                (Saudi.fetchEntries
                   (Some [Sample.scenario; Sample.zeroRate; Sample.stored])
                   Page.initial)) in
  let trace := fst (Saudi.handleDownloadPDF Sample.blank Sample.clock
                      Sample.online s PdfFonts.initial) in
  In (Pdf.Text "Date Range: All Entries" 14 22) trace
  /\ exists body totals,
      Outcome.bodies trace = [body]
      /\ body = [Saudi.tableRow Sample.blank Sample.stored; totals]
      /\ removelast body = [Saudi.tableRow Sample.blank Sample.stored].
Proof.
  cbv zeta.
  destruct (header_date_range Sample.sinceFebruary)
    as (_ & _ & Hheader & Hbody & _).
  assert (Hone : Spec.oneBound Sample.sinceFebruary)
    by (left; split; [discriminate|reflexivity]).
  split.
  - apply (proj1 (Hheader Hone)); [reflexivity|discriminate|reflexivity].
  - pose proof (Hbody Sample.blank Sample.clock Sample.online
                  [Sample.scenario; Sample.zeroRate; Sample.stored]
                  Page.initial PdfFonts.initial eq_refl) as H.
    cbv zeta in H. destruct H as (_ & Hkept & _).
    apply Hkept. discriminate.
Defined.

(** C10 as stated fails when the filter keeps nothing: with the one bound
    [fromDate = 2025-01-01] no entry of the sample list is within the
    bounds, the header reads 'All Entries', and the body rows are those of
    all three entries, not of the (empty) date-filtered subset. *)
Lemma one_bound_body_counterexample :
  let data := [Sample.scenario; Sample.zeroRate; Sample.stored] in
  let f := Fixture.nextYear in
  let s := Saudi.handleFilter
             (Page.setDateFilter f
                (Saudi.fetchEntries (Some data) Page.initial)) in
  let trace := fst (Saudi.handleDownloadPDF Sample.blank Sample.clock
                      Sample.online s PdfFonts.initial) in
  Spec.oneBound f
  /\ filter (Page.keeps Saudi.date f) data = []
  /\ In (Pdf.Text "Date Range: All Entries" 14 22) trace
  /\ exists body,
      Outcome.bodies trace = [body]
      /\ removelast body = map (Saudi.tableRow Sample.blank) data
      /\ removelast body
         <> map (Saudi.tableRow Sample.blank)
              (filter (Page.keeps Saudi.date f) data).
Proof.
  cbv zeta. split; [|split; [|split]].
  - left. split; [discriminate|reflexivity].
  - reflexivity.
  - vm_compute. do 9 right. left. reflexivity.
  - eexists. split; [vm_compute; reflexivity|].
    split; [vm_compute; reflexivity|].
    vm_compute. discriminate.
Qed.

(** ** The totals row *)

Lemma reduceSum_columnSum (A : Type) (f : A -> float) (l : list A) :
  reduceSum f l = Spec.columnSum (map f l).
Proof.
  unfold reduceSum, Spec.columnSum. generalize 0%float.
  induction l as [|x l IH]; intros acc; simpl; [reflexivity|apply IH].
Qed.

Lemma tableData_rows (A : Type) (row : A -> list JsString)
      (totals : list JsString) (data : list A) :
  removelast (map row data ++ [totals]) = map row data
  /\ last (map row data ++ [totals]) [] = totals.
Proof.
  split; [apply removelast_last | apply last_last].
Qed.

Lemma orZero_number (x : float) :
  PrimFloat.is_nan x = false -> PrimFloat.eqb x 0 = false -> orZero x = x.
Proof.
  intros Hnan Hzero. unfold orZero, truthyNum. rewrite Hnan, Hzero.
  reflexivity.
Qed.

(** C2, as the code has it: in both exports the rows above the TOTALS row
    are the rows of the entries, and each numeric cell of the TOTALS row is
    [formatNumber] of the sum, from [0] and down the rows, of the values of
    its column, with two departures. In the columns the code sums with
    [|| 0] (Saudi PKR and submitted SAR, Special name rupees and submitted
    rupees) a value that is [NaN] or zero enters the sum as [0], every other
    value as itself; the Saudi Riyal column and the Special balance column
    are summed as they are. And the balance cell of the Saudi TOTALS row is
    the Riyal total less the submitted total, not the sum of the balances of
    the rows; in the Special export it is that sum. *)
Theorem totals_row_cells (F : Formatter) (saudi : list Saudi.SaudiEntry)
        (special : list Special.SpecialEntry) :
  let saudiTotals := last (Saudi.tableData F saudi) [] in
  let specialTotals := last (Special.tableData F special) [] in
  (removelast (Saudi.tableData F saudi) = map (Saudi.tableRow F) saudi
   /\ (forall e,
          nth 2 (Saudi.tableRow F e) []
          = formatNumber F (Saudi.pkrAmount e) ++ " PKR"
          /\ nth 3 (Saudi.tableRow F e) []
             = formatNumber F (Saudi.riyalAmountOf e) ++ " SAR"
          /\ nth 4 (Saudi.tableRow F e) []
             = formatNumber F (Saudi.submittedSar e) ++ " SAR"
          /\ nth 6 (Saudi.tableRow F e) []
             = formatNumber F (Saudi.pdfBalance e) ++ " SAR")
   /\ nth 2 saudiTotals []
      = formatNumber F
          (Spec.columnSum (map (fun e => orZero (Saudi.pkrAmount e)) saudi))
          ++ " PKR"
   /\ nth 3 saudiTotals []
      = formatNumber F (Spec.columnSum (map Saudi.riyalAmountOf saudi))
          ++ " SAR"
   /\ nth 4 saudiTotals []
      = formatNumber F
          (Spec.columnSum (map (fun e => orZero (Saudi.submittedSar e)) saudi))
          ++ " SAR"
   /\ nth 6 saudiTotals []
      = formatNumber F
          (Spec.columnSum (map Saudi.riyalAmountOf saudi)
           - Spec.columnSum
               (map (fun e => orZero (Saudi.submittedSar e)) saudi))%float
          ++ " SAR")
  /\ (removelast (Special.tableData F special)
      = map (Special.tableRow F) special
      /\ (forall e,
             nth 3 (Special.tableRow F e) []
             = formatNumber F (Special.nameRupees e) ++ " PKR"
             /\ nth 4 (Special.tableRow F e) []
                = formatNumber F (Special.submittedRupees e) ++ " PKR"
             /\ nth 6 (Special.tableRow F e) []
                = formatNumber F (Special.pdfBalance e) ++ " PKR")
      /\ nth 3 specialTotals []
         = formatNumber F
             (Spec.columnSum
                (map (fun e => orZero (Special.nameRupees e)) special))
             ++ " PKR"
      /\ nth 4 specialTotals []
         = formatNumber F
             (Spec.columnSum
                (map (fun e => orZero (Special.submittedRupees e)) special))
             ++ " PKR"
      /\ nth 6 specialTotals []
         = formatNumber F (Spec.columnSum (map Special.pdfBalance special))
             ++ " PKR")
  /\ (forall x : float,
         (PrimFloat.is_nan x = false -> PrimFloat.eqb x 0 = false ->
          orZero x = x)
         /\ (PrimFloat.is_nan x = true \/ PrimFloat.eqb x 0 = true ->
             orZero x = 0%float)).
Proof.
  cbv zeta. split; [|split].
  - unfold Saudi.tableData.
    destruct (tableData_rows (Saudi.tableRow F) (Saudi.totalsRow F saudi) saudi)
      as [-> ->].
    split; [reflexivity|]. split; [intros e; repeat split|].
    unfold Saudi.totalsRow, Saudi.totalsBalance, Saudi.totalPKR,
      Saudi.totalRiyal, Saudi.totalSubmittedSAR.
    rewrite !reduceSum_columnSum. cbn [nth]. repeat split.
  - unfold Special.tableData.
    destruct (tableData_rows (Special.tableRow F)
                (Special.totalsRow F special) special) as [-> ->].
    split; [reflexivity|]. split; [intros e; repeat split|].
    unfold Special.totalsRow, Special.totalNameRupees,
      Special.totalSubmittedRupees, Special.totalBalance.
    rewrite !reduceSum_columnSum. cbn [nth]. repeat split.
  - intros x. split.
    + apply orZero_number.
    + unfold orZero, truthyNum. intros [H|H]; rewrite H;
        rewrite ?orb_true_r; reflexivity.
Qed.

(** C2 as stated fails on the code in two ways. In the Saudi export, for
    the single entry [Sample.stored] the row shows its stored balance, 1000,
    while the TOTALS row shows 500000 / 75.5 - 6000. And in the columns
    summed with [|| 0] an amount that is [NaN] makes the sum of the values
    shown [NaN], while the TOTALS cell holds the sum of the others. *)
Lemma saudi_totals_balance_counterexample :
  map Saudi.pdfBalance [Sample.stored] = [1000%float]
  /\ Spec.columnSum (map Saudi.pdfBalance [Sample.stored]) = 1000%float
  /\ Saudi.totalsBalance [Sample.stored] = (500000 / 75.5 - 6000)%float
  /\ PrimFloat.ltb (Saudi.totalsBalance [Sample.stored]) 623 = true
  /\ Saudi.totalsBalance [Sample.stored]
     <> Spec.columnSum (map Saudi.pdfBalance [Sample.stored])
  /\ (forall F : Formatter,
         formatNumber F (500000 / 75.5 - 6000)%float
         <> formatNumber F 1000%float ->
         nth 6 (last (Saudi.tableData F [Sample.stored]) []) []
         <> formatNumber F
              (Spec.columnSum (map Saudi.pdfBalance [Sample.stored]))
            ++ " SAR")
  /\ (PrimFloat.is_nan
        (Spec.columnSum
           (map Saudi.pkrAmount [Sample.scenario; Fixture.nanAmounts])) = true
      /\ Saudi.totalPKR [Sample.scenario; Fixture.nanAmounts] = 500000%float
      /\ PrimFloat.is_nan
           (Spec.columnSum
              (map Saudi.submittedSar [Sample.scenario; Fixture.nanAmounts]))
         = true
      /\ Saudi.totalSubmittedSAR [Sample.scenario; Fixture.nanAmounts]
         = 6000%float)
  /\ (PrimFloat.is_nan
        (Spec.columnSum
           (map Special.nameRupees [Sample.special; Fixture.nanSpecial]))
      = true
      /\ Special.totalNameRupees [Sample.special; Fixture.nanSpecial]
         = 150000%float
      /\ PrimFloat.is_nan
           (Spec.columnSum
              (map Special.submittedRupees [Sample.special; Fixture.nanSpecial]))
         = true
      /\ Special.totalSubmittedRupees [Sample.special; Fixture.nanSpecial]
         = 120000%float)
  /\ (forall F : Formatter,
         formatNumber F PrimFloat.nan <> formatNumber F 500000%float ->
         nth 2
           (last (Saudi.tableData F [Sample.scenario; Fixture.nanAmounts]) [])
           []
         <> formatNumber F
              (Spec.columnSum
                 (map Saudi.pkrAmount [Sample.scenario; Fixture.nanAmounts]))
            ++ " PKR").
Proof.
  split; [reflexivity|]. split; [reflexivity|].
  split; [reflexivity|]. split; [reflexivity|].
  split; [|split; [|split; [|split]]].
  - intros H.
    apply (f_equal (fun x => PrimFloat.eqb x 1000)) in H.
    vm_compute in H. discriminate H.
  - intros F Hdiff Hcell. apply Hdiff.
    change (formatNumber F (500000 / 75.5 - 6000)%float ++ " SAR"
            = formatNumber F 1000%float ++ " SAR") in Hcell.
    apply app_inv_tail in Hcell. exact Hcell.
  - repeat split.
  - repeat split.
  - intros F Hdiff Hcell. apply Hdiff.
    change (formatNumber F 500000%float ++ " PKR"
            = formatNumber F PrimFloat.nan ++ " PKR") in Hcell.
    apply app_inv_tail in Hcell. symmetry. exact Hcell.
Qed.

(** ** The font loader: one load *)

Lemma loadBody_fetches (w : PdfFonts.World) (doc : PdfFonts.Doc) :
  PdfFonts.bodyFetches (PdfFonts.loadBody w doc)
  = fst (PdfFonts.fetchFontData (PdfFonts.net w)).
Proof.
  unfold PdfFonts.loadBody.
  destruct (PdfFonts.fetchFontData (PdfFonts.net w)) as [fs [[data|]|msg]];
    simpl; try reflexivity.
  destruct (PdfFonts.addFont w _ _ _); reflexivity.
Qed.

Lemma loadBody_loaded (w : PdfFonts.World) (doc doc' : PdfFonts.Doc) :
  PdfFonts.bodyLoaded (PdfFonts.loadBody w doc)
  = PdfFonts.bodyLoaded (PdfFonts.loadBody w doc').
Proof.
  unfold PdfFonts.loadBody.
  destruct (PdfFonts.fetchFontData (PdfFonts.net w)) as [fs [[data|]|msg]];
    simpl; try reflexivity.
  unfold PdfFonts.addFont.
  change (PdfFonts.vfsLookup "NotoSansArabic-normal.ttf"
            (PdfFonts.addFileToVFS "NotoSansArabic-normal.ttf"
               (PdfFonts.btoa (PdfFonts.binaryOf data)) doc))
    with (PdfFonts.btoa (PdfFonts.binaryOf data)).
  change (PdfFonts.vfsLookup "NotoSansArabic-normal.ttf"
            (PdfFonts.addFileToVFS "NotoSansArabic-normal.ttf"
               (PdfFonts.btoa (PdfFonts.binaryOf data)) doc'))
    with (PdfFonts.btoa (PdfFonts.binaryOf data)).
  destruct (PdfFonts.acceptsFont w _); reflexivity.
Qed.

Lemma urls_differ : PdfFonts.fontUrl <> PdfFonts.altFontUrl.
Proof. discriminate. Qed.

(** When the primary fetch rejects, or its body cannot be read, the
    alternate source is fetched once. *)
Lemma primary_rejects_one_alternate (w : PdfFonts.World) (doc : PdfFonts.Doc) :
  PdfFonts.net w PdfFonts.fontUrl = PdfFonts.NetworkError
  \/ PdfFonts.net w PdfFonts.fontUrl = PdfFonts.Response true None ->
  PdfFonts.bodyFetches (PdfFonts.loadBody w doc)
  = [PdfFonts.fontUrl; PdfFonts.altFontUrl].
Proof.
  intros H. rewrite loadBody_fetches.
  unfold PdfFonts.fetchFontData, PdfFonts.fetchIfOk.
  destruct H as [-> | ->];
    destruct (PdfFonts.net w PdfFonts.altFontUrl) as [|[|] [data|]];
    reflexivity.
Qed.

(** When neither source yields font data, nothing is loaded. *)
Lemma no_data_not_loaded (w : PdfFonts.World) (doc : PdfFonts.Doc) :
  (forall data, snd (PdfFonts.fetchFontData (PdfFonts.net w)) <> Ok (Some data)) ->
  PdfFonts.bodyLoaded (PdfFonts.loadBody w doc) = false.
Proof.
  intros H. unfold PdfFonts.loadBody.
  destruct (PdfFonts.fetchFontData (PdfFonts.net w)) as [fs [[data|]|msg]];
    simpl; try reflexivity.
  exfalso. apply (H data). reflexivity.
Qed.

(** C3, where the code departs from it: when the primary source answers
    with a response that is not [ok], [loadUrduFont] fetches the primary
    source only, never the alternate one, and leaves the font not loaded. *)
Theorem non_ok_primary_skips_alternate (w : PdfFonts.World)
        (doc : PdfFonts.Doc) (body : option (list Byte.byte)) :
  PdfFonts.net w PdfFonts.fontUrl = PdfFonts.Response false body ->
  PdfFonts.bodyFetches (PdfFonts.loadBody w doc) = [PdfFonts.fontUrl]
  /\ ~ In PdfFonts.altFontUrl (PdfFonts.bodyFetches (PdfFonts.loadBody w doc))
  /\ PdfFonts.bodyLoaded (PdfFonts.loadBody w doc) = false
  /\ PdfFonts.fetchLog (snd (PdfFonts.loadUrduFont w 0 PdfFonts.initial))
     = [PdfFonts.fontUrl].
Proof.
  intros H.
  assert (Hfetch : PdfFonts.fetchFontData (PdfFonts.net w)
                   = ([PdfFonts.fontUrl], Ok None)).
  { unfold PdfFonts.fetchFontData, PdfFonts.fetchIfOk. rewrite H. reflexivity. }
  assert (Hurls : forall d, PdfFonts.bodyFetches (PdfFonts.loadBody w d)
                            = [PdfFonts.fontUrl]).
  { intros d. rewrite loadBody_fetches, Hfetch. reflexivity. }
  split; [apply Hurls|]. split; [|split].
  - rewrite Hurls. intros [Heq|[]]. exact (urls_differ Heq).
  - apply no_data_not_loaded. intros data. rewrite Hfetch. discriminate.
  - unfold PdfFonts.loadUrduFont. simpl. apply Hurls.
Qed.

Lemma non_ok_primary_skips_alternate_witness :
  PdfFonts.bodyFetches (PdfFonts.loadBody Sample.primary404 PdfFonts.newDoc)
  = [PdfFonts.fontUrl]
  /\ PdfFonts.bodyLoaded (PdfFonts.loadBody Sample.primary404 PdfFonts.newDoc)
     = false.
Proof.
  destruct (@non_ok_primary_skips_alternate Sample.primary404 PdfFonts.newDoc
              None eq_refl) as (Hfetches & _ & Hloaded & _).
  split; assumption.
Defined.

(** ** The font loader over time *)

Lemma step_cached (rt : PdfFonts.Runtime) (ev : PdfFonts.Event) (p : nat) :
  PdfFonts.promise (PdfFonts.fontCache rt) = Some p ->
  PdfFonts.promise (PdfFonts.fontCache (PdfFonts.step rt ev)) = Some p
  /\ PdfFonts.fetchLog (PdfFonts.step rt ev) = PdfFonts.fetchLog rt
  /\ PdfFonts.bodiesStarted (PdfFonts.step rt ev) = PdfFonts.bodiesStarted rt
  /\ PdfFonts.returned (PdfFonts.step rt ev)
     = PdfFonts.returned rt ++ (if PdfFonts.isCall ev then [p] else []).
Proof.
  intros Hp. destruct ev as [w doc| |]; simpl.
  - unfold PdfFonts.loadUrduFont. rewrite Hp. simpl. auto.
  - rewrite app_nil_r. auto.
  - unfold PdfFonts.settle.
    destruct (PdfFonts.inFlight rt) as [[[q doc] w]|]; simpl;
      rewrite app_nil_r; auto.
Qed.

Lemma run_cached (evs : list PdfFonts.Event) (rt : PdfFonts.Runtime) (p : nat) :
  PdfFonts.promise (PdfFonts.fontCache rt) = Some p ->
  PdfFonts.promise (PdfFonts.fontCache (PdfFonts.run evs rt)) = Some p
  /\ PdfFonts.fetchLog (PdfFonts.run evs rt) = PdfFonts.fetchLog rt
  /\ PdfFonts.bodiesStarted (PdfFonts.run evs rt) = PdfFonts.bodiesStarted rt
  /\ PdfFonts.returned (PdfFonts.run evs rt)
     = PdfFonts.returned rt ++ repeat p (Spec.calls evs).
Proof.
  revert rt. induction evs as [|ev evs IH]; intros rt Hp.
  - simpl. rewrite app_nil_r. auto.
  - destruct (step_cached rt ev Hp) as (Hp' & Hlog & Hstarted & Hret).
    destruct (IH (PdfFonts.step rt ev) Hp') as (IHp & IHlog & IHstarted & IHret).
    change (PdfFonts.run (ev :: evs) rt)
      with (PdfFonts.run evs (PdfFonts.step rt ev)).
    rewrite IHlog, IHstarted, IHret, Hlog, Hstarted, Hret.
    repeat split; try assumption.
    rewrite <- app_assoc. f_equal.
    unfold Spec.calls. simpl. destruct (PdfFonts.isCall ev); reflexivity.
Qed.

Lemma neverCalled_initial : Spec.neverCalled PdfFonts.initial.
Proof. repeat split. Qed.

Lemma run_neverCalled (evs : list PdfFonts.Event) (rt : PdfFonts.Runtime) :
  existsb PdfFonts.isCall evs = false ->
  Spec.neverCalled rt -> Spec.neverCalled (PdfFonts.run evs rt).
Proof.
  revert rt. induction evs as [|ev evs IH]; intros rt Hno Hrt; [exact Hrt|].
  simpl in Hno. apply orb_false_iff in Hno. destruct Hno as [Hev Hno].
  change (PdfFonts.run (ev :: evs) rt)
    with (PdfFonts.run evs (PdfFonts.step rt ev)).
  apply IH; [exact Hno|].
  destruct Hrt as (H1 & H2 & H3 & H4 & H5 & H6 & H7).
  destruct ev as [w doc| |]; [discriminate Hev| |].
  - repeat split; assumption.
  - simpl. unfold PdfFonts.settle. rewrite H3. repeat split; assumption.
Qed.

Lemma first_call (w : PdfFonts.World) (doc : PdfFonts.DocId)
      (rt : PdfFonts.Runtime) :
  Spec.neverCalled rt ->
  let rt' := PdfFonts.step rt (PdfFonts.Call w doc) in
  Spec.started w rt'
  /\ PdfFonts.fetchLog rt' = fst (PdfFonts.fetchFontData (PdfFonts.net w))
  /\ PdfFonts.bodiesStarted rt' = 1
  /\ PdfFonts.returned rt' = [0].
Proof.
  intros (H1 & H2 & H3 & H4 & H5 & H6 & H7). simpl.
  unfold PdfFonts.loadUrduFont. rewrite H1, H2, H4, H5, H6, H7. simpl.
  rewrite loadBody_fetches. unfold Spec.started. simpl.
  repeat split. left. split; [exists doc|]; reflexivity.
Qed.

Lemma step_started (w : PdfFonts.World) (rt : PdfFonts.Runtime)
      (ev : PdfFonts.Event) :
  Spec.started w rt -> Spec.started w (PdfFonts.step rt ev).
Proof.
  intros [Hp Hstate]. destruct ev as [w' doc'| |]; simpl.
  - unfold PdfFonts.loadUrduFont. rewrite Hp. split; assumption.
  - split; assumption.
  - unfold PdfFonts.settle.
    destruct Hstate as [[[doc Hin] Hl] | [Hin Hl]]; rewrite Hin.
    + split; [exact Hp|]. right. simpl. split; [reflexivity|].
      apply loadBody_loaded.
    + split; [exact Hp|]. right. split; assumption.
Qed.

Lemma run_started (w : PdfFonts.World) (evs : list PdfFonts.Event)
      (rt : PdfFonts.Runtime) :
  Spec.started w rt -> Spec.started w (PdfFonts.run evs rt).
Proof.
  revert rt. induction evs as [|ev evs IH]; intros rt H; [exact H|].
  apply (IH (PdfFonts.step rt ev)). apply step_started. exact H.
Qed.

Lemma run_app (evs evs' : list PdfFonts.Event) (rt : PdfFonts.Runtime) :
  PdfFonts.run (evs ++ evs') rt = PdfFonts.run evs' (PdfFonts.run evs rt).
Proof. apply fold_left_app. Qed.

(** Whatever happens, at most one body is ever started. *)
Lemma at_most_one_body (evs : list PdfFonts.Event) :
  PdfFonts.bodiesStarted (PdfFonts.run evs PdfFonts.initial) <= 1.
Proof.
  destruct (existsb PdfFonts.isCall evs) eqn:Hcalls.
  - assert (Hsplit : exists before w doc after,
               evs = before ++ PdfFonts.Call w doc :: after
               /\ existsb PdfFonts.isCall before = false).
    { clear - Hcalls. induction evs as [|ev evs IH]; [discriminate|].
      destruct ev as [w doc| |].
      - exists [], w, doc, evs. split; reflexivity.
      - destruct (IH Hcalls) as (b & w & doc & a & -> & Hb).
        exists (PdfFonts.NewDocument :: b), w, doc, a. split; [reflexivity|exact Hb].
      - destruct (IH Hcalls) as (b & w & doc & a & -> & Hb).
        exists (PdfFonts.Settle :: b), w, doc, a. split; [reflexivity|exact Hb]. }
    destruct Hsplit as (before & w & doc & after & -> & Hbefore).
    rewrite run_app.
    change (PdfFonts.run (PdfFonts.Call w doc :: after)
              (PdfFonts.run before PdfFonts.initial))
      with (PdfFonts.run after
              (PdfFonts.step (PdfFonts.run before PdfFonts.initial)
                 (PdfFonts.Call w doc))).
    destruct (first_call w doc (run_neverCalled before Hbefore neverCalled_initial))
      as ([Hp _] & _ & Hstarted & _).
    destruct (run_cached after _ Hp) as (_ & _ & -> & _).
    rewrite Hstarted. apply le_n.
  - destruct (run_neverCalled evs Hcalls neverCalled_initial)
      as (_ & _ & _ & _ & -> & _).
    apply le_S, le_n.
Qed.

(** C4: over any sequence of calls of [loadUrduFont], document creations
    and completions, at most one body (one sequence of fetches) is ever
    started. From the first call on, the promise that call created stays in
    the cache and is what every call returns, the fetches made are those of
    the first call alone, and if that load fails [loaded] stays false: no
    later call, in whatever world, fetches again. *)
Theorem single_font_load (before : list PdfFonts.Event) (w : PdfFonts.World)
        (doc : PdfFonts.DocId) (after : list PdfFonts.Event) :
  existsb PdfFonts.isCall before = false ->
  let rt := PdfFonts.run (before ++ PdfFonts.Call w doc :: after)
              PdfFonts.initial in
  PdfFonts.bodiesStarted rt = 1
  /\ PdfFonts.fetchLog rt = fst (PdfFonts.fetchFontData (PdfFonts.net w))
  /\ PdfFonts.promise (PdfFonts.fontCache rt) = Some 0
  /\ PdfFonts.returned rt = repeat 0 (S (Spec.calls after))
  /\ (PdfFonts.bodyLoaded (PdfFonts.loadBody w PdfFonts.newDoc) = false ->
      PdfFonts.loaded (PdfFonts.fontCache rt) = false)
  /\ (forall evs,
         PdfFonts.bodiesStarted (PdfFonts.run evs PdfFonts.initial) <= 1).
Proof.
  intros Hbefore rt.
  assert (Hrt : rt = PdfFonts.run after
                       (PdfFonts.step (PdfFonts.run before PdfFonts.initial)
                          (PdfFonts.Call w doc))).
  { unfold rt. rewrite run_app. reflexivity. }
  destruct (first_call w doc (run_neverCalled before Hbefore neverCalled_initial))
    as (Hstarted & Hlog & Hbodies & Hret).
  pose proof (run_started after Hstarted) as Hafter.
  destruct (run_cached after _ (proj1 Hstarted)) as (Hp & Hlog' & Hbodies' & Hret').
  rewrite <- Hrt in Hafter, Hp, Hlog', Hbodies', Hret'.
  split; [rewrite Hbodies'; exact Hbodies|].
  split; [rewrite Hlog'; exact Hlog|].
  split; [exact Hp|].
  split; [rewrite Hret', Hret; reflexivity|].
  split; [|exact at_most_one_body].
  intros Hfail. destruct Hafter as [_ [[_ Hl] | [_ Hl]]].
  - exact Hl.
  - rewrite Hl. exact Hfail.
Qed.

Lemma single_font_load_witness :
  let rt := PdfFonts.run
              [PdfFonts.NewDocument; PdfFonts.Call Sample.offline 0;
               PdfFonts.Settle; PdfFonts.NewDocument;
               PdfFonts.Call Sample.online 1; PdfFonts.Settle]
              PdfFonts.initial in
  PdfFonts.bodiesStarted rt = 1
  /\ PdfFonts.fetchLog rt = [PdfFonts.fontUrl; PdfFonts.altFontUrl]
  /\ PdfFonts.returned rt = [0; 0]
  /\ PdfFonts.loaded (PdfFonts.fontCache rt) = false.
Proof.
  destruct (@single_font_load [PdfFonts.NewDocument] Sample.offline 0
              [PdfFonts.Settle; PdfFonts.NewDocument;
               PdfFonts.Call Sample.online 1; PdfFonts.Settle] eq_refl)
    as (Hbodies & Hlog & _ & Hret & Hfail & _).
  split; [exact Hbodies|]. split; [exact Hlog|]. split; [exact Hret|].
  apply Hfail. reflexivity.
Defined.

(** ** Fonts of the Saudi table *)

Lemma containsUrdu_examples :
  PdfFonts.containsUrdu [0x062D; 0x0648; 0x0627; 0x0644; 0x06C1]%N = true
  /\ PdfFonts.containsUrdu "Balance" = false
  /\ PdfFonts.containsUrdu [] = false.
Proof. repeat split. Qed.

Lemma didParseCell_numeric (fonts : list JsString) (n row col : nat)
      (cell : Pdf.Cell) :
  In col [2; 3; 4; 6; 7] ->
  Pdf.font (Pdf.styles (Saudi.didParseCell fonts n row col cell)) = "helvetica".
Proof.
  intros H. simpl in H.
  destruct H as [<-|[<-|[<-|[<-|[<-|[]]]]]]; reflexivity.
Qed.

Lemma didParseCell_registered (fonts : list JsString) (n row col : nat)
      (cell : Pdf.Cell) :
  ~ In col [2; 3; 4; 6; 7] ->
  PdfFonts.hasFont fonts "NotoSansArabic" = true ->
  Pdf.font (Pdf.styles (Saudi.didParseCell fonts n row col cell))
  = if PdfFonts.containsUrdu (Pdf.joinComma (Pdf.text cell))
       || existsb (Nat.eqb col) [0; 5]
    then "NotoSansArabic" : JsString
    else "helvetica" : JsString.
Proof.
  intros Hcol Hfont. unfold Saudi.didParseCell. cbn [Pdf.font Pdf.styles].
  rewrite Hfont.
  assert (Hnum : existsb (Nat.eqb col) [2; 3; 4; 6; 7] = false).
  { destruct (existsb (Nat.eqb col) [2; 3; 4; 6; 7]) eqn:E; [|reflexivity].
    exfalso. apply Hcol. apply existsb_exists in E.
    destruct E as (x & Hx & Heq). apply Nat.eqb_eq in Heq. subst x. exact Hx. }
  rewrite Hnum.
  destruct (PdfFonts.containsUrdu (Pdf.joinComma (Pdf.text cell))),
           (existsb (Nat.eqb col) [0; 5]); reflexivity.
Qed.

(** C5, where the code departs from it: with the Urdu font not registered,
    the hook leaves the font of a cell in column 0 or 5 as it found it, and
    for a body cell that is 'NotoSansArabic', the font of [columnStyles],
    not 'helvetica'. *)
Theorem unregistered_font_kept (fonts : list JsString) (n row col : nat)
        (content : JsString) :
  PdfFonts.hasFont fonts "NotoSansArabic" = false ->
  PdfFonts.hasFont fonts "NotoSansArabic-normal" = false ->
  col = 0 \/ col = 5 ->
  (forall cell,
      Pdf.font (Pdf.styles (Saudi.didParseCell fonts n row col cell))
      = Pdf.font (Pdf.styles cell))
  /\ Pdf.font
       (Pdf.styles
          (Saudi.didParseCell fonts n row col
             {| Pdf.text := Pdf.splitLines content;
                Pdf.styles := Saudi.optionStyles Pdf.Body col |}))
     = "NotoSansArabic"
  /\ ("NotoSansArabic" : JsString) <> "helvetica".
Proof.
  intros H1 H2 Hcol.
  assert (Hkept : forall cell,
             Pdf.font (Pdf.styles (Saudi.didParseCell fonts n row col cell))
             = Pdf.font (Pdf.styles cell)).
  { intros cell. unfold Saudi.didParseCell. cbn [Pdf.font Pdf.styles].
    rewrite H1, H2.
    destruct Hcol as [-> | ->]; cbn [existsb Nat.eqb orb andb negb];
      destruct (PdfFonts.containsUrdu (Pdf.joinComma (Pdf.text cell)));
      reflexivity. }
  split; [exact Hkept|]. split; [|discriminate].
  rewrite Hkept. destruct Hcol as [-> | ->]; reflexivity.
Qed.

Lemma unregistered_font_kept_witness :
  Pdf.font
    (Pdf.styles
       (Saudi.didParseCell (PdfFonts.fontList PdfFonts.newDoc) 2 0 0
          {| Pdf.text := Pdf.splitLines "2024-01-15";
             Pdf.styles := Saudi.optionStyles Pdf.Body 0 |}))
  = "NotoSansArabic".
Proof.
  exact (proj1 (proj2 (@unregistered_font_kept
                         (PdfFonts.fontList PdfFonts.newDoc) 2 0 0
                         "2024-01-15" eq_refl eq_refl (or_introl eq_refl)))).
Defined.

(** The same in a whole export: with the network down, the date and
    reference cells of every body row carry the font that is not there. *)
Lemma offline_export_fonts :
  Pdf.bodyFonts
    (fst (Saudi.handleDownloadPDF Sample.blank Sample.clock Sample.offline
            (Page.fetchEntries (Some [Sample.scenario]) Page.initial)
            PdfFonts.initial))
  = [[ [ "NotoSansArabic" : JsString; "helvetica" : JsString;
         "helvetica" : JsString; "helvetica" : JsString;
         "helvetica" : JsString; "NotoSansArabic" : JsString;
         "helvetica" : JsString; "helvetica" : JsString ];
       [ "NotoSansArabic" : JsString; "helvetica" : JsString;
         "helvetica" : JsString; "helvetica" : JsString;
         "helvetica" : JsString; "NotoSansArabic" : JsString;
         "helvetica" : JsString; "helvetica" : JsString ] ]].
Proof. vm_compute. reflexivity. Qed.

(** The font is registered in the document of the call that started the
    load and in no other: the second export of a session runs without it,
    even when the first load succeeded. *)
Lemma second_export_without_font :
  let s := Page.fetchEntries (Some [Sample.scenario]) Page.initial in
  let first := Saudi.handleDownloadPDF Sample.blank Sample.clock Sample.online
                 s PdfFonts.initial in
  let second := Saudi.handleDownloadPDF Sample.blank Sample.clock Sample.online
                  s (snd first) in
  PdfFonts.loaded (PdfFonts.fontCache (snd second)) = true
  /\ PdfFonts.fetchLog (snd second) = [PdfFonts.fontUrl]
  /\ In (Pdf.Log (PdfFonts.ConsoleLog "Urdu font ready for PDF generation"))
        (fst first)
  /\ In (Pdf.Log (PdfFonts.ConsoleWarn
                    "Urdu font not found in font list, will use default"))
        (fst second).
Proof.
  vm_compute. repeat split.
  - right. left. reflexivity.
  - right. left. reflexivity.
Qed.

(** * Further properties *)

(** ** The order on strings *)

Lemma str_ltb_trans (a b c : JsString) :
  str_ltb a b = true -> str_ltb b c = true -> str_ltb a c = true.
Proof.
  revert b c; induction a as [|x a IH]; intros [|y b] [|z c]; simpl;
    try congruence.
  destruct (N.ltb_spec x y) as [Hxy|Hxy].
  - intros _. destruct (N.ltb_spec y z) as [Hyz|Hyz].
    + intros _. destruct (N.ltb_spec x z); [reflexivity|lia].
    + destruct (N.ltb_spec z y); [discriminate|].
      intros _. destruct (N.ltb_spec x z); [reflexivity|lia].
  - destruct (N.ltb_spec y x) as [Hyx|Hyx]; [discriminate|].
    assert (x = y) by lia. subst y. intros Hab.
    destruct (N.ltb_spec x z) as [Hxz|Hxz]; [reflexivity|].
    destruct (N.ltb_spec z x) as [Hzx|Hzx]; [discriminate|].
    apply IH. exact Hab.
Qed.

Lemma str_leb_trans (a b c : JsString) :
  str_leb a b = true -> str_leb b c = true -> str_leb a c = true.
Proof.
  rewrite !str_leb_le. unfold Spec.str_le.
  intros [Hab| ->] [Hbc| ->]; auto.
  left. exact (str_ltb_trans _ _ _ Hab Hbc).
Qed.

Lemma str_ltb_extend (a : JsString) (c : N) (rest : JsString) :
  str_ltb a (a ++ c :: rest) = true.
Proof.
  induction a as [|x a IH]; simpl; [reflexivity|].
  rewrite N.ltb_irrefl. exact IH.
Qed.

(** ** The date filter, further *)

Section FilterFacts.

Variable Entry : Type.
Variable date : Entry -> JsString.

Lemma keeps_leb (f : Page.DateFilter) (e : Entry) :
  Page.keeps date f e
  = (negb (truthyStr (Page.fromDate f)) || str_leb (Page.fromDate f) (date e))
    && (negb (truthyStr (Page.toDate f)) || str_leb (date e) (Page.toDate f)).
Proof.
  unfold Page.keeps, str_leb, str_gtb.
  destruct (truthyStr (Page.fromDate f)), (truthyStr (Page.toDate f)),
    (str_ltb (date e) (Page.fromDate f)), (str_ltb (Page.toDate f) (date e));
    reflexivity.
Qed.

(** An entry whose date string goes on after the day of the upper bound, as
    a timestamp does, is dropped by that bound. *)
Theorem upper_bound_drops_longer_dates (f : Page.DateFilter) (e : Entry)
        (c : N) (rest : JsString) :
  Page.toDate f <> [] ->
  date e = Page.toDate f ++ c :: rest ->
  Page.keeps date f e = false
  /\ forall s : Page.State Entry,
      Page.dateFilter s = f ->
      ~ In e (Page.filteredEntries (Page.handleFilter date s)).
Proof.
  intros Hto Hdate.
  assert (Hdrop : Page.keeps date f e = false).
  { rewrite keeps_leb. unfold str_leb. rewrite Hdate, str_ltb_extend.
    destruct (Page.toDate f); [congruence|].
    simpl. apply andb_false_r. }
  split; [exact Hdrop|].
  intros s Hs Hin. rewrite handleFilter_filter, Hs in Hin.
  apply filter_In in Hin. destruct Hin as [_ Hkeep]. congruence.
Qed.

(** Widening the bounds never loses an entry. *)
Theorem wider_filter_keeps_more (narrow wide : Page.DateFilter)
        (data : list Entry) :
  (Page.fromDate wide = []
   \/ Page.fromDate narrow <> []
      /\ str_leb (Page.fromDate wide) (Page.fromDate narrow) = true) ->
  (Page.toDate wide = []
   \/ Page.toDate narrow <> []
      /\ str_leb (Page.toDate narrow) (Page.toDate wide) = true) ->
  forall e, In e (filter (Page.keeps date narrow) data) ->
            In e (filter (Page.keeps date wide) data).
Proof.
  intros Hfrom Hto e Hin. apply filter_In in Hin. destruct Hin as [Hin Hkeep].
  apply filter_In. split; [exact Hin|].
  rewrite keeps_leb in Hkeep |- *.
  apply andb_true_iff in Hkeep. destruct Hkeep as [Hlo Hhi].
  apply andb_true_iff. split.
  - destruct Hfrom as [-> | [Hne Hle]]; [reflexivity|].
    destruct (Page.fromDate narrow) as [|c n] eqn:En; [congruence|].
    simpl in Hlo. rewrite (str_leb_trans _ _ _ Hle Hlo). apply orb_true_r.
  - destruct Hto as [-> | [Hne Hle]]; [reflexivity|].
    destruct (Page.toDate narrow) as [|c n] eqn:En; [congruence|].
    simpl in Hhi. rewrite (str_leb_trans _ _ _ Hhi Hle). apply orb_true_r.
Qed.

(** Whatever the user does, the filtered list is a selection from the
    fetched list, in its order. *)
Theorem filtered_within_entries (actions : list (Session.Action Entry)) :
  let s := Session.run date actions Page.initial in
  (exists g, Page.filteredEntries s = filter (Page.keeps date g) (Page.entries s))
  /\ incl (Page.filteredEntries s) (Page.entries s)
  /\ List.length (Page.filteredEntries s) <= List.length (Page.entries s).
Proof.
  cbv zeta.
  assert (Hinv : exists g,
             Page.filteredEntries (Session.run date actions Page.initial)
             = filter (Page.keeps date g)
                 (Page.entries (Session.run date actions Page.initial))).
  { unfold Session.run.
    assert (Hinit : exists g,
               Page.filteredEntries (@Page.initial Entry)
               = filter (Page.keeps date g) (Page.entries (@Page.initial Entry)))
      by (exists Sample.noFilter; reflexivity).
    revert Hinit. generalize (@Page.initial Entry).
    induction actions as [|a actions IH]; intros s Hs; [exact Hs|].
    simpl. apply IH. destruct Hs as [g Hg].
    assert (Hall : forall l : list Entry,
               l = filter (Page.keeps date Sample.noFilter) l).
    { intros l. symmetry. apply filter_all. intros x _.
      apply keeps_unbounded; reflexivity. }
    destruct a as [[data|]| v | v | |]; simpl.
    - exists Sample.noFilter. apply Hall.
    - exists Sample.noFilter. reflexivity.
    - exists g. exact Hg.
    - exists g. exact Hg.
    - exists (Page.dateFilter s).
      rewrite handleFilter_filter, handleFilter_entries. reflexivity.
    - exists Sample.noFilter. apply Hall. }
  destruct Hinv as [g Hg]. split; [exists g; exact Hg|]. split.
  - intros x Hx. rewrite Hg in Hx. apply filter_In in Hx. tauto.
  - rewrite Hg. apply filter_length_le.
Qed.

End FilterFacts.

(** ** Dates as the date inputs give them *)

Lemma pow10_pos (k : nat) : (0 < 10 ^ N.of_nat k)%N.
Proof. apply N.neq_0_lt_0. apply N.pow_nonzero. discriminate. Qed.

Lemma decimal_ltb (k : nat) : forall (n m : N) (s t : JsString),
  (n < 10 ^ N.of_nat k)%N -> (m < 10 ^ N.of_nat k)%N ->
  str_ltb (Calendar.decimal k n ++ s) (Calendar.decimal k m ++ t)
  = if (n <? m)%N then true else if (m <? n)%N then false else str_ltb s t.
Proof.
  induction k as [|k IH]; intros n m s t Hn Hm.
  - simpl in Hn, Hm. assert (n = 0%N) by lia. assert (m = 0%N) by lia.
    subst. reflexivity.
  - cbn [Calendar.decimal app str_ltb].
    set (p := (10 ^ N.of_nat k)%N) in *.
    assert (Hp : (0 < p)%N) by apply pow10_pos.
    pose proof (N.div_mod n p ltac:(lia)) as En.
    pose proof (N.div_mod m p ltac:(lia)) as Em.
    pose proof (N.mod_lt n p ltac:(lia)) as Ln.
    pose proof (N.mod_lt m p ltac:(lia)) as Lm.
    rewrite (IH (n mod p)%N (m mod p)%N s t Ln Lm).
    set (qn := (n / p)%N) in *. set (qm := (m / p)%N) in *.
    set (rn := (n mod p)%N) in *. set (rm := (m mod p)%N) in *.
    destruct (N.ltb_spec (48 + qn) (48 + qm)) as [H1|H1].
    + destruct (N.ltb_spec n m); [reflexivity|]. exfalso. nia.
    + destruct (N.ltb_spec (48 + qm) (48 + qn)) as [H2|H2].
      * destruct (N.ltb_spec n m); [exfalso; nia|].
        destruct (N.ltb_spec m n); [reflexivity|]. exfalso. nia.
      * assert (qn = qm) by lia.
        destruct (N.ltb_spec rn rm), (N.ltb_spec n m), (N.ltb_spec rm rn),
          (N.ltb_spec m n); try reflexivity; exfalso; nia.
Qed.

(** On well-formed dates the order of the strings is the order of the
    calendar. *)
Lemma isoDate_ltb (a b : Calendar.Day) :
  Calendar.wellFormed a -> Calendar.wellFormed b ->
  str_ltb (Calendar.isoDate a) (Calendar.isoDate b)
  = (Calendar.ordinal a <? Calendar.ordinal b)%N.
Proof.
  intros (Hya & Hma & Hda) (Hyb & Hmb & Hdb).
  unfold Calendar.isoDate, Calendar.ordinal.
  rewrite decimal_ltb by assumption.
  change (lit "-") with [45%N]. cbn [app str_ltb]. rewrite N.ltb_irrefl.
  rewrite decimal_ltb by assumption.
  cbn [app str_ltb]. rewrite N.ltb_irrefl.
  rewrite <- (app_nil_r (Calendar.decimal 2 (Calendar.day a))).
  rewrite <- (app_nil_r (Calendar.decimal 2 (Calendar.day b))).
  rewrite decimal_ltb by assumption.
  cbn [str_ltb].
  destruct (N.ltb_spec (Calendar.year a) (Calendar.year b)),
    (N.ltb_spec (Calendar.year b) (Calendar.year a)),
    (N.ltb_spec (Calendar.month a) (Calendar.month b)),
    (N.ltb_spec (Calendar.month b) (Calendar.month a)),
    (N.ltb_spec (Calendar.day a) (Calendar.day b)),
    (N.ltb_spec (Calendar.day b) (Calendar.day a));
    symmetry; try (apply N.ltb_lt; lia); apply N.ltb_ge; lia.
Qed.

(** With bounds and entry dates in the form [YYYY-MM-DD], the filter keeps
    exactly the entries of the days from the lower bound to the upper bound,
    both included. *)
Theorem filter_is_chronological (Entry : Type) (date : Entry -> JsString)
        (from to d : Calendar.Day) (e : Entry) :
  Calendar.wellFormed from -> Calendar.wellFormed to ->
  Calendar.wellFormed d ->
  date e = Calendar.isoDate d ->
  Page.keeps date
    {| Page.fromDate := Calendar.isoDate from;
       Page.toDate := Calendar.isoDate to |} e
  = ((Calendar.ordinal from <=? Calendar.ordinal d)
     && (Calendar.ordinal d <=? Calendar.ordinal to))%N.
Proof.
  intros Hfrom Hto Hd Hdate.
  rewrite keeps_leb. unfold str_leb. cbn [Page.fromDate Page.toDate].
  rewrite Hdate, !isoDate_ltb by assumption.
  assert (Htruthy : forall x, truthyStr (Calendar.isoDate x) = true)
    by reflexivity.
  rewrite !Htruthy. cbn [negb orb].
  rewrite <- !N.leb_antisym. reflexivity.
Qed.

(** ** Urdu text *)

Lemma containsUrdu_existsb (text : JsString) :
  PdfFonts.containsUrdu text = existsb PdfFonts.urduRegex text.
Proof. destruct text; reflexivity. Qed.

Lemma splitLines_nonempty (s : JsString) : Pdf.splitLines s <> [].
Proof.
  destruct s as [|c rest]; simpl; [discriminate|].
  destruct (c =? 10)%N; [discriminate|].
  destruct (c =? 13)%N.
  - destruct rest as [|c' rest']; [discriminate|].
    destruct (c' =? 10)%N; discriminate.
  - destruct (Pdf.splitLines rest); discriminate.
Qed.

Lemma joinComma_break (ls : list JsString) :
  ls <> [] -> Pdf.joinComma ([] :: ls) = 44%N :: Pdf.joinComma ls.
Proof. destruct ls; [congruence|reflexivity]. Qed.

Lemma joinComma_push (c : N) (l : JsString) (ls : list JsString) :
  Pdf.joinComma ((c :: l) :: ls) = c :: Pdf.joinComma (l :: ls).
Proof. destruct ls; reflexivity. Qed.

(** Splitting a cell's content into lines and joining the lines with commas
    neither adds nor removes Urdu characters. *)
Lemma urdu_through_lines (s : JsString) :
  existsb PdfFonts.urduRegex (Pdf.joinComma (Pdf.splitLines s))
  = existsb PdfFonts.urduRegex s.
Proof.
  remember (List.length s) as n eqn:Hn.
  assert (Hle : List.length s <= n) by lia. clear Hn.
  revert s Hle. induction n as [|n IH]; intros s Hle.
  - destruct s; [reflexivity|simpl in Hle; lia].
  - destruct s as [|c rest]; [reflexivity|].
    simpl in Hle. cbn [Pdf.splitLines].
    destruct (N.eqb_spec c 10) as [->|H10].
    + rewrite joinComma_break by apply splitLines_nonempty.
      cbn [existsb]. rewrite IH by lia. reflexivity.
    + destruct (N.eqb_spec c 13) as [->|H13].
      * destruct rest as [|c' rest'].
        -- reflexivity.
        -- destruct (N.eqb_spec c' 10) as [->|H10'].
           ++ rewrite joinComma_break by apply splitLines_nonempty.
              cbn [existsb]. rewrite IH by (simpl in Hle; lia). reflexivity.
           ++ rewrite joinComma_break by apply splitLines_nonempty.
              cbn [existsb]. rewrite IH by lia. reflexivity.
      * pose proof (splitLines_nonempty rest) as Hne.
        specialize (IH rest ltac:(lia)).
        destruct (Pdf.splitLines rest) as [|l ls]; [congruence|].
        rewrite joinComma_push. cbn [existsb]. rewrite IH. reflexivity.
Qed.

(** The hook's test on a cell is a test on the cell's content: a cell counts
    as Urdu exactly when its content holds a character of the five ranges,
    and content made of characters below U+0600 never does. *)
Theorem cell_urdu_test (content : JsString) :
  PdfFonts.containsUrdu (Pdf.joinComma (Pdf.splitLines content))
  = PdfFonts.containsUrdu content
  /\ (PdfFonts.containsUrdu content = true
      <-> exists c, In c content /\ PdfFonts.urduRegex c = true)
  /\ (Forall (fun c => (c < 0x0600)%N) content ->
      PdfFonts.containsUrdu content = false).
Proof.
  split; [|split].
  - rewrite !containsUrdu_existsb. apply urdu_through_lines.
  - rewrite containsUrdu_existsb. apply existsb_exists.
  - intros Hlow. rewrite containsUrdu_existsb.
    destruct (existsb PdfFonts.urduRegex content) eqn:E; [|reflexivity].
    apply existsb_exists in E. destruct E as (c & Hin & Hc).
    rewrite Forall_forall in Hlow. specialize (Hlow c Hin).
    unfold PdfFonts.urduRegex, PdfFonts.inRange in Hc.
    repeat (apply orb_true_iff in Hc; destruct Hc as [Hc|Hc]);
      apply andb_true_iff in Hc; destruct Hc as [Hc _];
      apply N.leb_le in Hc; lia.
Qed.

Lemma urduRegex_rev (text : JsString) :
  existsb PdfFonts.urduRegex (rev text) = existsb PdfFonts.urduRegex text.
Proof.
  induction text as [|c text IH]; [reflexivity|].
  simpl. rewrite existsb_app, IH. simpl. rewrite orb_false_r. apply orb_comm.
Qed.

(** [reverseForRTL] undoes itself, keeps the length, and leaves text without
    Urdu characters as it is. *)
Theorem reverseForRTL_involutive (text : JsString) :
  Rtl.reverseForRTL (Rtl.reverseForRTL text) = text
  /\ List.length (Rtl.reverseForRTL text) = List.length text
  /\ PdfFonts.containsUrdu (Rtl.reverseForRTL text)
     = PdfFonts.containsUrdu text
  /\ (PdfFonts.containsUrdu text = false -> Rtl.reverseForRTL text = text).
Proof.
  unfold Rtl.reverseForRTL.
  destruct (PdfFonts.containsUrdu text) eqn:E; cbn [negb].
  - assert (Hrev : PdfFonts.containsUrdu (rev text) = true).
    { rewrite containsUrdu_existsb in E |- *. rewrite urduRegex_rev. exact E. }
    rewrite Hrev. cbn [negb]. rewrite rev_involutive, length_rev.
    repeat split. discriminate.
  - rewrite E. repeat split.
Qed.

(** ** The cells of the exported tables *)

Lemma combine_seq_nth_error (A : Type) (l : list A) (a i : nat) :
  nth_error (combine (seq a (List.length l)) l) i
  = option_map (pair (a + i)) (nth_error l i).
Proof.
  revert a i. induction l as [|x l IH]; intros a [|i]; simpl; try reflexivity.
  - rewrite Nat.add_0_r. reflexivity.
  - rewrite IH. rewrite Nat.add_succ_r. reflexivity.
Qed.

Lemma indexed_nth_error (A : Type) (l : list A) (i : nat) :
  nth_error (Pdf.indexed l) i = option_map (pair i) (nth_error l i).
Proof. unfold Pdf.indexed. apply combine_seq_nth_error. Qed.

(** The cell jspdf-autotable ends up with at row [i], column [j] of a
    section of the Saudi table is the hook's result on the content found
    there. *)
Lemma saudi_cell_at (fonts : list JsString) (n : nat)
      (section : Pdf.TableSection) (rows : list (list JsString))
      (i j : nat) (row : list JsString) (content : JsString) :
  nth_error rows i = Some row ->
  nth_error row j = Some content ->
  exists cells,
    nth_error (Saudi.parsedCells fonts n section rows) i = Some cells
    /\ nth_error cells j
       = Some (Saudi.didParseCell fonts n i j
                 {| Pdf.text := Pdf.splitLines content;
                    Pdf.styles := Saudi.optionStyles section j |}).
Proof.
  intros Hrow Hcell. unfold Saudi.parsedCells.
  eexists. split.
  - rewrite nth_error_map, indexed_nth_error, Hrow. reflexivity.
  - cbn [fst snd]. rewrite nth_error_map, indexed_nth_error, Hcell.
    reflexivity.
Qed.

Lemma special_cell_at (n : nat) (section : Pdf.TableSection)
      (rows : list (list JsString)) (i j : nat) (row : list JsString)
      (content : JsString) :
  nth_error rows i = Some row ->
  nth_error row j = Some content ->
  exists cells,
    nth_error (Special.parsedCells n section rows) i = Some cells
    /\ nth_error cells j
       = Some (Special.didParseCell n i
                 {| Pdf.text := Pdf.splitLines content;
                    Pdf.styles := Special.optionStyles section |}).
Proof.
  intros Hrow Hcell. unfold Special.parsedCells.
  eexists. split.
  - rewrite nth_error_map, indexed_nth_error, Hrow. reflexivity.
  - cbn [fst snd]. rewrite nth_error_map, Hcell. reflexivity.
Qed.

Lemma tableData_length (F : Formatter) (saudi : list Saudi.SaudiEntry)
      (special : list Special.SpecialEntry) :
  List.length (Saudi.tableData F saudi) = S (List.length saudi)
  /\ List.length (Special.tableData F special) = S (List.length special).
Proof.
  unfold Saudi.tableData, Special.tableData.
  rewrite !length_app, !length_map, !Nat.add_1_r. split; reflexivity.
Qed.

(** Both tables are rectangular: every body row, the totals row included,
    has as many cells as the header, and there is one row more than there
    are entries. *)
Theorem tables_are_rectangular (F : Formatter)
        (saudi : list Saudi.SaudiEntry) (special : list Special.SpecialEntry) :
  Forall (fun row => List.length row = List.length (hd [] Saudi.head))
         (Saudi.tableData F saudi)
  /\ List.length (Saudi.tableData F saudi) = S (List.length saudi)
  /\ Forall (fun row => List.length row = List.length (hd [] Special.head))
            (Special.tableData F special)
  /\ List.length (Special.tableData F special) = S (List.length special).
Proof.
  unfold Saudi.tableData, Special.tableData.
  rewrite !length_app, !length_map, !Nat.add_1_r.
  repeat split.
  - apply Forall_app. split.
    + apply Forall_map. apply Forall_forall. intros e _. reflexivity.
    + constructor; [reflexivity|constructor].
  - apply Forall_app. split.
    + apply Forall_map. apply Forall_forall. intros e _. reflexivity.
    + constructor; [reflexivity|constructor].
Qed.

(** In the body of both tables the hook makes the cells of the totals row
    bold and leaves every other cell in the normal style. *)
Theorem only_totals_row_is_bold (F : Formatter) (fonts : list JsString)
        (saudi : list Saudi.SaudiEntry) (special : list Special.SpecialEntry)
        (i j : nat) :
  (forall row content,
      nth_error (Saudi.tableData F saudi) i = Some row ->
      nth_error row j = Some content ->
      exists cells cell,
        nth_error
          (Saudi.parsedCells fonts (List.length (Saudi.tableData F saudi))
             Pdf.Body (Saudi.tableData F saudi)) i = Some cells
        /\ nth_error cells j = Some cell
        /\ Pdf.fontStyle (Pdf.styles cell)
           = if (i =? List.length saudi)%nat
             then "bold" : JsString else "normal" : JsString)
  /\ (forall row content,
         nth_error (Special.tableData F special) i = Some row ->
         nth_error row j = Some content ->
         exists cells cell,
           nth_error
             (Special.parsedCells (List.length (Special.tableData F special))
                Pdf.Body (Special.tableData F special)) i = Some cells
           /\ nth_error cells j = Some cell
           /\ Pdf.fontStyle (Pdf.styles cell)
              = if (i =? List.length special)%nat
                then "bold" : JsString else "normal" : JsString).
Proof.
  destruct (tableData_length F saudi special) as (Hs & Hp).
  split; intros row content Hrow Hcell.
  - destruct (saudi_cell_at fonts (List.length (Saudi.tableData F saudi))
                Pdf.Body _ _ _ Hrow Hcell) as (cells & Hcells & Hat).
    exists cells. eexists. split; [exact Hcells|]. split; [exact Hat|].
    rewrite Hs. unfold Saudi.didParseCell. cbn [Pdf.fontStyle Pdf.styles].
    replace (S (List.length saudi) - 1) with (List.length saudi) by lia.
    destruct (i =? List.length saudi)%nat; reflexivity.
  - destruct (special_cell_at (List.length (Special.tableData F special))
                Pdf.Body _ _ _ Hrow Hcell) as (cells & Hcells & Hat).
    exists cells. eexists. split; [exact Hcells|]. split; [exact Hat|].
    rewrite Hp. unfold Special.didParseCell.
    replace (S (List.length special) - 1) with (List.length special) by lia.
    destruct (i =? List.length special)%nat; reflexivity.
Qed.

(** The fonts of the Saudi table's body: the five amount columns are always
    in helvetica; with the Urdu font registered, the date and reference
    columns are in it, and the name column is in it exactly when the name
    holds an Urdu character. *)
Theorem saudi_body_fonts (fonts : list JsString) (n : nat)
        (rows : list (list JsString)) (i j : nat) (row : list JsString)
        (content : JsString) :
  nth_error rows i = Some row ->
  nth_error row j = Some content ->
  exists cells cell,
    nth_error (Saudi.parsedCells fonts n Pdf.Body rows) i = Some cells
    /\ nth_error cells j = Some cell
    /\ (In j [2; 3; 4; 6; 7] -> Pdf.font (Pdf.styles cell) = "helvetica")
    /\ (PdfFonts.hasFont fonts "NotoSansArabic" = true ->
        (j = 0 \/ j = 5 -> Pdf.font (Pdf.styles cell) = "NotoSansArabic")
        /\ (j = 1 ->
            Pdf.font (Pdf.styles cell)
            = if PdfFonts.containsUrdu content
              then "NotoSansArabic" : JsString
              else "helvetica" : JsString)).
Proof.
  intros Hrow Hcell.
  destruct (saudi_cell_at fonts n Pdf.Body _ _ _ Hrow Hcell)
    as (cells & Hcells & Hat).
  exists cells. eexists. split; [exact Hcells|]. split; [exact Hat|]. split.
  - apply didParseCell_numeric.
  - intros Hfont. split.
    + intros Hj. rewrite didParseCell_registered; [|simpl; lia|exact Hfont].
      destruct Hj as [-> | ->]; cbn [existsb Nat.eqb]; rewrite ?orb_true_r;
        reflexivity.
    + intros ->. rewrite didParseCell_registered; [|simpl; lia|exact Hfont].
      cbn [Pdf.text existsb Nat.eqb]. rewrite orb_false_r.
      rewrite !containsUrdu_existsb, urdu_through_lines. reflexivity.
Qed.

(** ** How an export ends *)

Lemma footer_quiet (n : nat) :
  filter Outcome.isSave (Pdf.footer n) = []
  /\ filter Outcome.isAlert (Pdf.footer n) = [].
Proof.
  unfold Pdf.footer. generalize (seq 1 n). intros l.
  induction l as [|i l [IH1 IH2]]; [split; reflexivity|].
  cbn [flat_map]. rewrite !filter_app, IH1, IH2. split; reflexivity.
Qed.

Lemma filter_firstn_nil (A : Type) (p : A -> bool) (l : list A) (k : nat) :
  filter p l = [] -> filter p (firstn k l) = [].
Proof.
  revert k. induction l as [|x l IH]; intros [|k] H; try reflexivity.
  simpl in H |- *. destruct (p x); [discriminate|]. apply IH. exact H.
Qed.

(** The operations of a [try] block that are quiet up to a final save end,
    once guarded, in exactly one save or exactly one alert. *)
Lemma guarded_outcome (env : Pdf.Env) (quiet : list Pdf.Effect)
      (name : JsString) :
  filter Outcome.isSave quiet = [] ->
  filter Outcome.isAlert quiet = [] ->
  let trace := Pdf.guarded env (quiet ++ [Pdf.Save name]) in
  Outcome.saves trace + Outcome.alerts trace = 1
  /\ (Outcome.saves trace = 1 ->
      last trace (Pdf.Alert []) = Pdf.Save name
      /\ trace = quiet ++ [Pdf.Save name]).
Proof.
  intros Hs Ha. cbv zeta. unfold Pdf.guarded, Outcome.saves, Outcome.alerts.
  assert (Hfull :
            List.length (filter Outcome.isSave (quiet ++ [Pdf.Save name]))
            + List.length (filter Outcome.isAlert (quiet ++ [Pdf.Save name])) = 1
            /\ last (quiet ++ [Pdf.Save name]) (Pdf.Alert []) = Pdf.Save name).
  { rewrite !filter_app, Hs, Ha, last_last. split; reflexivity. }
  destruct (Pdf.throwAt env) as [k|]; [|split; [tauto|intros _; split; tauto]].
  destruct (k <? List.length (quiet ++ [Pdf.Save name]))%nat eqn:Hk;
    [|split; [tauto|intros _; split; tauto]].
  apply Nat.ltb_lt in Hk. rewrite length_app, Nat.add_1_r in Hk.
  rewrite firstn_app.
  replace (k - List.length quiet) with 0 by lia.
  cbn [firstn]. rewrite app_nil_r, !filter_app.
  rewrite (filter_firstn_nil _ _ k Hs), (filter_firstn_nil _ _ k Ha).
  split; [reflexivity|discriminate].
Qed.

Lemma saudi_exportOps_quiet (F : Formatter) (env : Pdf.Env)
      (fonts : list JsString) (f : Page.DateFilter)
      (data : list Saudi.SaudiEntry) :
  exists quiet,
    Saudi.exportOps F env fonts f data
    = quiet ++ [Pdf.Save (Saudi.fileName f (Pdf.isoString env))]
    /\ filter Outcome.isSave quiet = []
    /\ filter Outcome.isAlert quiet = [].
Proof.
  unfold Saudi.exportOps. cbv zeta. rewrite app_assoc.
  eexists. split; [reflexivity|].
  destruct (footer_quiet (Pdf.numberOfPages env)) as [H1 H2].
  rewrite !filter_app, H1, H2. split; reflexivity.
Qed.

Lemma special_exportOps_quiet (F : Formatter) (env : Pdf.Env)
      (f : Page.DateFilter) (data : list Special.SpecialEntry) :
  exists quiet,
    Special.exportOps F env f data
    = quiet ++ [Pdf.Save (Special.fileName f (Pdf.isoString env))]
    /\ filter Outcome.isSave quiet = []
    /\ filter Outcome.isAlert quiet = [].
Proof.
  unfold Special.exportOps. cbv zeta. rewrite app_assoc.
  eexists. split; [reflexivity|].
  destruct (footer_quiet (Pdf.numberOfPages env)) as [H1 H2].
  rewrite !filter_app, H1, H2. split; reflexivity.
Qed.

(** An export that comes to its end, on either page and whatever throws,
    ends in exactly one of two ways: one file saved and no alert, or one
    alert and no file. When a file is saved, the save is the last thing the
    export does and the name is the page's file name. *)
Lemma returned_export_ends_one_way (F : Formatter) (env : Pdf.Env)
        (w : PdfFonts.World) (rt : PdfFonts.Runtime)
        (saudi : Saudi.State) (special : Special.State) :
  (let trace := fst (Saudi.handleDownloadPDF F env w saudi rt) in
   Outcome.saves trace + Outcome.alerts trace = 1
   /\ (Outcome.saves trace = 1 ->
       last trace (Pdf.Alert [])
       = Pdf.Save (Saudi.fileName (Page.dateFilter saudi) (Pdf.isoString env))))
  /\ (let trace := Special.handleDownloadPDF F env special in
      Outcome.saves trace + Outcome.alerts trace = 1
      /\ (Outcome.saves trace = 1 ->
          last trace (Pdf.Alert [])
          = Pdf.Save (Special.fileName (Page.dateFilter special)
                        (Pdf.isoString env)))).
Proof.
  split; cbv zeta.
  - unfold Saudi.handleDownloadPDF.
    destruct (List.length (Page.dataToExport saudi) =? 0)%nat;
      [split; [reflexivity|discriminate]|].
    assert (Hrun :
              forall fonts,
                let trace :=
                  Pdf.guarded env
                    (Saudi.exportOps F env fonts (Page.dateFilter saudi)
                       (Page.dataToExport saudi)) in
                Outcome.saves trace + Outcome.alerts trace = 1
                /\ (Outcome.saves trace = 1 ->
                    last trace (Pdf.Alert [])
                    = Pdf.Save (Saudi.fileName (Page.dateFilter saudi)
                                  (Pdf.isoString env)))).
    { intros fonts.
      destruct (saudi_exportOps_quiet F env fonts (Page.dateFilter saudi)
                  (Page.dataToExport saudi)) as (quiet & -> & Hs & Ha).
      destruct (@guarded_outcome env quiet
                  (Saudi.fileName (Page.dateFilter saudi) (Pdf.isoString env))
                  Hs Ha) as [Hone Hsave].
      split; [exact Hone|]. intros H. apply Hsave. exact H. }
    destruct (Pdf.throwAt env) as [[|k]|] eqn:Hthrow.
    + split; [reflexivity|discriminate].
    + unfold PdfFonts.createDoc. cbv beta iota zeta. cbn [fst].
      apply Hrun.
    + unfold PdfFonts.createDoc. cbv beta iota zeta. cbn [fst].
      apply Hrun.
  - unfold Special.handleDownloadPDF.
    destruct (List.length (Page.dataToExport special) =? 0)%nat;
      [split; [reflexivity|discriminate]|].
    destruct (special_exportOps_quiet F env (Page.dateFilter special)
                (Page.dataToExport special)) as (quiet & -> & Hs & Ha).
    destruct (@guarded_outcome env quiet
                (Special.fileName (Page.dateFilter special) (Pdf.isoString env))
                Hs Ha) as [Hone Hsave].
    split; [exact Hone|]. intros H. apply Hsave. exact H.
Qed.

(** A Saudi export either comes to its end, with the trace and the loader
    state of the run whose font load settles, or stops at the awaited font
    load: then there were entries to export, the document had been created,
    and the promise it waits on is not fulfilled. *)
Lemma await_cases (settles : bool) (F : Formatter) (env : Pdf.Env)
      (w : PdfFonts.World) (s : Saudi.State) (rt : PdfFonts.Runtime) :
  Await.handleDownloadPDF settles F env w s rt
  = Await.Returned (fst (Saudi.handleDownloadPDF F env w s rt))
      (snd (Saudi.handleDownloadPDF F env w s rt))
  \/ (settles = false
      /\ Page.dataToExport s <> []
      /\ Pdf.throwAt env <> Some 0
      /\ exists rt',
          Await.handleDownloadPDF settles F env w s rt
          = Await.Pending [Pdf.NewJsPDF] rt'
          /\ ~ In (fst (PdfFonts.loadUrduFont w (List.length (PdfFonts.docs rt))
                          (snd (PdfFonts.createDoc rt))))
                  (PdfFonts.fulfilled rt')).
Proof.
  unfold Await.handleDownloadPDF, Saudi.handleDownloadPDF.
  destruct (Page.dataToExport s) as [|e l] eqn:Hdata; [left; reflexivity|].
  cbn [List.length Nat.eqb].
  destruct (Pdf.throwAt env) as [[|k]|] eqn:Hthrow; [left; reflexivity| |].
  - unfold PdfFonts.createDoc at 1 3 4. cbv beta iota.
    unfold PdfFonts.createDoc.
    destruct (PdfFonts.loadUrduFont w _ _) as [p rt2] eqn:Hload.
    destruct (existsb (Nat.eqb p) (PdfFonts.fulfilled rt2)) eqn:Hful.
    + left. reflexivity.
    + destruct settles; [left; reflexivity|].
      right. split; [reflexivity|]. split; [discriminate|].
      split; [discriminate|]. exists rt2. split; [reflexivity|].
      cbn [fst]. intros Hin.
      assert (Hex : existsb (Nat.eqb p) (PdfFonts.fulfilled rt2) = true).
      { apply existsb_exists. exists p. split; [exact Hin|apply Nat.eqb_refl]. }
      congruence.
  - unfold PdfFonts.createDoc at 1 3 4. cbv beta iota.
    unfold PdfFonts.createDoc.
    destruct (PdfFonts.loadUrduFont w _ _) as [p rt2] eqn:Hload.
    destruct (existsb (Nat.eqb p) (PdfFonts.fulfilled rt2)) eqn:Hful.
    + left. reflexivity.
    + destruct settles; [left; reflexivity|].
      right. split; [reflexivity|]. split; [discriminate|].
      split; [discriminate|]. exists rt2. split; [reflexivity|].
      cbn [fst]. intros Hin.
      assert (Hex : existsb (Nat.eqb p) (PdfFonts.fulfilled rt2) = true).
      { apply existsb_exists. exists p. split; [exact Hin|apply Nat.eqb_refl]. }
      congruence.
Qed.

(** How an export ends. A Saudi export that comes to its end, whatever
    throws, ends in exactly one of two ways: one file saved and no alert, or
    one alert and no file; when a file is saved, the save is the last thing
    the export does and the name is the page's file name. A Saudi export
    whose awaited font load never settles does not come to its end: it has
    created the document and neither saves nor alerts; this happens on a
    fresh loader whenever there is an entry to export and creating the
    document does not throw. When the load settles the export comes to its
    end. The Special export awaits nothing and always ends in one of the two
    ways. *)
Theorem export_outcomes (settles : bool) (F : Formatter) (env : Pdf.Env)
        (w : PdfFonts.World) (rt : PdfFonts.Runtime)
        (saudi : Saudi.State) (special : Special.State) :
  match Await.handleDownloadPDF settles F env w saudi rt with
  | Await.Returned trace _ =>
      Outcome.saves trace + Outcome.alerts trace = 1
      /\ (Outcome.saves trace = 1 ->
          last trace (Pdf.Alert [])
          = Pdf.Save (Saudi.fileName (Page.dateFilter saudi)
                        (Pdf.isoString env)))
  | Await.Pending trace _ =>
      settles = false
      /\ Page.dataToExport saudi <> []
      /\ trace = [Pdf.NewJsPDF]
      /\ Outcome.saves trace = 0
      /\ Outcome.alerts trace = 0
  end
  /\ (settles = true ->
      Await.handleDownloadPDF settles F env w saudi rt
      = Await.Returned (fst (Saudi.handleDownloadPDF F env w saudi rt))
          (snd (Saudi.handleDownloadPDF F env w saudi rt)))
  /\ (Page.dataToExport saudi <> [] ->
      Pdf.throwAt env <> Some 0 ->
      exists rt',
        Await.handleDownloadPDF false F env w saudi PdfFonts.initial
        = Await.Pending [Pdf.NewJsPDF] rt')
  /\ (let trace := Special.handleDownloadPDF F env special in
      Outcome.saves trace + Outcome.alerts trace = 1
      /\ (Outcome.saves trace = 1 ->
          last trace (Pdf.Alert [])
          = Pdf.Save (Special.fileName (Page.dateFilter special)
                        (Pdf.isoString env)))).
Proof.
  destruct (returned_export_ends_one_way F env w rt saudi special)
    as [Hsaudi Hspecial].
  split; [|split; [|split]].
  - destruct (await_cases settles F env w saudi rt)
      as [-> | (Hs & Hdata & _ & rt' & -> & _)].
    + exact Hsaudi.
    + repeat split; assumption.
  - intros ->.
    destruct (await_cases true F env w saudi rt)
      as [H | (Hs & _)]; [exact H|discriminate Hs].
  - intros Hdata Hthrow. unfold Await.handleDownloadPDF.
    rewrite (length_eqb_0_false Hdata).
    destruct (Pdf.throwAt env) as [[|k]|]; [congruence| |];
      eexists; reflexivity.
  - exact Hspecial.
Qed.

(** The download button is disabled exactly in the states in which the
    export would answer with the alert 'No data to export'. *)
Theorem button_disabled_iff_no_data (F : Formatter) (env : Pdf.Env)
        (w : PdfFonts.World) (rt : PdfFonts.Runtime)
        (saudi : Saudi.State) (special : Special.State) :
  (Session.downloadDisabled saudi = true
   <-> fst (Saudi.handleDownloadPDF F env w saudi rt)
       = [Pdf.Alert "No data to export"])
  /\ (Session.downloadDisabled special = true
      <-> Special.handleDownloadPDF F env special
          = [Pdf.Alert "No data to export"]).
Proof.
  assert (Hdis : forall (Entry : Type) (s : Page.State Entry),
             Session.downloadDisabled s = true <-> Page.dataToExport s = []).
  { intros Entry s. rewrite dataToExport_nil. unfold Session.downloadDisabled.
    destruct (Page.filteredEntries s), (Page.entries s); simpl;
      intuition congruence. }
  assert (Hguard : forall quiet name,
             filter Outcome.isAlert quiet = [] ->
             Pdf.guarded env (quiet ++ [Pdf.Save name])
             <> [Pdf.Alert "No data to export"]).
  { intros quiet name Ha Heq.
    assert (Hin : In (Pdf.Alert "No data to export")
                     (Pdf.guarded env (quiet ++ [Pdf.Save name])))
      by (rewrite Heq; left; reflexivity).
    assert (Hquiet : forall l, filter Outcome.isAlert l = [] ->
                               ~ In (Pdf.Alert "No data to export") l).
    { intros l Hl Hx.
      assert (Hf : In (Pdf.Alert "No data to export")
                      (filter Outcome.isAlert l))
        by (apply filter_In; split; [exact Hx|reflexivity]).
      rewrite Hl in Hf. exact Hf. }
    unfold Pdf.guarded in Hin.
    assert (Hops : ~ In (Pdf.Alert "No data to export")
                     (quiet ++ [Pdf.Save name])).
    { intros Hx. apply in_app_or in Hx. destruct Hx as [Hx|[Hx|[]]];
        [exact (Hquiet _ Ha Hx)|discriminate Hx]. }
    destruct (Pdf.throwAt env) as [k|]; [|exact (Hops Hin)].
    destruct (k <? List.length (quiet ++ [Pdf.Save name]))%nat eqn:Hk;
      [|exact (Hops Hin)].
    apply in_app_or in Hin. destruct Hin as [Hin|Hin].
    - apply Nat.ltb_lt in Hk. rewrite length_app, Nat.add_1_r in Hk.
      rewrite firstn_app in Hin.
      replace (k - List.length quiet) with 0 in Hin by lia.
      cbn [firstn] in Hin. rewrite app_nil_r in Hin.
      exact (Hquiet _ (filter_firstn_nil _ _ k Ha) Hin).
    - destruct Hin as [Hin|[Hin|[]]]; discriminate Hin. }
  split.
  - rewrite Hdis. split.
    + intros H. unfold Saudi.handleDownloadPDF. rewrite H. reflexivity.
    + intros H. destruct (Page.dataToExport saudi) as [|e l] eqn:Hdata;
        [reflexivity|exfalso].
      unfold Saudi.handleDownloadPDF in H. rewrite Hdata in H.
      cbn [List.length Nat.eqb] in H.
      destruct (Pdf.throwAt env) as [[|k]|] eqn:Hthrow.
      * discriminate H.
      * unfold PdfFonts.createDoc in H. cbv beta iota zeta in H.
        cbn [fst] in H.
        match type of H with
        | Pdf.guarded _ (Saudi.exportOps _ _ ?fonts _ _) = _ =>
            destruct (saudi_exportOps_quiet F env fonts (Page.dateFilter saudi)
                        (e :: l)) as (quiet & Hops & _ & Ha)
        end.
        rewrite Hops in H. exact (Hguard _ _ Ha H).
      * unfold PdfFonts.createDoc in H. cbv beta iota zeta in H.
        cbn [fst] in H.
        match type of H with
        | Pdf.guarded _ (Saudi.exportOps _ _ ?fonts _ _) = _ =>
            destruct (saudi_exportOps_quiet F env fonts (Page.dateFilter saudi)
                        (e :: l)) as (quiet & Hops & _ & Ha)
        end.
        rewrite Hops in H. exact (Hguard _ _ Ha H).
  - rewrite Hdis. split.
    + intros H. unfold Special.handleDownloadPDF. rewrite H. reflexivity.
    + intros H. destruct (Page.dataToExport special) as [|e l] eqn:Hdata;
        [reflexivity|exfalso].
      unfold Special.handleDownloadPDF in H. rewrite Hdata in H.
      cbn [List.length Nat.eqb] in H.
      destruct (special_exportOps_quiet F env (Page.dateFilter special)
                  (e :: l)) as (quiet & Hops & _ & Ha).
      rewrite Hops in H. exact (Hguard _ _ Ha H).
Qed.


(** ** What makes the font load succeed *)

Lemma stored_font (w : PdfFonts.World) (doc : PdfFonts.Doc) (data : JsString) :
  PdfFonts.addFont w "NotoSansArabic-normal.ttf" "NotoSansArabic"
    (PdfFonts.addFileToVFS "NotoSansArabic-normal.ttf" data doc)
  = if PdfFonts.acceptsFont w data
    then Ok {| PdfFonts.vfs := ("NotoSansArabic-normal.ttf" : JsString, data)
                                 :: PdfFonts.vfs doc;
               PdfFonts.fontList := ("NotoSansArabic" : JsString)
                                      :: PdfFonts.fontList doc |}
    else Throw "Cannot parse font".
Proof. reflexivity. Qed.

(** The whole decision of one load: the font ends up loaded exactly when a
    source delivered a body (the alternate one being asked only after the
    primary fetch or its body read threw) and jsPDF accepted its base64
    form; then the document has the font, otherwise its font list is
    untouched. At most two fetches are made, the primary one first. *)
Theorem font_load_decision (w : PdfFonts.World) (doc : PdfFonts.Doc) :
  let run := PdfFonts.loadBody w doc in
  let primary := PdfFonts.net w PdfFonts.fontUrl in
  let alternate := PdfFonts.net w PdfFonts.altFontUrl in
  let primaryThrew :=
    primary = PdfFonts.NetworkError
    \/ primary = PdfFonts.Response true None in
  (PdfFonts.bodyLoaded run = true
   <-> exists data,
        (primary = PdfFonts.Response true (Some data)
         \/ primaryThrew /\ alternate = PdfFonts.Response true (Some data))
        /\ PdfFonts.acceptsFont w (PdfFonts.btoa (PdfFonts.binaryOf data))
           = true)
  /\ (PdfFonts.bodyLoaded run = true ->
      PdfFonts.fontList (PdfFonts.bodyDoc run)
      = ("NotoSansArabic" : JsString) :: PdfFonts.fontList doc)
  /\ (PdfFonts.bodyLoaded run = false ->
      PdfFonts.fontList (PdfFonts.bodyDoc run) = PdfFonts.fontList doc)
  /\ (PdfFonts.bodyFetches run = [PdfFonts.fontUrl; PdfFonts.altFontUrl]
      <-> primaryThrew)
  /\ (PdfFonts.bodyFetches run = [PdfFonts.fontUrl] <-> ~ primaryThrew).
Proof.
  cbv zeta. unfold PdfFonts.loadBody, PdfFonts.fetchFontData, PdfFonts.fetchIfOk.
  destruct (PdfFonts.net w PdfFonts.fontUrl) as [|[|] [data|]] eqn:Hp;
    try destruct (PdfFonts.net w PdfFonts.altFontUrl) as [|[|] [data'|]] eqn:Ha;
    rewrite ?stored_font;
    repeat match goal with
           | |- context [PdfFonts.acceptsFont w ?d] =>
               destruct (PdfFonts.acceptsFont w d) eqn:?
           end;
    cbn [PdfFonts.bodyLoaded PdfFonts.bodyDoc PdfFonts.bodyFetches
           PdfFonts.fontList PdfFonts.addFileToVFS];
    (split; [|split; [|split; [|split]]]);
    try (split; intros; try discriminate; try tauto);
    try (intros; try discriminate; try reflexivity; tauto).
  all: try (match goal with
            | H : exists _, _ |- _ =>
                destruct H as (d & [H|[[H|H] H']] & Hd);
                try discriminate;
                try (injection H as <-); try (injection H' as <-);
                congruence
            end).
  all: try (eexists; split;
            [first [ left; reflexivity
                   | right; split;
                     [first [left; reflexivity | right; reflexivity]
                     | reflexivity] ]
            | eassumption]).
  all: try (intros [?|?]; discriminate).
  all: try (match goal with
            | H : _ \/ _ |- _ => destruct H as [H|H]; discriminate
            end).
Qed.

(** ** The font across the exports of a session *)

Lemma in_firstn (A : Type) (x : A) (k : nat) (l : list A) :
  In x (firstn k l) -> In x l.
Proof.
  revert k. induction l as [|y l IH]; intros [|k] H; simpl in *; try tauto.
  destruct H as [H|H]; [left; exact H|right; exact (IH k H)].
Qed.

Lemma in_guarded (env : Pdf.Env) (ops : list Pdf.Effect) (x : Pdf.Effect) :
  In x (Pdf.guarded env ops) -> In x ops \/ In x Pdf.failure.
Proof.
  unfold Pdf.guarded. destruct (Pdf.throwAt env) as [k|]; [|tauto].
  destruct (k <? List.length ops)%nat; [|tauto].
  intros H. apply in_app_or in H. destruct H as [H|H]; [left|right; exact H].
  exact (@in_firstn _ _ _ _ H).
Qed.

Lemma footer_no_log (n : nat) (entry : PdfFonts.Console) :
  ~ In (Pdf.Log entry) (Pdf.footer n).
Proof.
  unfold Pdf.footer. generalize (seq 1 n). intros l.
  induction l as [|i l IH]; [intros []|].
  cbn [flat_map]. intros H. apply in_app_or in H. destruct H as [H|H].
  - simpl in H. repeat (destruct H as [H|H]; [discriminate H|]). exact H.
  - exact (IH H).
Qed.

(** Without the font in the document's list, the export never reports it
    ready. *)
Lemma no_font_no_ready (F : Formatter) (env : Pdf.Env) (fonts : list JsString)
      (f : Page.DateFilter) (data : list Saudi.SaudiEntry) :
  PdfFonts.hasFont fonts "NotoSansArabic" = false ->
  ~ In (Pdf.Log (PdfFonts.ConsoleLog "Urdu font ready for PDF generation"))
       (Pdf.guarded env (Saudi.exportOps F env fonts f data)).
Proof.
  intros Hfont Hin. apply in_guarded in Hin. destruct Hin as [Hin|Hin].
  - unfold Saudi.exportOps in Hin. cbv zeta in Hin. rewrite Hfont in Hin.
    apply in_app_or in Hin. destruct Hin as [Hin|Hin].
    + simpl in Hin. repeat (destruct Hin as [Hin|Hin]; [discriminate Hin|]).
      exact Hin.
    + apply in_app_or in Hin. destruct Hin as [Hin|Hin].
      * exact (@footer_no_log _ _ Hin).
      * destruct Hin as [Hin|[]]. discriminate Hin.
  - simpl in Hin. destruct Hin as [Hin|[Hin|[]]]; discriminate Hin.
Qed.

(** Once a load has been started and has finished, an export changes
    nothing in the font cache, fetches nothing, and runs on a document
    without the font. *)
Lemma export_after_load (F : Formatter) (env : Pdf.Env) (w : PdfFonts.World)
      (s : Saudi.State) (rt : PdfFonts.Runtime) (p : nat) :
  PdfFonts.promise (PdfFonts.fontCache rt) = Some p ->
  PdfFonts.inFlight rt = None ->
  let result := Saudi.handleDownloadPDF F env w s rt in
  ~ In (Pdf.Log (PdfFonts.ConsoleLog "Urdu font ready for PDF generation"))
       (fst result)
  /\ PdfFonts.fontCache (snd result) = PdfFonts.fontCache rt
  /\ PdfFonts.inFlight (snd result) = None
  /\ PdfFonts.fetchLog (snd result) = PdfFonts.fetchLog rt.
Proof.
  intros Hp Hin. cbv zeta. unfold Saudi.handleDownloadPDF.
  destruct (List.length (Page.dataToExport s) =? 0)%nat.
  { simpl. repeat split; try assumption. intros [H|[]]. discriminate H. }
  assert (Hrun :
            let rt2 := PdfFonts.awaitLoadUrduFont w (List.length (PdfFonts.docs rt))
                         (snd (PdfFonts.createDoc rt)) in
            PdfFonts.fontList (PdfFonts.getDoc rt2 (List.length (PdfFonts.docs rt)))
            = PdfFonts.fontList PdfFonts.newDoc
            /\ PdfFonts.fontCache rt2 = PdfFonts.fontCache rt
            /\ PdfFonts.inFlight rt2 = None
            /\ PdfFonts.fetchLog rt2 = PdfFonts.fetchLog rt).
  { cbv zeta. unfold PdfFonts.awaitLoadUrduFont, PdfFonts.loadUrduFont, PdfFonts.createDoc.
    cbn [snd PdfFonts.fontCache]. rewrite Hp.
    match goal with
    | |- context [if ?b then _ else _] => destruct b
    end.
    - unfold PdfFonts.getDoc. cbn [PdfFonts.docs PdfFonts.fontCache PdfFonts.inFlight PdfFonts.fetchLog].
      rewrite nth_middle. auto.
    - unfold PdfFonts.settle. cbn [PdfFonts.inFlight]. rewrite Hin.
      unfold PdfFonts.getDoc. cbn [PdfFonts.docs PdfFonts.fontCache PdfFonts.inFlight PdfFonts.fetchLog].
      rewrite nth_middle. auto. }
  cbv zeta in Hrun. destruct Hrun as (Hfonts & Hcache & Hflight & Hlog).
  destruct (Pdf.throwAt env) as [[|k]|] eqn:Hthrow.
  - simpl. repeat split; try assumption.
    intros [H|[H|[]]]; discriminate H.
  - unfold PdfFonts.createDoc at 1. cbv beta iota. cbn [fst snd].
    split; [|auto].
    unfold PdfFonts.createDoc in Hfonts. cbn [snd] in Hfonts.
    apply no_font_no_ready.
    unfold PdfFonts.createDoc. rewrite Hfonts. reflexivity.
  - unfold PdfFonts.createDoc at 1. cbv beta iota. cbn [fst snd].
    split; [|auto].
    apply no_font_no_ready.
    unfold PdfFonts.createDoc in Hfonts |- *. cbn [snd] in Hfonts. rewrite Hfonts. reflexivity.
Qed.

(** The first export with data, from a fresh module, starts the load and
    waits for it. *)
Lemma first_export_loads (F : Formatter) (env : Pdf.Env) (w : PdfFonts.World)
      (s : Saudi.State) :
  Page.dataToExport s <> [] ->
  Pdf.throwAt env <> Some 0 ->
  let rt := snd (Saudi.handleDownloadPDF F env w s PdfFonts.initial) in
  PdfFonts.promise (PdfFonts.fontCache rt) = Some 0
  /\ PdfFonts.inFlight rt = None
  /\ PdfFonts.fetchLog rt = fst (PdfFonts.fetchFontData (PdfFonts.net w))
  /\ PdfFonts.loaded (PdfFonts.fontCache rt)
     = PdfFonts.bodyLoaded (PdfFonts.loadBody w PdfFonts.newDoc).
Proof.
  intros Hdata Hthrow. cbv zeta. unfold Saudi.handleDownloadPDF.
  rewrite (length_eqb_0_false Hdata).
  assert (Hrun :
            let rt := PdfFonts.awaitLoadUrduFont w 0
                        (snd (PdfFonts.createDoc PdfFonts.initial)) in
            PdfFonts.promise (PdfFonts.fontCache rt) = Some 0
            /\ PdfFonts.inFlight rt = None
            /\ PdfFonts.fetchLog rt = fst (PdfFonts.fetchFontData (PdfFonts.net w))
            /\ PdfFonts.loaded (PdfFonts.fontCache rt)
               = PdfFonts.bodyLoaded (PdfFonts.loadBody w PdfFonts.newDoc)).
  { cbv zeta. unfold PdfFonts.awaitLoadUrduFont, PdfFonts.loadUrduFont.
    cbn. rewrite loadBody_fetches. auto. }
  destruct (Pdf.throwAt env) as [[|k]|]; [congruence| |]; exact Hrun.
Qed.

(** After the first export of a session that had data, no export ever runs
    with the Urdu font again, whatever the network does later: the cached
    promise keeps every later call from fetching, and the font went into the
    first document only. The fetches of the whole session are those of the
    first export, and [loaded] keeps that export's verdict. *)
Theorem only_first_export_has_font (F : Formatter) (env : Pdf.Env)
        (w : PdfFonts.World) (s : Saudi.State)
        (jobs : list (Pdf.Env * PdfFonts.World * Saudi.State)) :
  Page.dataToExport s <> [] ->
  Pdf.throwAt env <> Some 0 ->
  let rt := snd (Saudi.handleDownloadPDF F env w s PdfFonts.initial) in
  let later := SaudiView.exports F jobs rt in
  (forall trace,
      In trace (fst later) ->
      ~ In (Pdf.Log (PdfFonts.ConsoleLog "Urdu font ready for PDF generation"))
           trace)
  /\ PdfFonts.fetchLog (snd later)
     = fst (PdfFonts.fetchFontData (PdfFonts.net w))
  /\ PdfFonts.loaded (PdfFonts.fontCache (snd later))
     = PdfFonts.bodyLoaded (PdfFonts.loadBody w PdfFonts.newDoc).
Proof.
  intros Hdata Hthrow rt.
  destruct (@first_export_loads F env w s Hdata Hthrow) as (Hp & Hin & Hlog & Hloaded).
  fold rt in Hp, Hin, Hlog, Hloaded.
  rewrite <- Hlog, <- Hloaded. clearbody rt. clear Hlog Hloaded.
  revert rt Hp Hin. induction jobs as [|[[env' w'] s'] jobs IH]; intros rt Hp Hin.
  - cbv zeta. simpl. repeat split. intros trace [].
  - cbv zeta. cbn [SaudiView.exports].
    destruct (@export_after_load F env' w' s' rt 0 Hp Hin)
      as (Hquiet & Hcache & Hflight & Hlog).
    destruct (Saudi.handleDownloadPDF F env' w' s' rt) as [trace rt1].
    cbn [fst snd] in Hquiet, Hcache, Hflight, Hlog.
    assert (Hp1 : PdfFonts.promise (PdfFonts.fontCache rt1) = Some 0)
      by (rewrite Hcache; exact Hp).
    specialize (IH rt1 Hp1 Hflight). cbv zeta in IH.
    destruct (SaudiView.exports F jobs rt1) as [traces rt2].
    cbn [fst snd] in IH |- *. destruct IH as (IH1 & IH2 & IH3).
    split; [|split].
    + intros t [<-|Ht]; [exact Hquiet|exact (IH1 t Ht)].
    + rewrite IH2. exact Hlog.
    + rewrite IH3, Hcache. reflexivity.
Qed.

(** ** What the Saudi page shows against what it exports *)

Lemma summary_of_data (F : Formatter) (s : Saudi.State) :
  Page.dataToExport s <> [] ->
  SaudiView.summary F s
  = Some {| SaudiView.title := SaudiView.summaryTitle (Page.dateFilter s);
            SaudiView.totalPkrAmount :=
              formatNumber F (Saudi.totalPKR (Page.dataToExport s)) ++ " PKR";
            SaudiView.totalRiyalAmount :=
              formatNumber F (Saudi.totalRiyal (Page.dataToExport s)) ++ " SAR";
            SaudiView.totalSubmittedSar :=
              formatNumber F (Saudi.totalSubmittedSAR (Page.dataToExport s))
                ++ " SAR" |}.
Proof.
  intros Hdata. unfold SaudiView.summary, Page.dataToExport in *.
  destruct (Page.filteredEntries s) as [|x l]; [|reflexivity].
  destruct (Page.entries s) as [|y l']; [simpl in Hdata; congruence|reflexivity].
Qed.

(** The amounts on screen are the amounts in the PDF: each row's PKR, Riyal
    and submitted cells are the same strings in the table and in the PDF
    row, and the three totals of the summary panel are the three amount
    cells of the PDF's totals row. *)
Theorem screen_matches_pdf (F : Formatter) (s : Saudi.State)
        (e : Saudi.SaudiEntry) :
  nth 2 (Saudi.tableRow F e) [] = SaudiView.renderPkrAmount F e
  /\ nth 3 (Saudi.tableRow F e) [] = SaudiView.renderRiyalAmount F e
  /\ nth 4 (Saudi.tableRow F e) [] = SaudiView.renderSubmittedSar F e
  /\ (Page.dataToExport s <> [] ->
      exists panel,
        SaudiView.summary F s = Some panel
        /\ let totals := last (Saudi.tableData F (Page.dataToExport s)) [] in
           SaudiView.totalPkrAmount panel = nth 2 totals []
           /\ SaudiView.totalRiyalAmount panel = nth 3 totals []
           /\ SaudiView.totalSubmittedSar panel = nth 4 totals []).
Proof.
  split; [reflexivity|]. split; [reflexivity|]. split; [reflexivity|].
  intros Hdata. eexists. split; [apply summary_of_data; exact Hdata|].
  cbv zeta. unfold Saudi.tableData. rewrite last_last.
  split; [reflexivity|]. split; reflexivity.
Qed.


(** ** The add-entry forms *)

Lemma trimStart_nil (s : JsString) :
  Forms.trimStart s = [] <-> forallb Forms.isWhiteSpace s = true.
Proof.
  induction s as [|c s IH]; simpl; [tauto|].
  destruct (Forms.isWhiteSpace c); simpl; [exact IH|].
  split; discriminate.
Qed.

Lemma trimStart_blank (s : JsString) :
  forallb Forms.isWhiteSpace (Forms.trimStart s)
  = forallb Forms.isWhiteSpace s.
Proof.
  induction s as [|c s IH]; simpl; [reflexivity|].
  destruct (Forms.isWhiteSpace c) eqn:E; simpl; [exact IH|].
  rewrite E. reflexivity.
Qed.

Lemma forallb_rev (A : Type) (p : A -> bool) (l : list A) :
  forallb p (rev l) = forallb p l.
Proof.
  induction l as [|x l IH]; [reflexivity|].
  simpl. rewrite forallb_app, IH. simpl. rewrite andb_true_r. apply andb_comm.
Qed.

(** [trim] leaves nothing exactly when every character is white space. *)
Lemma trim_nil (s : JsString) :
  truthyStr (Forms.trim s) = negb (forallb Forms.isWhiteSpace s).
Proof.
  assert (H : Forms.trim s = [] <-> forallb Forms.isWhiteSpace s = true).
  { unfold Forms.trim, Forms.trimEnd.
    rewrite <- (trimStart_blank s), <- (forallb_rev _ (Forms.trimStart s)),
      <- trimStart_nil.
    split; intros E.
    - apply (f_equal (@rev N)) in E. rewrite rev_involutive in E. exact E.
    - rewrite E. reflexivity. }
  destruct (forallb Forms.isWhiteSpace s).
  - rewrite (proj2 H eq_refl). reflexivity.
  - destruct (Forms.trim s); [|reflexivity].
    pose proof (proj1 H eq_refl) as Habs. discriminate Habs.
Qed.

Lemma not_nan_spec (x : float) :
  PrimFloat.is_nan x = false -> Prim2SF x <> S754_nan.
Proof.
  unfold PrimFloat.is_nan. rewrite FloatAxioms.eqb_spec. intros H E.
  rewrite E in H. discriminate H.
Qed.

(** A number that is not [<= 0] is [> 0], unless it is [NaN]. *)
Lemma not_leb_zero (x : float) :
  PrimFloat.leb x 0 = false -> PrimFloat.is_nan x = false ->
  PrimFloat.ltb 0 x = true.
Proof.
  intros Hle Hnan. apply not_nan_spec in Hnan.
  rewrite leb_spec in Hle. rewrite ltb_spec.
  change (Prim2SF 0) with (S754_zero false) in *.
  destruct (Prim2SF x) as [s|s| |s m e]; try congruence;
    destruct s; try discriminate Hle; reflexivity.
Qed.

(** A number that is not [< 0] is [>= 0], unless it is [NaN]. *)
Lemma not_ltb_zero (x : float) :
  PrimFloat.ltb x 0 = false -> PrimFloat.is_nan x = false ->
  PrimFloat.leb 0 x = true.
Proof.
  intros Hlt Hnan. apply not_nan_spec in Hnan.
  rewrite ltb_spec in Hlt. rewrite leb_spec.
  change (Prim2SF 0) with (S754_zero false) in *.
  destruct (Prim2SF x) as [s|s| |s m e]; try congruence;
    destruct s; try discriminate Hlt; reflexivity.
Qed.

Lemma nan_compares_false (x : float) :
  PrimFloat.is_nan x = true ->
  PrimFloat.leb x 0 = false /\ PrimFloat.ltb x 0 = false.
Proof.
  unfold PrimFloat.is_nan. rewrite FloatAxioms.eqb_spec, leb_spec, ltb_spec.
  change (Prim2SF 0) with (S754_zero false).
  destruct (Prim2SF x) as [s|s| |s m e]; try (split; reflexivity).
  - destruct s; discriminate.
  - destruct s; discriminate.
  - unfold SFeqb. rewrite SFcompare_finite_refl. discriminate.
Qed.

Lemma check_noErrors (c : bool) (key message : JsString)
      (rest : Forms.Errors) :
  Forms.noErrors (Forms.check c key message ++ rest)
  = negb c && Forms.noErrors rest.
Proof. destruct c; reflexivity. Qed.

(** On both pages [handleAddEntry] sends its request exactly when the
    required texts are there, the name has a character that is not white
    space, and no amount is rejected: an amount is rejected when it is
    empty, or when its parse is [<= 0] (for the submitted amounts, [< 0]).
    A text that parses to [NaN] is therefore never rejected. *)
Theorem add_form_validation (B : Forms.Builtins)
        (saudi : SaudiForm.AddFormData) (special : SpecialForm.AddFormData) :
  let amountOk (text : JsString) (rejected : float -> bool) :=
    text <> [] /\ rejected (Forms.parseFloat B text) = false in
  let notBlank (text : JsString) :=
    exists c, In c text /\ Forms.isWhiteSpace c = false in
  (SaudiForm.handleAddEntry B saudi <> None
   <-> SaudiForm.date saudi <> [] /\ SaudiForm.time saudi <> []
       /\ notBlank (SaudiForm.refNo saudi)
       /\ amountOk (SaudiForm.pkrAmount saudi) (fun x => PrimFloat.leb x 0)
       /\ amountOk (SaudiForm.riyalRate saudi) (fun x => PrimFloat.leb x 0)
       /\ amountOk (SaudiForm.submittedSar saudi) (fun x => PrimFloat.ltb x 0))
  /\ (SpecialForm.handleAddEntry B special <> None
      <-> notBlank (SpecialForm.userName special)
          /\ SpecialForm.date special <> []
          /\ amountOk (SpecialForm.nameRupees special)
               (fun x => PrimFloat.leb x 0)
          /\ amountOk (SpecialForm.submittedRupees special)
               (fun x => PrimFloat.ltb x 0))
  /\ (forall text : JsString,
         text <> [] ->
         PrimFloat.is_nan (Forms.parseFloat B text) = true ->
         amountOk text (fun x => PrimFloat.leb x 0)
         /\ amountOk text (fun x => PrimFloat.ltb x 0)).
Proof.
  cbv zeta.
  assert (Hblank : forall text,
             truthyStr (Forms.trim text) = true
             <-> exists c, In c text /\ Forms.isWhiteSpace c = false).
  { intros text. rewrite trim_nil, negb_true_iff.
    split.
    - intros H. destruct (forallb Forms.isWhiteSpace text) eqn:E; [discriminate|].
      clear H. induction text as [|c text IH]; [discriminate|].
      simpl in E. destruct (Forms.isWhiteSpace c) eqn:Ec.
      + destruct (IH E) as (c' & Hin & Hc'). exists c'. split; [right|]; assumption.
      + exists c. split; [left; reflexivity|exact Ec].
    - intros (c & Hin & Hc).
      destruct (forallb Forms.isWhiteSpace text) eqn:E; [|reflexivity].
      rewrite forallb_forall in E. rewrite (E c Hin) in Hc. discriminate. }
  assert (Hfilled : forall text : JsString, truthyStr text = true <-> text <> []).
  { intros [|c t]; simpl; split; congruence. }
  split; [|split].
  - unfold SaudiForm.handleAddEntry, SaudiForm.validateAddForm.
    rewrite !check_noErrors.
    rewrite <- !Hblank, <- !Hfilled.
    destruct (truthyStr (SaudiForm.date saudi));
      [|simpl; intuition congruence].
    destruct (truthyStr (SaudiForm.time saudi));
      [|simpl; intuition congruence].
    destruct (truthyStr (Forms.trim (SaudiForm.refNo saudi)));
      [|simpl; intuition congruence].
    destruct (truthyStr (SaudiForm.pkrAmount saudi));
      [|simpl; intuition congruence].
    destruct (PrimFloat.leb (Forms.parseFloat B (SaudiForm.pkrAmount saudi)) 0);
      [simpl; intuition congruence|].
    destruct (truthyStr (SaudiForm.riyalRate saudi));
      [|simpl; intuition congruence].
    destruct (PrimFloat.leb (Forms.parseFloat B (SaudiForm.riyalRate saudi)) 0);
      [simpl; intuition congruence|].
    destruct (truthyStr (SaudiForm.submittedSar saudi));
      [|simpl; intuition congruence].
    destruct (PrimFloat.ltb (Forms.parseFloat B (SaudiForm.submittedSar saudi)) 0);
      simpl; intuition congruence.
  - unfold SpecialForm.handleAddEntry, SpecialForm.validateAddForm.
    rewrite !check_noErrors.
    rewrite <- !Hblank, <- !Hfilled.
    destruct (truthyStr (Forms.trim (SpecialForm.userName special)));
      [|simpl; intuition congruence].
    destruct (truthyStr (SpecialForm.date special));
      [|simpl; intuition congruence].
    destruct (truthyStr (SpecialForm.nameRupees special));
      [|simpl; intuition congruence].
    destruct (PrimFloat.leb (Forms.parseFloat B (SpecialForm.nameRupees special)) 0);
      [simpl; intuition congruence|].
    destruct (truthyStr (SpecialForm.submittedRupees special));
      [|simpl; intuition congruence].
    destruct (PrimFloat.ltb
                (Forms.parseFloat B (SpecialForm.submittedRupees special)) 0);
      simpl; intuition congruence.
  - intros text Htext Hnan.
    destruct (@nan_compares_false _ Hnan) as [Hle Hlt]. auto.
Qed.

(** What a request that was sent carries: unless they are [NaN], the PKR
    amount and the rate are above zero and the submitted amount is not
    below it. With a rate that is a number, an entry with these amounts and
    no stored riyal amount is converted by the division, never by the
    zero-rate guard, and its riyal cell is the text the form previewed. *)
Theorem validated_amounts (B : Forms.Builtins) (F : Formatter)
        (form : SaudiForm.AddFormData) (request : SaudiForm.CreateRequest) :
  SaudiForm.handleAddEntry B form = Some request ->
  (PrimFloat.is_nan (SaudiForm.newPkrAmount request) = false ->
   PrimFloat.ltb 0 (SaudiForm.newPkrAmount request) = true)
  /\ (PrimFloat.is_nan (SaudiForm.newSubmittedSar request) = false ->
      PrimFloat.leb 0 (SaudiForm.newSubmittedSar request) = true)
  /\ (PrimFloat.is_nan (SaudiForm.newRiyalRate request) = false ->
      PrimFloat.ltb 0 (SaudiForm.newRiyalRate request) = true
      /\ forall e : Saudi.SaudiEntry,
          Saudi.pkrAmount e = SaudiForm.newPkrAmount request ->
          Saudi.riyalRate e = SaudiForm.newRiyalRate request ->
          Saudi.riyalAmount e = None ->
          Saudi.riyalAmountOf e
          = (SaudiForm.newPkrAmount request / SaudiForm.newRiyalRate request)%float
          /\ nth 3 (Saudi.tableRow F e) [] = SaudiForm.riyalPreview B F form).
Proof.
  unfold SaudiForm.handleAddEntry, SaudiForm.validateAddForm.
  rewrite !check_noErrors.
  destruct (truthyStr (SaudiForm.date form)); [|discriminate].
  destruct (truthyStr (SaudiForm.time form)); [|discriminate].
  destruct (truthyStr (Forms.trim (SaudiForm.refNo form))); [|discriminate].
  destruct (truthyStr (SaudiForm.pkrAmount form)) eqn:Hpkr; [|discriminate].
  destruct (PrimFloat.leb (Forms.parseFloat B (SaudiForm.pkrAmount form)) 0)
    eqn:Hpkr0; [discriminate|].
  destruct (truthyStr (SaudiForm.riyalRate form)) eqn:Hrate; [|discriminate].
  destruct (PrimFloat.leb (Forms.parseFloat B (SaudiForm.riyalRate form)) 0)
    eqn:Hrate0; [discriminate|].
  destruct (truthyStr (SaudiForm.submittedSar form)); [|discriminate].
  destruct (PrimFloat.ltb (Forms.parseFloat B (SaudiForm.submittedSar form)) 0)
    eqn:Hsub0; [discriminate|].
  cbn [negb orb andb Forms.check Forms.noErrors List.length Nat.eqb].
  intros H. injection H as <-.
  cbn [SaudiForm.newPkrAmount SaudiForm.newRiyalRate SaudiForm.newSubmittedSar].
  split; [exact (@not_leb_zero _ Hpkr0)|].
  split; [exact (@not_ltb_zero _ Hsub0)|].
  intros Hnan. pose proof (@not_leb_zero _ Hrate0 Hnan) as Hpos.
  split; [exact Hpos|].
  intros e He1 He2 He3.
  assert (Hriyal : Saudi.riyalAmountOf e
                   = (Forms.parseFloat B (SaudiForm.pkrAmount form)
                      / Forms.parseFloat B (SaudiForm.riyalRate form))%float).
  { unfold Saudi.riyalAmountOf. rewrite He3, He2, He1, Hpos. reflexivity. }
  split; [exact Hriyal|].
  unfold SaudiForm.riyalPreview. rewrite Hpkr, Hrate, Hpos.
  cbn [andb Saudi.tableRow nth]. rewrite Hriyal. reflexivity.
Qed.

(** ** The further properties on concrete values *)

Lemma upper_bound_drops_longer_dates_witness :
  Page.keeps Saudi.date Sample.january Fixture.stamped = false.
Proof.
  refine (proj1 (@upper_bound_drops_longer_dates Saudi.SaudiEntry Saudi.date
                   Sample.january Fixture.stamped 84%N "10:00:00.000Z" _ _)).
  - discriminate.
  - reflexivity.
Defined.

Lemma wider_filter_keeps_more_witness :
  In Sample.scenario
     (filter (Page.keeps Saudi.date Fixture.fromJanuary)
        [Sample.scenario; Sample.zeroRate; Sample.stored]).
Proof.
  refine (@wider_filter_keeps_more Saudi.SaudiEntry Saudi.date
            Sample.january Fixture.fromJanuary
            [Sample.scenario; Sample.zeroRate; Sample.stored] _ _
            Sample.scenario _).
  - right. split; [discriminate|reflexivity].
  - left. reflexivity.
  - left. reflexivity.
Defined.

Lemma filter_is_chronological_witness :
  Page.keeps Saudi.date
    {| Page.fromDate := Calendar.isoDate Fixture.firstOfJanuary;
       Page.toDate := Calendar.isoDate Fixture.lastOfJanuary |}
    Sample.scenario
  = true.
Proof.
  rewrite (@filter_is_chronological Saudi.SaudiEntry Saudi.date
             Fixture.firstOfJanuary Fixture.lastOfJanuary Fixture.midJanuary
             Sample.scenario).
  - reflexivity.
  - repeat split.
  - repeat split.
  - repeat split.
  - reflexivity.
Defined.

Lemma saudi_body_fonts_witness :
  exists cells cell,
    nth_error
      (Saudi.parsedCells (PdfFonts.fontList PdfFonts.newDoc) 2 Pdf.Body
         (Saudi.tableData Sample.blank [Sample.scenario])) 0 = Some cells
    /\ nth_error cells 2 = Some cell
    /\ Pdf.font (Pdf.styles cell) = "helvetica".
Proof.
  destruct (@saudi_body_fonts (PdfFonts.fontList PdfFonts.newDoc) 2
              (Saudi.tableData Sample.blank [Sample.scenario]) 0 2
              (Saudi.tableRow Sample.blank Sample.scenario)
              (formatNumber Sample.blank 500000 ++ " PKR")
              eq_refl eq_refl)
    as (cells & cell & Hcells & Hcell & Hnumeric & _).
  exists cells, cell. split; [exact Hcells|]. split; [exact Hcell|].
  apply Hnumeric. simpl. tauto.
Defined.

Lemma only_first_export_has_font_witness :
  let s := Page.fetchEntries (Some [Sample.scenario]) Page.initial in
  let rt := snd (Saudi.handleDownloadPDF Sample.blank Sample.clock
                   Sample.offline s PdfFonts.initial) in
  let later := SaudiView.exports Sample.blank
                 [(Sample.clock, Sample.online, s);
                  (Sample.clock, Sample.online, s)] rt in
  PdfFonts.fetchLog (snd later) = [PdfFonts.fontUrl; PdfFonts.altFontUrl]
  /\ PdfFonts.loaded (PdfFonts.fontCache (snd later)) = false.
Proof.
  destruct (@only_first_export_has_font Sample.blank Sample.clock
              Sample.offline
              (Page.fetchEntries (Some [Sample.scenario]) Page.initial)
              [(Sample.clock, Sample.online,
                Page.fetchEntries (Some [Sample.scenario]) Page.initial);
               (Sample.clock, Sample.online,
                Page.fetchEntries (Some [Sample.scenario]) Page.initial)])
    as (_ & Hlog & Hloaded).
  - discriminate.
  - discriminate.
  - split; [exact Hlog|exact Hloaded].
Defined.


Lemma validated_amounts_witness :
  exists request,
    SaudiForm.handleAddEntry Fixture.builtins Fixture.form = Some request
    /\ PrimFloat.ltb 0 (SaudiForm.newRiyalRate request) = true
    /\ nth 3 (Saudi.tableRow Sample.blank Sample.scenario) []
       = SaudiForm.riyalPreview Fixture.builtins Sample.blank Fixture.form.
Proof.
  eexists. split; [reflexivity|].
  destruct (@validated_amounts Fixture.builtins Sample.blank Fixture.form _
              eq_refl) as (_ & _ & Hrate).
  destruct (Hrate eq_refl) as [Hpos Hentry].
  split; [exact Hpos|].
  exact (proj2 (Hentry Sample.scenario eq_refl eq_refl eq_refl)).
Defined.
